(** * PropManager: the rent-ledger engine of [server/routes.ts]

    A shallow embedding of the five mutating handlers of the Express
    server (invoice generation, invoice payment, payment recording with
    auto-matching, historical rent reconstruction, owner settlement
    calculation) together with the part of [server/storage.ts] they call,
    and the properties of the specification proved about them.

    A second part embeds the routes around the ledger: the two access
    checks, the list and the pages of properties, the creation of a
    property, the requests for access with their approval, rejection and
    patching, the users of a property, the units, and the registration of
    [server/auth.ts].  Further properties of both parts follow those of
    the specification.

    Modelling conventions.
    - A JavaScript number is a value of [number]: NaN, the two infinities
      or a finite rational.  Arithmetic on finite values is exact: the
      rounding of IEEE doubles and the sign of zero are not represented.
    - A [decimal] column of the database is held as the number its text
      denotes; [parseFloat] of such a column is that number, and
      [String n] written to such a column stores [n].  The rounding of a
      stored value to the scale of its column is the database's and is
      not represented.
    - A table is the list of its rows in insertion order; identity
      columns are drawn from one counter per table.
    - The server's clock is a time value in milliseconds since the epoch;
      the server's time zone is taken to be UTC. *)

From Stdlib Require Import ZArith QArith Qround Qabs Lqa Lia.
From Stdlib Require Import String Ascii.
From stdpp Require Import base list sorting gmap pretty.

Local Open Scope Z_scope.

(** ** JavaScript numbers *)

Inductive number : Type :=
| NaN
| PInf
| NInf
| Fin (q : Q).

Definition Qltb (a b : Q) : bool := negb (Qle_bool b a).

Module Num.

Definition zero : number := Fin 0.
Definition of_Z (z : Z) : number := Fin (inject_Z z).

(** [a < b]; every comparison with NaN is false. *)
Definition ltb (a b : number) : bool :=
  match a, b with
  | NaN, _ | _, NaN => false
  | PInf, _ => false
  | _, NInf => false
  | NInf, _ => true
  | _, PInf => true
  | Fin x, Fin y => Qltb x y
  end.

Definition eqb (a b : number) : bool :=
  match a, b with
  | PInf, PInf | NInf, NInf => true
  | Fin x, Fin y => Qeq_bool x y
  | _, _ => false
  end.

Definition gtb (a b : number) : bool := ltb b a.
Definition leb (a b : number) : bool := ltb a b || eqb a b.
Definition geb (a b : number) : bool := leb b a.

Definition neg (a : number) : number :=
  match a with
  | NaN => NaN
  | PInf => NInf
  | NInf => PInf
  | Fin x => Fin (- x)
  end.

Definition add (a b : number) : number :=
  match a, b with
  | NaN, _ | _, NaN => NaN
  | PInf, NInf | NInf, PInf => NaN
  | PInf, _ | _, PInf => PInf
  | NInf, _ | _, NInf => NInf
  | Fin x, Fin y => Fin (x + y)
  end.

Definition sub (a b : number) : number := add a (neg b).

(** The infinity of the sign of [x], NaN when [x] is zero. *)
Definition signed_inf (x : Q) : number :=
  if Qltb 0 x then PInf else if Qltb x 0 then NInf else NaN.

Definition mul (a b : number) : number :=
  match a, b with
  | NaN, _ | _, NaN => NaN
  | Fin x, Fin y => Fin (x * y)
  | Fin x, PInf | PInf, Fin x => signed_inf x
  | Fin x, NInf | NInf, Fin x => signed_inf (- x)
  | PInf, PInf | NInf, NInf => PInf
  | PInf, NInf | NInf, PInf => NInf
  end.

(** A finite zero divisor is the positive zero: the handlers only
    divide by [1 + rate] and by the literal [100]. *)
Definition div (a b : number) : number :=
  match a, b with
  | NaN, _ | _, NaN => NaN
  | Fin x, Fin y => if Qeq_bool y 0 then signed_inf x else Fin (x / y)
  | Fin _, (PInf | NInf) => Fin 0
  | PInf, Fin y => if Qltb y 0 then NInf else PInf
  | NInf, Fin y => if Qltb y 0 then PInf else NInf
  | (PInf | NInf), (PInf | NInf) => NaN
  end.

(** [Math.abs] *)
Definition abs (a : number) : number :=
  match a with
  | NaN => NaN
  | PInf | NInf => PInf
  | Fin x => Fin (Qabs x)
  end.

(** [Math.round]: the nearest integer, a tie going up. *)
Definition round (a : number) : number :=
  match a with
  | Fin x => Fin (inject_Z (Qfloor (x + (1 # 2))))
  | other => other
  end.

(** Equality of numbers up to the representation of a rational. *)
Definition eq (a b : number) : Prop :=
  match a, b with
  | NaN, NaN | PInf, PInf | NInf, NInf => True
  | Fin x, Fin y => (x == y)%Q
  | _, _ => False
  end.

End Num.

(** ** Strings to numbers: [parseFloat] *)

Definition is_white_space (c : ascii) : bool :=
  let n := nat_of_ascii c in
  (Nat.eqb n 9 || Nat.eqb n 10 || Nat.eqb n 11 || Nat.eqb n 12
   || Nat.eqb n 13 || Nat.eqb n 32)%bool.

Fixpoint trim_start (s : string) : string :=
  match s with
  | String c rest => if is_white_space c then trim_start rest else s
  | EmptyString => EmptyString
  end.

Definition digit_of (c : ascii) : option Z :=
  let n := Z.of_nat (nat_of_ascii c) in
  if (48 <=? n) && (n <=? 57) then Some (n - 48) else None.

(** The longest prefix of decimal digits of [s]: its value on top of
    [acc], how many digits were read, and what follows them. *)
Fixpoint read_digits (s : string) (acc : Z) (count : nat) : Z * nat * string :=
  match s with
  | String c rest =>
      match digit_of c with
      | Some d => read_digits rest (10 * acc + d) (S count)
      | None => (acc, count, s)
      end
  | EmptyString => (acc, count, s)
  end.

Definition pow10 (e : Z) : Q :=
  if 0 <=? e then inject_Z (10 ^ e) else / inject_Z (10 ^ (- e)).

(** The exponent part [e±ddd] when it is complete, else no exponent. *)
Definition read_exponent (s : string) : Z :=
  match s with
  | String c rest =>
      if (Ascii.eqb c "e" || Ascii.eqb c "E")%bool then
        let '(sign, digits) :=
          match rest with
          | String "+" r => (1, r)
          | String "-" r => (-1, r)
          | _ => (1, rest)
          end in
        let '(v, n, _) := read_digits digits 0 O in
        match n with O => 0 | _ => sign * v end
      else 0
  | EmptyString => 0
  end.

Definition is_prefix_of (p s : string) : bool :=
  String.prefix p s.

(** An unsigned [StrDecimalLiteral] at the start of [s]. *)
Definition read_unsigned (s : string) : option number :=
  if is_prefix_of "Infinity" s then Some PInf else
  let '(ip, ni, after_int) := read_digits s 0 O in
  let '(fp, nf, after_frac) :=
    match after_int with
    | String "." r => read_digits r 0 O
    | _ => (0, O, after_int)
    end in
  match ni, nf with
  | O, O => None
  | _, _ =>
      let mantissa := (inject_Z ip + inject_Z fp * pow10 (- Z.of_nat nf))%Q in
      Some (Fin (Qred (mantissa * pow10 (read_exponent after_frac))))
  end.

(** [parseFloat] on a string: leading white space is skipped, the longest
    numeric prefix is read, and the result is NaN when there is none. *)
Definition parseFloat_string (s : string) : number :=
  match trim_start s with
  | String "-" r =>
      match read_unsigned r with Some n => Num.neg n | None => NaN end
  | String "+" r =>
      match read_unsigned r with Some n => n | None => NaN end
  | t => match read_unsigned t with Some n => n | None => NaN end
  end.

(** ** Values of a JSON request body *)

Inductive jsval : Type :=
| JUndefined
| JNull
| JBool (b : bool)
| JNumber (q : Q)
| JString (s : string).

(** Truthiness, as [!v] and [v || d] test it. *)
Definition truthy (v : jsval) : bool :=
  match v with
  | JUndefined | JNull => false
  | JBool b => b
  | JNumber q => negb (Qeq_bool q 0)
  | JString s => negb (String.eqb s "")
  end.

(** [parseFloat v]: the argument is first converted to a string; the text
    of a number parses back to that number. *)
Definition parseFloat (v : jsval) : number :=
  match v with
  | JNumber q => Fin q
  | JString s => parseFloat_string s
  | JUndefined | JNull | JBool _ => NaN
  end.

(** ** Dates *)

Module Date.

Definition msPerDay : Z := 86400000.

(** Days from 1970-01-01 to the first day of month index [mn] (0..11)
    of year [y] in the proleptic Gregorian calendar. *)
Definition day_from_year_month (y mn : Z) : Z :=
  let m := mn + 1 in
  let y' := if m <=? 2 then y - 1 else y in
  let era := y' / 400 in
  let yoe := y' - era * 400 in
  let doy := (153 * (if 2 <? m then m - 3 else m + 9) + 2) / 5 in
  let doe := yoe * 365 + yoe / 4 - yoe / 100 + doy in
  era * 146097 + doe - 719468.

(** [MakeDay(year, month, date)]: the month index may lie outside
    0..11 and the date outside the month; both carry over. *)
Definition MakeDay (year month date : Z) : Z :=
  let ym := year + month / 12 in
  let mn := month mod 12 in
  day_from_year_month ym mn + date - 1.

(** [TimeClip]: a time value beyond 8.64e15 ms is an invalid date. *)
Definition TimeClip (t : Z) : option Z :=
  if Z.abs t <=? 8640000000000000 then Some t else None.

(** [new Date(year, monthIndex, day)]: local midnight of that day; a
    year in 0..99 means 1900 + year.  [None] is the invalid date. *)
Definition make (year monthIndex day : Z) : option Z :=
  let yr := if (0 <=? year) && (year <=? 99) then 1900 + year else year in
  TimeClip (MakeDay yr monthIndex day * msPerDay).

(** [a > b] on two dates: both are converted to their time values, and
    the comparison is false when one of them is invalid. *)
Definition gt (a b : option Z) : bool :=
  match a, b with
  | Some x, Some y => y <? x
  | _, _ => false
  end.

(** Year, month (1..12) and day of the month of a day number. *)
Definition civil_from_days (z : Z) : Z * Z * Z :=
  let z' := z + 719468 in
  let era := z' / 146097 in
  let doe := z' - era * 146097 in
  let yoe := (doe - doe / 1460 + doe / 36524 - doe / 146096) / 365 in
  let doy := doe - (365 * yoe + yoe / 4 - yoe / 100) in
  let mp := (5 * doy + 2) / 153 in
  let d := doy - (153 * mp + 2) / 5 + 1 in
  let m := if mp <? 10 then mp + 3 else mp - 9 in
  ((if m <=? 2 then yoe + era * 400 + 1 else yoe + era * 400), m, d).

Definition civil (t : Z) : Z * Z * Z := civil_from_days (t / msPerDay).

(** [getFullYear()] and [getMonth()] (0..11) of a time value. *)
Definition getFullYear (t : Z) : Z := (civil t).1.1.
Definition getMonth (t : Z) : Z := (civil t).1.2 - 1.

Definition padStart (width : nat) (fill : ascii) (s : string) : string :=
  String.append
    (string_of_list_ascii (repeat fill (width - String.length s)%nat)) s.

(** [toISOString().split("T")[0]]: the UTC date, with the expanded
    six-digit year outside 0..9999. *)
Definition toISODate (t : Z) : string :=
  let '(y, m, d) := civil t in
  let year :=
    if (0 <=? y) && (y <=? 9999) then padStart 4 "0" (pretty y)
    else String.append (if y <? 0 then "-" else "+")
                       (padStart 6 "0" (pretty (Z.abs y))) in
  String.append year
    (String.append "-"
       (String.append (padStart 2 "0" (pretty m))
          (String.append "-" (padStart 2 "0" (pretty d))))).

End Date.

(** ** The schema ([shared/schema.ts])

    A [decimal] column is a [number] (see the conventions above); the
    [createdAt] columns, which no handler below reads, are left out. *)

Inductive PaymentStatus := Paid | Late | Partial | Unpaid.
Inductive UserRole := SuperAdmin | PropertyOwner | CoOwner | Accountant | TenantRole.
Inductive AccessStatus := Pending | Approved | Rejected.
Inductive PaymentSource := Manual | Bank | Online.
Inductive MatchStatus := Matched | Unmatched.

#[global] Instance PaymentStatus_eq_dec : EqDecision PaymentStatus.
Proof. solve_decision. Defined.
#[global] Instance UserRole_eq_dec : EqDecision UserRole.
Proof. solve_decision. Defined.
#[global] Instance AccessStatus_eq_dec : EqDecision AccessStatus.
Proof. solve_decision. Defined.

Definition PaymentStatus_eqb (a b : PaymentStatus) : bool :=
  match a, b with
  | Paid, Paid | Late, Late | Partial, Partial | Unpaid, Unpaid => true
  | _, _ => false
  end.

Definition UserRole_eqb (a b : UserRole) : bool :=
  match a, b with
  | SuperAdmin, SuperAdmin | PropertyOwner, PropertyOwner | CoOwner, CoOwner
  | Accountant, Accountant | TenantRole, TenantRole => true
  | _, _ => false
  end.

Definition AccessStatus_eqb (a b : AccessStatus) : bool :=
  match a, b with
  | Pending, Pending | Approved, Approved | Rejected, Rejected => true
  | _, _ => false
  end.

Module PropertyUser.
Record t := mk {
  id : Z;
  userId : Z;
  propertyId : Z;
  role : UserRole;
  status : AccessStatus;
  ownershipPercent : option number;
}.
End PropertyUser.

Module Unit.
Record t := mk {
  id : Z;
  propertyId : Z;
  unitName : string;
  monthlyRent : number;
}.
End Unit.

Module Tenant.
Record t := mk {
  id : Z;
  unitId : Z;
  name : string;
  rentDueDay : Z;
  isActive : Z;
}.
End Tenant.

(** The text of an invoice's [notes], kept structured: a literal text or
    the template the reconstruction fills in,
    [Reconstructed: ${yearlyIncreasePercent}% annual increase from PKR
    ${currentRent}]. *)
Inductive Note :=
| NoteText (s : string)
| NoteReconstructed (yearlyIncreasePercent currentRent : jsval).

Module RentInvoice.
Record t := mk {
  id : Z;
  tenantId : Z;
  unitId : Z;
  month : Z;
  year : Z;
  amount : number;
  status : PaymentStatus;
  paidAmount : option number;
  paidDate : option string;
  paymentMethod : option string;
  receiptNumber : option string;
  isHistorical : Z;
  isDisputed : Z;
  notes : option Note;
}.

(** [InsertRentInvoice]: the columns a handler gives; the others take
    their defaults. *)
Record insert := mkInsert {
  i_tenantId : Z;
  i_unitId : Z;
  i_month : Z;
  i_year : Z;
  i_amount : number;
  i_status : PaymentStatus;
  i_paidAmount : option number;
  i_receiptNumber : option string;
  i_isHistorical : Z;
  i_notes : option Note;
}.

(** [Partial<InsertRentInvoice>] restricted to the columns the
    handlers set; [None] is an absent key. *)
Record patch := mkPatch {
  p_status : option PaymentStatus;
  p_paidAmount : option number;
  p_paidDate : option string;
  p_paymentMethod : option string;
}.

Definition row (new_id : Z) (d : insert) : t :=
  {| id := new_id; tenantId := i_tenantId d; unitId := i_unitId d;
     month := i_month d; year := i_year d; amount := i_amount d;
     status := i_status d;
     paidAmount := Some (default (Fin 0) (i_paidAmount d));
     paidDate := None; paymentMethod := None;
     receiptNumber := i_receiptNumber d;
     isHistorical := i_isHistorical d; isDisputed := 0;
     notes := i_notes d |}.

Definition set (p : patch) (r : t) : t :=
  {| id := id r; tenantId := tenantId r; unitId := unitId r;
     month := month r; year := year r; amount := amount r;
     status := default (status r) (p_status p);
     paidAmount :=
       match p_paidAmount p with Some a => Some a | None => paidAmount r end;
     paidDate :=
       match p_paidDate p with Some d => Some d | None => paidDate r end;
     paymentMethod :=
       match p_paymentMethod p with
       | Some m => Some m
       | None => paymentMethod r
       end;
     receiptNumber := receiptNumber r;
     isHistorical := isHistorical r; isDisputed := isDisputed r;
     notes := notes r |}.
End RentInvoice.

Module OwnerSettlement.
Record t := mk {
  id : Z;
  propertyId : Z;
  userId : Z;
  month : Z;
  year : Z;
  totalRent : number;
  ownerShare : number;
  amountDistributed : number;
  balance : number;
}.

Record insert := mkInsert {
  i_propertyId : Z;
  i_userId : Z;
  i_month : Z;
  i_year : Z;
  i_totalRent : number;
  i_ownerShare : number;
  i_amountDistributed : number;
  i_balance : number;
}.

Definition row (new_id : Z) (d : insert) : t :=
  {| id := new_id; propertyId := i_propertyId d; userId := i_userId d;
     month := i_month d; year := i_year d; totalRent := i_totalRent d;
     ownerShare := i_ownerShare d;
     amountDistributed := i_amountDistributed d;
     balance := i_balance d |}.
End OwnerSettlement.

Module Payment.
Record t := mk {
  id : Z;
  amount : number;
  date : string;
  referenceNumber : option string;
  source : PaymentSource;
  matchedInvoiceId : option Z;
  status : MatchStatus;
  tenantName : option string;
}.

(** [InsertPayment]: what [insertPaymentSchema] lets through. *)
Record insert := mkInsert {
  i_amount : number;
  i_date : string;
  i_referenceNumber : option string;
  i_source : option PaymentSource;
  i_matchedInvoiceId : option Z;
  i_status : option MatchStatus;
  i_tenantName : option string;
}.

Definition row (new_id : Z) (d : insert) : t :=
  {| id := new_id; amount := i_amount d; date := i_date d;
     referenceNumber := i_referenceNumber d;
     source := default Manual (i_source d);
     matchedInvoiceId := i_matchedInvoiceId d;
     status := default Unmatched (i_status d);
     tenantName := i_tenantName d |}.

(** The update [{ matchedInvoiceId, status }] of a matched payment. *)
Definition set_match (invoiceId : Z) (st : MatchStatus) (r : t) : t :=
  {| id := id r; amount := amount r; date := date r;
     referenceNumber := referenceNumber r; source := source r;
     matchedInvoiceId := Some invoiceId; status := st;
     tenantName := tenantName r |}.
End Payment.

(** What [JSON.stringify] is given for the [oldValue] and [newValue] of
    an audit entry, kept structured. *)
Inductive Snapshot :=
| SnapInvoiceState (status : PaymentStatus) (paidAmount : option number)
| SnapReconstruct (currentRent yearlyIncreasePercent : jsval)
                  (startYear : Z) (records : nat)
| SnapPayment (p : Payment.t).

Module AuditLog.
Record t := mk {
  id : Z;
  userId : option Z;
  action : string;
  tableName : option string;
  recordId : option Z;
  oldValue : option Snapshot;
  newValue : option Snapshot;
}.
End AuditLog.

(** ** The store and [DatabaseStorage] ([server/storage.ts]) *)

Record Store := mkStore {
  propertyUsers : list PropertyUser.t;
  units : list Unit.t;
  tenants : list Tenant.t;
  rentInvoices : list RentInvoice.t;
  ownerSettlements : list OwnerSettlement.t;
  payments : list Payment.t;
  auditLogs : list AuditLog.t;
  nextRentInvoiceId : Z;
  nextOwnerSettlementId : Z;
  nextPaymentId : Z;
  nextAuditLogId : Z;
}.

(** A storage call or a handler: it reads the store and returns its
    result with the store it leaves. *)
Definition DB (A : Type) : Type := Store -> A * Store.

Definition ret {A} (a : A) : DB A := fun st => (a, st).

Definition bind {A B} (m : DB A) (k : A -> DB B) : DB B :=
  fun st => let (a, st') := m st in k a st'.

Definition gets {A} (f : Store -> A) : DB A := fun st => (f st, st).

Notation "'let*' x ':=' m 'in' k" := (bind m (fun x => k))
  (at level 10, x name, m at level 99, k at level 200).
Notation "m ';;' k" := (bind m (fun _ => k))
  (at level 100, k at level 200, right associativity).

(** [for (const x of l) body]: the loop threads the variables [acc]
    that its body assigns. *)
Fixpoint for_of {A S} (l : list A) (body : A -> S -> DB S) (acc : S) : DB S :=
  match l with
  | [] => ret acc
  | x :: rest => let* acc' := body x acc in for_of rest body acc'
  end.

Module storage.

Definition set_rentInvoices (l : list RentInvoice.t) (next : Z) (st : Store) : Store :=
  {| propertyUsers := propertyUsers st; units := units st;
     tenants := tenants st; rentInvoices := l;
     ownerSettlements := ownerSettlements st; payments := payments st;
     auditLogs := auditLogs st; nextRentInvoiceId := next;
     nextOwnerSettlementId := nextOwnerSettlementId st;
     nextPaymentId := nextPaymentId st;
     nextAuditLogId := nextAuditLogId st |}.

Definition set_ownerSettlements (l : list OwnerSettlement.t) (next : Z) (st : Store) : Store :=
  {| propertyUsers := propertyUsers st; units := units st;
     tenants := tenants st; rentInvoices := rentInvoices st;
     ownerSettlements := l; payments := payments st;
     auditLogs := auditLogs st; nextRentInvoiceId := nextRentInvoiceId st;
     nextOwnerSettlementId := next;
     nextPaymentId := nextPaymentId st;
     nextAuditLogId := nextAuditLogId st |}.

Definition set_payments (l : list Payment.t) (next : Z) (st : Store) : Store :=
  {| propertyUsers := propertyUsers st; units := units st;
     tenants := tenants st; rentInvoices := rentInvoices st;
     ownerSettlements := ownerSettlements st; payments := l;
     auditLogs := auditLogs st; nextRentInvoiceId := nextRentInvoiceId st;
     nextOwnerSettlementId := nextOwnerSettlementId st;
     nextPaymentId := next;
     nextAuditLogId := nextAuditLogId st |}.

Definition set_auditLogs (l : list AuditLog.t) (next : Z) (st : Store) : Store :=
  {| propertyUsers := propertyUsers st; units := units st;
     tenants := tenants st; rentInvoices := rentInvoices st;
     ownerSettlements := ownerSettlements st; payments := payments st;
     auditLogs := l; nextRentInvoiceId := nextRentInvoiceId st;
     nextOwnerSettlementId := nextOwnerSettlementId st;
     nextPaymentId := nextPaymentId st;
     nextAuditLogId := next |}.

(** Property users *)
Definition getPropertyUsers (propertyId : Z) : DB (list PropertyUser.t) :=
  gets (fun st =>
    filter (fun pu => PropertyUser.propertyId pu = propertyId) (propertyUsers st)).

(** Units *)
Definition getUnits (propertyId : Z) : DB (list Unit.t) :=
  gets (fun st => filter (fun u => Unit.propertyId u = propertyId) (units st)).

Definition getUnit (id : Z) : DB (option Unit.t) :=
  gets (fun st => head (filter (fun u => Unit.id u = id) (units st))).

(** Tenants *)
Definition getTenants : DB (list Tenant.t) := gets tenants.

Definition getTenantsByUnit (unitId : Z) : DB (list Tenant.t) :=
  gets (fun st => filter (fun t => Tenant.unitId t = unitId) (tenants st)).

Definition getTenant (id : Z) : DB (option Tenant.t) :=
  gets (fun st => head (filter (fun t => Tenant.id t = id) (tenants st))).

(** Rent invoices *)

(** [orderBy(desc(year), desc(month))]: [a] may come before [b].  SQL
    leaves the order of two rows of one period open; here the sort
    decides it. *)
Definition newer_first (a b : RentInvoice.t) : Prop :=
  RentInvoice.year b < RentInvoice.year a
  \/ (RentInvoice.year b = RentInvoice.year a
      /\ RentInvoice.month b <= RentInvoice.month a).

#[global] Instance newer_first_dec : RelDecision newer_first :=
  fun a b =>
    or_dec (Z_lt_dec (RentInvoice.year b) (RentInvoice.year a))
           (and_dec (Z.eq_dec (RentInvoice.year b) (RentInvoice.year a))
                    (Z_le_dec (RentInvoice.month b) (RentInvoice.month a))).

Definition getRentInvoices : DB (list RentInvoice.t) :=
  gets (fun st => merge_sort newer_first (rentInvoices st)).

Definition getRentInvoice (id : Z) : DB (option RentInvoice.t) :=
  gets (fun st => head (filter (fun i => RentInvoice.id i = id) (rentInvoices st))).

Definition createRentInvoice (data : RentInvoice.insert) : DB RentInvoice.t :=
  fun st =>
    let invoice := RentInvoice.row (nextRentInvoiceId st) data in
    (invoice,
     set_rentInvoices (rentInvoices st ++ [invoice]) (nextRentInvoiceId st + 1) st).

Definition update_where {A} (hit : A -> bool) (f : A -> A) (l : list A) : list A :=
  map (fun r => if hit r then f r else r) l.

Definition updateRentInvoice (id : Z) (data : RentInvoice.patch)
  : DB (option RentInvoice.t) :=
  fun st =>
    let hit := fun r => RentInvoice.id r =? id in
    let rows := update_where hit (RentInvoice.set data) (rentInvoices st) in
    (head (filter (fun r => RentInvoice.id r = id) rows),
     set_rentInvoices rows (nextRentInvoiceId st) st).

Definition getRentInvoicesByMonth (month year : Z) : DB (list RentInvoice.t) :=
  gets (fun st =>
    filter (fun i => RentInvoice.month i = month /\ RentInvoice.year i = year)
           (rentInvoices st)).

(** Owner settlements *)
Definition createOwnerSettlement (data : OwnerSettlement.insert)
  : DB OwnerSettlement.t :=
  fun st =>
    let s := OwnerSettlement.row (nextOwnerSettlementId st) data in
    (s, set_ownerSettlements (ownerSettlements st ++ [s])
          (nextOwnerSettlementId st + 1) st).

(** Payments *)
Definition createPayment (data : Payment.insert) : DB Payment.t :=
  fun st =>
    let p := Payment.row (nextPaymentId st) data in
    (p, set_payments (payments st ++ [p]) (nextPaymentId st + 1) st).

Definition updatePayment (id : Z) (invoiceId : Z) (status : MatchStatus)
  : DB (option Payment.t) :=
  fun st =>
    let hit := fun r => Payment.id r =? id in
    let rows := update_where hit (Payment.set_match invoiceId status) (payments st) in
    (head (filter (fun r => Payment.id r = id) rows),
     set_payments rows (nextPaymentId st) st).

(** Audit logs *)
Definition createAuditLog (userId : Z) (action : string) (tableName : string)
    (recordId : Z) (oldValue newValue : option Snapshot) : DB AuditLog.t :=
  fun st =>
    let log := {| AuditLog.id := nextAuditLogId st;
                  AuditLog.userId := Some userId;
                  AuditLog.action := action;
                  AuditLog.tableName := Some tableName;
                  AuditLog.recordId := Some recordId;
                  AuditLog.oldValue := oldValue;
                  AuditLog.newValue := newValue |} in
    (log, set_auditLogs (auditLogs st ++ [log]) (nextAuditLogId st + 1) st).

End storage.

(** ** The handlers ([server/routes.ts])

    A handler runs for an authenticated user; the integers of the route
    and of the body arrive parsed. *)

Inductive Response (A : Type) : Type :=
| Json (code : Z) (body : A)
| Fail (code : Z) (message : string).
Arguments Json {A} code body.
Arguments Fail {A} code message.

Definition String_padStart := Date.padStart.

(** The text of a stored [decimal] is never empty, hence truthy. *)
Definition decimal_truthy (d : number) : bool := true.

(** [parseFloat(d || "0")] on a nullable [decimal] column. *)
Definition parseFloat_or_zero (d : option number) : number :=
  match d with
  | Some n => if decimal_truthy n then n else Num.zero
  | None => Num.zero
  end.

(** *** POST /api/invoices/generate *)

Module Generated.
Record t := mk {
  generated : nat;
  invoices : list RentInvoice.t;
}.
End Generated.

Definition INV_receipt (year month tenantId : Z) : string :=
  String.append "INV-"
    (String.append (pretty year)
       (String.append (String_padStart 2 "0" (pretty month))
          (String.append "-" (pretty tenantId)))).

Definition generate_one (month year : Z) (existingTenantIds : gset Z)
    (tenant : Tenant.t) (created : list RentInvoice.t)
  : DB (list RentInvoice.t) :=
  if decide (Tenant.id tenant ∈ existingTenantIds) then ret created else
  let* unit := storage.getUnit (Tenant.unitId tenant) in
  match unit with
  | None => ret created
  | Some unit =>
      let receiptNum := INV_receipt year month (Tenant.id tenant) in
      let* invoice := storage.createRentInvoice
        {| RentInvoice.i_tenantId := Tenant.id tenant;
           RentInvoice.i_unitId := Tenant.unitId tenant;
           RentInvoice.i_month := month;
           RentInvoice.i_year := year;
           RentInvoice.i_amount := Unit.monthlyRent unit;
           RentInvoice.i_status := Unpaid;
           RentInvoice.i_paidAmount := Some Num.zero;
           RentInvoice.i_receiptNumber := Some receiptNum;
           RentInvoice.i_isHistorical := 0;
           RentInvoice.i_notes := None |} in
      ret (created ++ [invoice])
  end.

Definition generateInvoices (month year : Z) : DB (Response Generated.t) :=
  if (month =? 0) || (year =? 0) then
    ret (Fail 400 "month and year required")
  else
    let* allTenants := storage.getTenants in
    let activeTenants := filter (fun t => Tenant.isActive t = 1) allTenants in
    let* existingInvoices := storage.getRentInvoicesByMonth month year in
    let existingTenantIds : gset Z :=
      list_to_set (RentInvoice.tenantId <$> existingInvoices) in
    let* created :=
      for_of activeTenants (generate_one month year existingTenantIds) [] in
    ret (Json 201 {| Generated.generated := length created;
                     Generated.invoices := created |}).

(** *** POST /api/invoices/:id/pay *)

(** [parseFloat(paidAmount || invoice.amount)] *)
Definition paid_of (paidAmount : jsval) (invoice : RentInvoice.t) : number :=
  if truthy paidAmount then parseFloat paidAmount
  else RentInvoice.amount invoice.

(** [tenant?.rentDueDay || 1] *)
Definition dueDay_of (tenant : option Tenant.t) : Z :=
  match tenant with
  | Some t => if Tenant.rentDueDay t =? 0 then 1 else Tenant.rentDueDay t
  | None => 1
  end.

(** [paymentMethod || "cash"] *)
Definition method_of (paymentMethod : option string) : string :=
  match paymentMethod with
  | Some m => if String.eqb m "" then "cash" else m
  | None => "cash"
  end.

Definition payInvoice (now userId id : Z) (paidAmount : jsval)
    (paymentMethod : option string) : DB (Response (option RentInvoice.t)) :=
  let* invoice := storage.getRentInvoice id in
  match invoice with
  | None => ret (Fail 404 "Not found")
  | Some invoice =>
      let paid := paid_of paidAmount invoice in
      let total := RentInvoice.amount invoice in
      if Num.ltb paid Num.zero then
        ret (Fail 400 "Payment amount cannot be negative")
      else if Num.gtb paid total then
        ret (Fail 400 "Payment amount cannot exceed invoice total")
      else
        let* status :=
          if Num.geb paid total then
            let* tenant := storage.getTenant (RentInvoice.tenantId invoice) in
            let dueDay := dueDay_of tenant in
            let today := Some now in
            let dueDate :=
              Date.make (RentInvoice.year invoice)
                        (RentInvoice.month invoice - 1) dueDay in
            ret (if Date.gt today dueDate then Late else Paid)
          else ret Partial in
        let* updated := storage.updateRentInvoice (RentInvoice.id invoice)
          {| RentInvoice.p_status := Some status;
             RentInvoice.p_paidAmount := Some paid;
             RentInvoice.p_paidDate := Some (Date.toISODate now);
             RentInvoice.p_paymentMethod := Some (method_of paymentMethod) |} in
        storage.createAuditLog userId "mark_payment" "rent_invoices"
          (RentInvoice.id invoice)
          (Some (SnapInvoiceState (RentInvoice.status invoice)
                                  (RentInvoice.paidAmount invoice)))
          (Some (SnapInvoiceState status (Some paid)));;
        ret (Json 200 updated)
  end.

(** *** POST /api/units/:unitId/reconstruct-history *)

Module YearRent.
Record t := mk {
  year : Z;
  rent : number;
}.
End YearRent.

Module Reconstructed.
Record t := mk {
  generated : nat;
  yearlyRents : list YearRent.t;
  invoices : list RentInvoice.t;
}.
End Reconstructed.

(** [v || d] on an optional integer of the body. *)
Definition int_or (v : option Z) (d : Z) : Z :=
  match v with
  | Some z => if z =? 0 then d else z
  | None => d
  end.

(** The loop [for (let y = currentYear; y >= sYear; y--)], [n] turns of
    it being left: each turn puts the year's rounded rent in front of
    [yearlyRents] and, before an earlier year, divides the rent. *)
Fixpoint yearly_loop (n : nat) (y sYear : Z) (rate rent : number)
    (yearlyRents : list YearRent.t) : list YearRent.t :=
  match n with
  | O => yearlyRents
  | S n' =>
      let yearlyRents' := YearRent.mk y (Num.round rent) :: yearlyRents in
      let rent' :=
        if sYear <? y then Num.div rent (Num.add (Num.of_Z 1) rate) else rent in
      yearly_loop n' (y - 1) sYear rate rent' yearlyRents'
  end.

Definition yearlyRents_of (currentYear sYear : Z) (rate rent : number)
  : list YearRent.t :=
  yearly_loop (Z.to_nat (currentYear - sYear + 1)) currentYear sYear rate rent [].

Definition HIST_receipt (year month unitId : Z) : string :=
  String.append "HIST-"
    (String.append (pretty year)
       (String.append (String_padStart 2 "0" (pretty month))
          (String.append "-" (pretty unitId)))).

(** [tenantsByUnit.find(t => t.isActive === 1) || tenantsByUnit[0]] *)
Definition pick_tenant (tenantsByUnit : list Tenant.t) : option Tenant.t :=
  match List.find (fun t => Tenant.isActive t =? 1) tenantsByUnit with
  | Some t => Some t
  | None => head tenantsByUnit
  end.

Definition reconstruct_month (unitId : Z) (currentRent yearlyIncreasePercent : jsval)
    (yr : YearRent.t) (m : Z) (created : list RentInvoice.t)
  : DB (list RentInvoice.t) :=
  let* existing := storage.getRentInvoicesByMonth m (YearRent.year yr) in
  let alreadyExists :=
    List.find (fun inv => RentInvoice.unitId inv =? unitId) existing in
  match alreadyExists with
  | Some _ => ret created
  | None =>
      let* tenantsByUnit := storage.getTenantsByUnit unitId in
      match pick_tenant tenantsByUnit with
      | Some activeTenant =>
          let receiptNum := HIST_receipt (YearRent.year yr) m unitId in
          let* invoice := storage.createRentInvoice
            {| RentInvoice.i_tenantId := Tenant.id activeTenant;
               RentInvoice.i_unitId := unitId;
               RentInvoice.i_month := m;
               RentInvoice.i_year := YearRent.year yr;
               RentInvoice.i_amount := YearRent.rent yr;
               RentInvoice.i_status := Unpaid;
               RentInvoice.i_paidAmount := Some Num.zero;
               RentInvoice.i_receiptNumber := Some receiptNum;
               RentInvoice.i_isHistorical := 1;
               RentInvoice.i_notes :=
                 Some (NoteReconstructed yearlyIncreasePercent currentRent) |} in
          ret (created ++ [invoice])
      | None => ret created
      end
  end.

(** The months [beginMonth..endMonth] of one reconstructed year. *)
Definition months_of (currentYear currentMonth sYear sMonth : Z) (yr : YearRent.t)
  : list Z :=
  let endMonth := if YearRent.year yr =? currentYear then currentMonth else 12 in
  let beginMonth := if YearRent.year yr =? sYear then sMonth else 1 in
  seqZ beginMonth (endMonth - beginMonth + 1).

Definition reconstruct_year (unitId : Z) (currentRent yearlyIncreasePercent : jsval)
    (currentYear currentMonth sYear sMonth : Z)
    (yr : YearRent.t) (created : list RentInvoice.t) : DB (list RentInvoice.t) :=
  for_of (months_of currentYear currentMonth sYear sMonth yr)
         (reconstruct_month unitId currentRent yearlyIncreasePercent yr) created.

Definition reconstructHistory (now userId unitId : Z)
    (currentRent yearlyIncreasePercent : jsval) (startYear startMonth : option Z)
  : DB (Response Reconstructed.t) :=
  if negb (truthy currentRent) || negb (truthy yearlyIncreasePercent) then
    ret (Fail 400 "currentRent and yearlyIncreasePercent required")
  else
    let* unit := storage.getUnit unitId in
    match unit with
    | None => ret (Fail 404 "Unit not found")
    | Some _ =>
        let sYear := int_or startYear 2015 in
        let sMonth := int_or startMonth 1 in
        let rate := Num.div (parseFloat yearlyIncreasePercent) (Num.of_Z 100) in
        let currentYear := Date.getFullYear now in
        let currentMonth := Date.getMonth now + 1 in
        let yearlyRents :=
          yearlyRents_of currentYear sYear rate (parseFloat currentRent) in
        let* created :=
          for_of yearlyRents
            (reconstruct_year unitId currentRent yearlyIncreasePercent
               currentYear currentMonth sYear sMonth) [] in
        storage.createAuditLog userId "reconstruct_history" "rent_invoices"
          unitId None
          (Some (SnapReconstruct currentRent yearlyIncreasePercent sYear
                                 (length created)));;
        ret (Json 201 {| Reconstructed.generated := length created;
                         Reconstructed.yearlyRents := yearlyRents;
                         Reconstructed.invoices := created |})
    end.

(** *** POST /api/properties/:propertyId/calculate-settlements *)

Definition is_approved_owner (o : PropertyUser.t) : bool :=
  AccessStatus_eqb (PropertyUser.status o) Approved
  && (UserRole_eqb (PropertyUser.role o) PropertyOwner
      || UserRole_eqb (PropertyUser.role o) CoOwner).

(** [unitIds.includes(x)] *)
Definition includes (unitIds : list Z) (x : Z) : bool :=
  existsb (Z.eqb x) unitIds.

(** [invoices.reduce((sum, inv) => sum + parseFloat(inv.paidAmount || "0"), 0)] *)
Definition sum_paidAmount (invoices : list RentInvoice.t) : number :=
  fold_left
    (fun sum inv => Num.add sum (parseFloat_or_zero (RentInvoice.paidAmount inv)))
    invoices Num.zero.

Definition share_of (totalRent : number) (owner : PropertyUser.t) : number :=
  let percent := parseFloat_or_zero (PropertyUser.ownershipPercent owner) in
  Num.div (Num.mul totalRent percent) (Num.of_Z 100).

Definition settle_one (propertyId month year : Z) (totalRent : number)
    (owner : PropertyUser.t) (settlements : list OwnerSettlement.t)
  : DB (list OwnerSettlement.t) :=
  let share := share_of totalRent owner in
  let* settlement := storage.createOwnerSettlement
    {| OwnerSettlement.i_propertyId := propertyId;
       OwnerSettlement.i_userId := PropertyUser.userId owner;
       OwnerSettlement.i_month := month;
       OwnerSettlement.i_year := year;
       OwnerSettlement.i_totalRent := totalRent;
       OwnerSettlement.i_ownerShare := share;
       OwnerSettlement.i_amountDistributed := Num.zero;
       OwnerSettlement.i_balance := share |} in
  ret (settlements ++ [settlement]).

Definition calculateSettlements (propertyId month year : Z)
  : DB (Response (list OwnerSettlement.t)) :=
  let* propertyUnits := storage.getUnits propertyId in
  let unitIds := Unit.id <$> propertyUnits in
  let* allInvoices := storage.getRentInvoicesByMonth month year in
  let propertyInvoices :=
    filter (fun inv => includes unitIds (RentInvoice.unitId inv)) allInvoices in
  let totalRent := sum_paidAmount propertyInvoices in
  let* owners := storage.getPropertyUsers propertyId in
  let approvedOwners := filter is_approved_owner owners in
  let* settlements :=
    for_of approvedOwners (settle_one propertyId month year totalRent) [] in
  ret (Json 201 settlements).

(** *** POST /api/payments *)

(** The predicate of [allInvoices.find] in the auto-matcher. *)
Definition matches (payment : Payment.t) (inv : RentInvoice.t) : bool :=
  if PaymentStatus_eqb (RentInvoice.status inv) Paid then false
  else
    Num.ltb (Num.abs (Num.sub (RentInvoice.amount inv) (Payment.amount payment)))
            (Num.of_Z 1).

Definition text_truthy (s : option string) : bool :=
  match s with
  | Some t => negb (String.eqb t "")
  | None => false
  end.

Definition recordPayment (userId : Z) (data : Payment.insert)
  : DB (Response Payment.t) :=
  let* payment := storage.createPayment data in
  let* payment :=
    if decimal_truthy (Payment.amount payment)
       && text_truthy (Payment.tenantName payment) then
      let* allInvoices := storage.getRentInvoices in
      match List.find (matches payment) allInvoices with
      | Some match_ =>
          storage.updatePayment (Payment.id payment)
            (RentInvoice.id match_) Matched;;
          storage.updateRentInvoice (RentInvoice.id match_)
            {| RentInvoice.p_status := Some Paid;
               RentInvoice.p_paidAmount := Some (Payment.amount payment);
               RentInvoice.p_paidDate := Some (Payment.date payment);
               RentInvoice.p_paymentMethod := None |};;
          ret (Payment.set_match (RentInvoice.id match_) Matched payment)
      | None => ret payment
      end
    else ret payment in
  storage.createAuditLog userId "add_payment" "payments" (Payment.id payment)
    None (Some (SnapPayment payment));;
  ret (Json 201 payment).

(** ** Derived notions used in the statements *)

Definition invoice_by_id (st : Store) (id : Z) : option RentInvoice.t :=
  head (filter (fun i => RentInvoice.id i = id) (rentInvoices st)).

(** The due date the handler builds for an invoice: local midnight of
    the tenant's due day in the invoice's month. *)
Definition dueDate_of (st : Store) (inv : RentInvoice.t) : option Z :=
  Date.make (RentInvoice.year inv) (RentInvoice.month inv - 1)
    (dueDay_of (head (filter (fun t => Tenant.id t = RentInvoice.tenantId inv)
                        (tenants st)))).

(** The status the handler decides for an invoice and an amount paid. *)
Definition status_of (now : Z) (st : Store) (inv : RentInvoice.t) (paid : number)
  : PaymentStatus :=
  if Num.geb paid (RentInvoice.amount inv) then
    if Date.gt (Some now) (dueDate_of st inv) then Late else Paid
  else Partial.

Definition pay_patch (now : Z) (st : Store) (inv : RentInvoice.t) (paid : number)
    (paymentMethod : option string) : RentInvoice.patch :=
  {| RentInvoice.p_status := Some (status_of now st inv paid);
     RentInvoice.p_paidAmount := Some paid;
     RentInvoice.p_paidDate := Some (Date.toISODate now);
     RentInvoice.p_paymentMethod := Some (method_of paymentMethod) |}.

(** A small ledger used to run the handlers: one property with two
    approved owners, two units, and the tenant of the first unit, whose
    rent of 1000 is due on the 5th, invoiced for June 2025. *)
Module Sample.

Definition owners : list PropertyUser.t :=
  [ PropertyUser.mk 1 10 1 PropertyOwner Approved (Some (Fin 60));
    PropertyUser.mk 2 11 1 CoOwner Approved (Some (Fin 40));
    PropertyUser.mk 3 12 1 Accountant Approved (Some (Fin 0)) ].

Definition tenant : Tenant.t := Tenant.mk 1 1 "Ahmed Khan" 5 1.

Definition invoice : RentInvoice.t :=
  {| RentInvoice.id := 1; RentInvoice.tenantId := 1; RentInvoice.unitId := 1;
     RentInvoice.month := 6; RentInvoice.year := 2025;
     RentInvoice.amount := Fin 1000; RentInvoice.status := Unpaid;
     RentInvoice.paidAmount := Some (Fin 0); RentInvoice.paidDate := None;
     RentInvoice.paymentMethod := None;
     RentInvoice.receiptNumber := Some "INV-202506-1"%string;
     RentInvoice.isHistorical := 0; RentInvoice.isDisputed := 0;
     RentInvoice.notes := None |}.

Definition store : Store :=
  {| propertyUsers := owners;
     units := [Unit.mk 1 1 "A-1" (Fin 1000); Unit.mk 2 1 "A-2" (Fin 45000)];
     tenants := [tenant];
     rentInvoices := [invoice];
     ownerSettlements := []; payments := []; auditLogs := [];
     nextRentInvoiceId := 2; nextOwnerSettlementId := 1;
     nextPaymentId := 1; nextAuditLogId := 1 |}.

(** The same ledger once the June rents of both units were collected:
    55000 and 45000. *)
Definition collected_store : Store :=
  {| propertyUsers := owners;
     units := units store;
     tenants := [tenant; Tenant.mk 2 2 "Sara Malik" 1 1];
     rentInvoices :=
       [ RentInvoice.mk 1 1 1 6 2025 (Fin 55000) Paid (Some (Fin 55000))
           (Some "2025-06-03"%string) (Some "cash"%string)
           (Some "INV-202506-1"%string) 0 0 None;
         RentInvoice.mk 2 2 2 6 2025 (Fin 45000) Late (Some (Fin 45000))
           (Some "2025-06-20"%string) (Some "cash"%string)
           (Some "INV-202506-2"%string) 0 0 None;
         RentInvoice.mk 3 2 2 5 2025 (Fin 45000) Paid (Some (Fin 45000))
           (Some "2025-05-01"%string) (Some "cash"%string)
           (Some "INV-202505-2"%string) 0 0 None ];
     ownerSettlements := []; payments := []; auditLogs := [];
     nextRentInvoiceId := 4; nextOwnerSettlementId := 1;
     nextPaymentId := 1; nextAuditLogId := 1 |}.

(** A ledger for the auto-matcher: the rent of 80000 of unit 3 is
    invoiced for April, May and June 2025; April was paid on time, May
    was paid in full but late, June is unpaid. *)
Definition matching_store : Store :=
  {| propertyUsers := owners;
     units := [Unit.mk 3 1 "B-1" (Fin 80000)];
     tenants := [Tenant.mk 3 3 "Bilal Hussain" 10 1];
     rentInvoices :=
       [ RentInvoice.mk 1 3 3 4 2025 (Fin 80000) Paid (Some (Fin 80000))
           (Some "2025-04-08"%string) (Some "cash"%string)
           (Some "INV-202504-3"%string) 0 0 None;
         RentInvoice.mk 2 3 3 5 2025 (Fin 80000) Late (Some (Fin 80000))
           (Some "2025-05-21"%string) (Some "cash"%string)
           (Some "INV-202505-3"%string) 0 0 None;
         RentInvoice.mk 3 3 3 6 2025 (Fin 80000) Unpaid (Some (Fin 0))
           None None (Some "INV-202506-3"%string) 0 0 None ];
     ownerSettlements := []; payments := []; auditLogs := [];
     nextRentInvoiceId := 4; nextOwnerSettlementId := 1;
     nextPaymentId := 1; nextAuditLogId := 1 |}.

(** The ledger of the auto-matcher a month earlier: May, paid late, is
    its newest invoice. *)
Definition late_store : Store :=
  {| propertyUsers := owners;
     units := units matching_store;
     tenants := tenants matching_store;
     rentInvoices := take 2 (rentInvoices matching_store);
     ownerSettlements := []; payments := []; auditLogs := [];
     nextRentInvoiceId := 3; nextOwnerSettlementId := 1;
     nextPaymentId := 1; nextAuditLogId := 1 |}.

(** A payment of 79999.50 and one of 78000, both naming the tenant. *)
Definition payment_79999_50 : Payment.insert :=
  {| Payment.i_amount := Fin (159999 # 2);
     Payment.i_date := "2025-06-12";
     Payment.i_referenceNumber := None;
     Payment.i_source := Some Bank;
     Payment.i_matchedInvoiceId := None;
     Payment.i_status := None;
     Payment.i_tenantName := Some "Bilal Hussain"%string |}.


(** 2025-06-03 12:00, 2025-06-05 12:00 and 2025-06-06 12:00. *)
Definition june_3rd_noon : Z := 1748952000000.
Definition june_5th_noon : Z := 1749124800000.
Definition june_6th_noon : Z := 1749211200000.

End Sample.


(** The invoices of a period that belong to a unit of a property. *)
Definition property_invoices (st : Store) (propertyId month year : Z)
  : list RentInvoice.t :=
  filter (fun inv =>
            RentInvoice.month inv = month /\ RentInvoice.year inv = year
            /\ Exists (fun u => Unit.propertyId u = propertyId
                                /\ Unit.id u = RentInvoice.unitId inv)
                      (units st))
         (rentInvoices st).



(** The rows of a property with status approved and an owner's role. *)
Definition approved_owners (st : Store) (propertyId : Z) : list PropertyUser.t :=
  filter (fun o =>
            PropertyUser.propertyId o = propertyId
            /\ PropertyUser.status o = Approved
            /\ (PropertyUser.role o = PropertyOwner
                \/ PropertyUser.role o = CoOwner))
         (propertyUsers st).

(** The ownership percentage of a row: 0 when the column is null. *)
Definition percent_of (o : PropertyUser.t) : number :=
  default Num.zero (PropertyUser.ownershipPercent o).

(** The settlement row the calculator writes for an owner. *)
Definition settlement_row (propertyId month year : Z) (totalRent : number)
    (id : Z) (owner : PropertyUser.t) : OwnerSettlement.t :=
  {| OwnerSettlement.id := id;
     OwnerSettlement.propertyId := propertyId;
     OwnerSettlement.userId := PropertyUser.userId owner;
     OwnerSettlement.month := month;
     OwnerSettlement.year := year;
     OwnerSettlement.totalRent := totalRent;
     OwnerSettlement.ownerShare :=
       Num.div (Num.mul totalRent (percent_of owner)) (Num.of_Z 100);
     OwnerSettlement.amountDistributed := Num.zero;
     OwnerSettlement.balance :=
       Num.div (Num.mul totalRent (percent_of owner)) (Num.of_Z 100) |}.

(** A settlement row without its identity. *)
Definition settlement_content (r : OwnerSettlement.t) : OwnerSettlement.insert :=
  {| OwnerSettlement.i_propertyId := OwnerSettlement.propertyId r;
     OwnerSettlement.i_userId := OwnerSettlement.userId r;
     OwnerSettlement.i_month := OwnerSettlement.month r;
     OwnerSettlement.i_year := OwnerSettlement.year r;
     OwnerSettlement.i_totalRent := OwnerSettlement.totalRent r;
     OwnerSettlement.i_ownerShare := OwnerSettlement.ownerShare r;
     OwnerSettlement.i_amountDistributed := OwnerSettlement.amountDistributed r;
     OwnerSettlement.i_balance := OwnerSettlement.balance r |}.

(** The rows written for a list of owners, numbered from [next]. *)
Fixpoint settlement_rows (propertyId month year : Z) (totalRent : number)
    (next : Z) (owners : list PropertyUser.t) : list OwnerSettlement.t :=
  match owners with
  | [] => []
  | o :: rest =>
      settlement_row propertyId month year totalRent next o
      :: settlement_rows propertyId month year totalRent (next + 1) rest
  end.

(** The update the auto-matcher applies to the invoice it matched. *)
Definition match_patch (payment : Payment.t) : RentInvoice.patch :=
  {| RentInvoice.p_status := Some Paid;
     RentInvoice.p_paidAmount := Some (Payment.amount payment);
     RentInvoice.p_paidDate := Some (Payment.date payment);
     RentInvoice.p_paymentMethod := None |}.

(** The tenants that already have an invoice for a period. *)
Definition invoiced_tenants (st : Store) (month year : Z) : gset Z :=
  list_to_set
    (RentInvoice.tenantId
       <$> filter (fun i => RentInvoice.month i = month /\ RentInvoice.year i = year)
                  (rentInvoices st)).

Definition find_unit (us : list Unit.t) (id : Z) : option Unit.t :=
  head (filter (fun u => Unit.id u = id) us).

Definition unit_by_id (st : Store) (id : Z) : option Unit.t :=
  find_unit (units st) id.

(** The active tenants a run of the generator bills: those without an
    invoice for the period whose unit exists. *)
Definition billable (st : Store) (month year : Z) : list Tenant.t :=
  filter (fun t =>
            Tenant.isActive t = 1
            /\ (Tenant.id t ∉ invoiced_tenants st month year)
            /\ is_Some (unit_by_id st (Tenant.unitId t)))
         (tenants st).

(** The invoice the generator writes for a tenant of a unit. *)
Definition generated_invoice (month year id : Z) (t : Tenant.t) (u : Unit.t)
  : RentInvoice.t :=
  RentInvoice.row id
    {| RentInvoice.i_tenantId := Tenant.id t;
       RentInvoice.i_unitId := Tenant.unitId t;
       RentInvoice.i_month := month;
       RentInvoice.i_year := year;
       RentInvoice.i_amount := Unit.monthlyRent u;
       RentInvoice.i_status := Unpaid;
       RentInvoice.i_paidAmount := Some Num.zero;
       RentInvoice.i_receiptNumber :=
         Some (INV_receipt year month (Tenant.id t));
       RentInvoice.i_isHistorical := 0;
       RentInvoice.i_notes := None |}.

(** The invoices one pass over the tenants writes, numbered from [next],
    given the tenants already invoiced. *)
Fixpoint generated_rows (month year : Z) (existing : gset Z)
    (us : list Unit.t) (next : Z) (ts : list Tenant.t) : list RentInvoice.t :=
  match ts with
  | [] => []
  | t :: rest =>
      if decide (Tenant.id t ∈ existing) then
        generated_rows month year existing us next rest
      else
        match find_unit us (Tenant.unitId t) with
        | None => generated_rows month year existing us next rest
        | Some u =>
            generated_invoice month year next t u
            :: generated_rows month year existing us (next + 1) rest
        end
  end.

(** The invoices a response of the generator reports. *)
Definition created_of (r : Response Generated.t) : list RentInvoice.t :=
  match r with
  | Json _ b => Generated.invoices b
  | Fail _ _ => []
  end.

(** An invoice of the unit exists for the period among [invs]. *)
Definition covered (invs : list RentInvoice.t) (unitId month year : Z) : Prop :=
  Exists (fun inv =>
            RentInvoice.unitId inv = unitId
            /\ RentInvoice.month inv = month /\ RentInvoice.year inv = year)
         invs.

(** The store after the invoices [new] were inserted. *)
Definition grow (st : Store) (new : list RentInvoice.t) : Store :=
  storage.set_rentInvoices (rentInvoices st ++ new)
    (nextRentInvoiceId st + Z.of_nat (length new)) st.

(** The periods the reconstruction goes through, in order: each year of
    [yearlyRents] with its months. *)
Definition periods (currentYear currentMonth sYear sMonth : Z)
    (yearlyRents : list YearRent.t) : list (YearRent.t * Z) :=
  flat_map (fun yr => pair yr <$> months_of currentYear currentMonth sYear sMonth yr)
           yearlyRents.

(** The tenant the reconstruction attributes its invoices to. *)
Definition tenant_of_unit (st : Store) (unitId : Z) : option Tenant.t :=
  pick_tenant (filter (fun t => Tenant.unitId t = unitId) (tenants st)).

(** The invoice the reconstruction writes for a period. *)
Definition reconstructed_invoice (unitId : Z) (currentRent yearlyIncreasePercent : jsval)
    (id : Z) (t : Tenant.t) (yr : YearRent.t) (m : Z) : RentInvoice.t :=
  RentInvoice.row id
    {| RentInvoice.i_tenantId := Tenant.id t;
       RentInvoice.i_unitId := unitId;
       RentInvoice.i_month := m;
       RentInvoice.i_year := YearRent.year yr;
       RentInvoice.i_amount := YearRent.rent yr;
       RentInvoice.i_status := Unpaid;
       RentInvoice.i_paidAmount := Some Num.zero;
       RentInvoice.i_receiptNumber := Some (HIST_receipt (YearRent.year yr) m unitId);
       RentInvoice.i_isHistorical := 1;
       RentInvoice.i_notes :=
         Some (NoteReconstructed yearlyIncreasePercent currentRent) |}.

(** The invoices a response of the reconstruction reports. *)
Definition reconstructed_of (r : Response Reconstructed.t) : list RentInvoice.t :=
  match r with
  | Json _ b => Reconstructed.invoices b
  | Fail _ _ => []
  end.








(** The audit row a successful payment writes. *)
Definition pay_log (now userId : Z) (st : Store) (inv : RentInvoice.t)
    (paid : number) : AuditLog.t :=
  {| AuditLog.id := nextAuditLogId st;
     AuditLog.userId := Some userId;
     AuditLog.action := "mark_payment";
     AuditLog.tableName := Some "rent_invoices"%string;
     AuditLog.recordId := Some (RentInvoice.id inv);
     AuditLog.oldValue :=
       Some (SnapInvoiceState (RentInvoice.status inv) (RentInvoice.paidAmount inv));
     AuditLog.newValue :=
       Some (SnapInvoiceState (status_of now st inv paid) (Some paid)) |}.

(** Two invoice rows that differ at most in the four columns a payment
    writes. *)
Definition same_billing (r r' : RentInvoice.t) : Prop :=
  RentInvoice.id r' = RentInvoice.id r
  /\ RentInvoice.tenantId r' = RentInvoice.tenantId r
  /\ RentInvoice.unitId r' = RentInvoice.unitId r
  /\ RentInvoice.month r' = RentInvoice.month r
  /\ RentInvoice.year r' = RentInvoice.year r
  /\ RentInvoice.amount r' = RentInvoice.amount r
  /\ RentInvoice.receiptNumber r' = RentInvoice.receiptNumber r
  /\ RentInvoice.isHistorical r' = RentInvoice.isHistorical r
  /\ RentInvoice.isDisputed r' = RentInvoice.isDisputed r
  /\ RentInvoice.notes r' = RentInvoice.notes r.

(** The bank transfer of [Sample.payment_79999_50] entered without a
    tenant name. *)
Definition unnamed_payment : Payment.insert :=
  {| Payment.i_amount := Fin (159999 # 2);
     Payment.i_date := "2025-06-12";
     Payment.i_referenceNumber := None;
     Payment.i_source := Some Bank;
     Payment.i_matchedInvoiceId := None;
     Payment.i_status := None;
     Payment.i_tenantName := None |}.

(** The invoice ids of a ledger, in table order. *)
Definition invoice_ids (st : Store) : list Z :=
  RentInvoice.id <$> rentInvoices st.

(** What an invoice bills: its tenant and its period. *)
Definition billing_key (inv : RentInvoice.t) : Z * Z * Z :=
  (RentInvoice.tenantId inv, RentInvoice.month inv, RentInvoice.year inv).

Definition billing_keys (st : Store) : list (Z * Z * Z) :=
  billing_key <$> rentInvoices st.

(** ** Accounts, properties and access ([server/routes.ts], [server/auth.ts])

    The handlers of this part read and write, besides the property users
    of the ledger, the tables [users] and [properties]; [Database] adds
    them to the [Store], with the identity counters the ledger handlers
    never draw from.  The audit rows these handlers write carry whole
    records; they are kept in [adminLogs] and numbered from the ledger's
    audit counter, so that both lists together are the table
    [audit_logs].

    A statement the database refuses (a foreign key that points nowhere,
    a second row with a unique value, an update that sets nothing) makes
    the storage call throw: [Throw] is the exception, which the routes
    do not catch and [register] turns into a 500.  A refused insert has
    drawn its identity value all the same.  The body of a request is
    taken after [safeParse]; a role is one of the enumeration's values
    and an ownership percentage is a number. *)

Inductive PropertyType := Residential | Commercial.
Inductive OwnershipType := Single | Multi.

Module User.
Record t := mk {
  id : Z;
  username : string;
  password : string;
  fullName : string;
  email : option string;
  phone : option string;
  role : UserRole;
}.

(** [InsertUser] *)
Record insert := mkInsert {
  i_username : string;
  i_password : string;
  i_fullName : string;
  i_email : option string;
  i_phone : option string;
  i_role : option UserRole;
}.

Definition row (new_id : Z) (d : insert) : t :=
  {| id := new_id; username := i_username d; password := i_password d;
     fullName := i_fullName d; email := i_email d; phone := i_phone d;
     role := default PropertyOwner (i_role d) |}.

(** [const { password: _, ...safeUser } = user] *)
Record safe := mkSafe {
  s_id : Z;
  s_username : string;
  s_fullName : string;
  s_email : option string;
  s_phone : option string;
  s_role : UserRole;
}.

Definition safeUser (u : t) : safe :=
  {| s_id := id u; s_username := username u; s_fullName := fullName u;
     s_email := email u; s_phone := phone u; s_role := role u |}.
End User.

Module Property.
Record t := mk {
  id : Z;
  name : string;
  address : string;
  type : PropertyType;
  ownershipType : OwnershipType;
  totalUnits : Z;
  createdById : option Z;
}.

(** [InsertProperty] *)
Record insert := mkInsert {
  i_name : string;
  i_address : string;
  i_type : option PropertyType;
  i_ownershipType : option OwnershipType;
  i_totalUnits : option Z;
  i_createdById : option Z;
}.

Definition row (new_id : Z) (d : insert) : t :=
  {| id := new_id; name := i_name d; address := i_address d;
     type := default Residential (i_type d);
     ownershipType := default Single (i_ownershipType d);
     totalUnits := default 1 (i_totalUnits d);
     createdById := i_createdById d |}.

(** [{ ...req.body, createdById }] *)
Definition created_by (userId : Z) (d : insert) : insert :=
  {| i_name := i_name d; i_address := i_address d; i_type := i_type d;
     i_ownershipType := i_ownershipType d; i_totalUnits := i_totalUnits d;
     i_createdById := Some userId |}.
End Property.

(** [InsertPropertyUser] and [Partial<InsertPropertyUser>]; [None] is an
    absent key. *)
Module PropertyUserData.
Record insert := mkInsert {
  i_userId : Z;
  i_propertyId : Z;
  i_role : option UserRole;
  i_status : option AccessStatus;
  i_ownershipPercent : option number;
}.

Record patch := mkPatch {
  p_userId : option Z;
  p_propertyId : option Z;
  p_role : option UserRole;
  p_status : option AccessStatus;
  p_ownershipPercent : option number;
}.

Definition row (new_id : Z) (d : insert) : PropertyUser.t :=
  {| PropertyUser.id := new_id;
     PropertyUser.userId := i_userId d;
     PropertyUser.propertyId := i_propertyId d;
     PropertyUser.role := default CoOwner (i_role d);
     PropertyUser.status := default Pending (i_status d);
     PropertyUser.ownershipPercent :=
       Some (default (Fin 0) (i_ownershipPercent d)) |}.

Definition set (p : patch) (r : PropertyUser.t) : PropertyUser.t :=
  {| PropertyUser.id := PropertyUser.id r;
     PropertyUser.userId := default (PropertyUser.userId r) (p_userId p);
     PropertyUser.propertyId :=
       default (PropertyUser.propertyId r) (p_propertyId p);
     PropertyUser.role := default (PropertyUser.role r) (p_role p);
     PropertyUser.status := default (PropertyUser.status r) (p_status p);
     PropertyUser.ownershipPercent :=
       match p_ownershipPercent p with
       | Some n => Some n
       | None => PropertyUser.ownershipPercent r
       end |}.

Definition sets_nothing (p : patch) : bool :=
  match p with
  | mkPatch None None None None None => true
  | _ => false
  end.

(** [{ status }] *)
Definition status_only (s : AccessStatus) : patch :=
  mkPatch None None None (Some s) None.
End PropertyUserData.

(** [InsertUnit] and [Partial<InsertUnit>]. *)
Module UnitData.
Record insert := mkInsert {
  i_propertyId : Z;
  i_unitName : string;
  i_monthlyRent : option number;
}.

Record patch := mkPatch {
  p_propertyId : option Z;
  p_unitName : option string;
  p_monthlyRent : option number;
}.

Definition row (new_id : Z) (d : insert) : Unit.t :=
  {| Unit.id := new_id; Unit.propertyId := i_propertyId d;
     Unit.unitName := i_unitName d;
     Unit.monthlyRent := default (Fin 0) (i_monthlyRent d) |}.

Definition set (p : patch) (r : Unit.t) : Unit.t :=
  {| Unit.id := Unit.id r;
     Unit.propertyId := default (Unit.propertyId r) (p_propertyId p);
     Unit.unitName := default (Unit.unitName r) (p_unitName p);
     Unit.monthlyRent := default (Unit.monthlyRent r) (p_monthlyRent p) |}.

Definition sets_nothing (p : patch) : bool :=
  match p with
  | mkPatch None None None => true
  | _ => false
  end.

(** [{ monthlyRent }] *)
Definition rent_only (rent : number) : patch := mkPatch None None (Some rent).
End UnitData.

(** What [JSON.stringify] is given for the values of these audit rows. *)
Inductive Stringified :=
| OfProperty (p : Property.t)
| OfPropertyUser (pu : PropertyUser.t)
| OfUnit (u : Unit.t).

Module AdminLog.
Record t := mk {
  id : Z;
  userId : option Z;
  action : string;
  tableName : option string;
  recordId : option Z;
  oldValue : option Stringified;
  newValue : option Stringified;
}.
End AdminLog.

Record Database := mkDatabase {
  ledger : Store;
  users : list User.t;
  properties : list Property.t;
  adminLogs : list AdminLog.t;
  nextUserId : Z;
  nextPropertyId : Z;
  nextPropertyUserId : Z;
  nextUnitId : Z;
}.

Inductive Result (A : Type) : Type :=
| Ok (a : A)
| Throw (message : string).
Arguments Ok {A} a.
Arguments Throw {A} message.

(** A storage call or a handler on the whole database. *)
Definition App (A : Type) : Type := Database -> Result A * Database.

Definition ok {A} (a : A) : App A := fun db => (Ok a, db).

Definition throw {A} (message : string) : App A := fun db => (Throw message, db).

Definition and_then {A B} (m : App A) (k : A -> App B) : App B :=
  fun db =>
    match m db with
    | (Ok a, db') => k a db'
    | (Throw message, db') => (Throw message, db')
    end.

Definition reads {A} (f : Database -> A) : App A := fun db => (Ok (f db), db).

(** [try { body } catch (err) { handler(err.message) }] *)
Definition try_catch {A} (body : App A) (handler : string -> App A) : App A :=
  fun db =>
    match body db with
    | (Ok a, db') => (Ok a, db')
    | (Throw message, db') => handler message db'
    end.

Notation "'let!' x ':=' m 'in' k" := (and_then m (fun x => k))
  (at level 10, x name, m at level 99, k at level 200).
Notation "m ';;!' k" := (and_then m (fun _ => k))
  (at level 100, k at level 200, right associativity).

Module DatabaseStorage.

Definition set_ledger (st : Store) (db : Database) : Database :=
  {| ledger := st; users := users db; properties := properties db;
     adminLogs := adminLogs db; nextUserId := nextUserId db;
     nextPropertyId := nextPropertyId db;
     nextPropertyUserId := nextPropertyUserId db;
     nextUnitId := nextUnitId db |}.

Definition set_users (l : list User.t) (next : Z) (db : Database) : Database :=
  {| ledger := ledger db; users := l; properties := properties db;
     adminLogs := adminLogs db; nextUserId := next;
     nextPropertyId := nextPropertyId db;
     nextPropertyUserId := nextPropertyUserId db;
     nextUnitId := nextUnitId db |}.

Definition set_properties (l : list Property.t) (next : Z) (db : Database)
  : Database :=
  {| ledger := ledger db; users := users db; properties := l;
     adminLogs := adminLogs db; nextUserId := nextUserId db;
     nextPropertyId := next;
     nextPropertyUserId := nextPropertyUserId db;
     nextUnitId := nextUnitId db |}.

Definition set_propertyUsers (l : list PropertyUser.t) (next : Z) (db : Database)
  : Database :=
  {| ledger :=
       {| propertyUsers := l; units := units (ledger db);
          tenants := tenants (ledger db);
          rentInvoices := rentInvoices (ledger db);
          ownerSettlements := ownerSettlements (ledger db);
          payments := payments (ledger db);
          auditLogs := auditLogs (ledger db);
          nextRentInvoiceId := nextRentInvoiceId (ledger db);
          nextOwnerSettlementId := nextOwnerSettlementId (ledger db);
          nextPaymentId := nextPaymentId (ledger db);
          nextAuditLogId := nextAuditLogId (ledger db) |};
     users := users db; properties := properties db;
     adminLogs := adminLogs db; nextUserId := nextUserId db;
     nextPropertyId := nextPropertyId db;
     nextPropertyUserId := next;
     nextUnitId := nextUnitId db |}.

Definition set_units (l : list Unit.t) (next : Z) (db : Database) : Database :=
  {| ledger :=
       {| propertyUsers := propertyUsers (ledger db); units := l;
          tenants := tenants (ledger db);
          rentInvoices := rentInvoices (ledger db);
          ownerSettlements := ownerSettlements (ledger db);
          payments := payments (ledger db);
          auditLogs := auditLogs (ledger db);
          nextRentInvoiceId := nextRentInvoiceId (ledger db);
          nextOwnerSettlementId := nextOwnerSettlementId (ledger db);
          nextPaymentId := nextPaymentId (ledger db);
          nextAuditLogId := nextAuditLogId (ledger db) |};
     users := users db; properties := properties db;
     adminLogs := adminLogs db; nextUserId := nextUserId db;
     nextPropertyId := nextPropertyId db;
     nextPropertyUserId := nextPropertyUserId db;
     nextUnitId := next |}.

Definition set_adminLogs (l : list AdminLog.t) (next : Z) (db : Database)
  : Database :=
  {| ledger := storage.set_auditLogs (auditLogs (ledger db)) next (ledger db);
     users := users db; properties := properties db;
     adminLogs := l; nextUserId := nextUserId db;
     nextPropertyId := nextPropertyId db;
     nextPropertyUserId := nextPropertyUserId db;
     nextUnitId := nextUnitId db |}.

(** The foreign keys [references(() => users.id)] and
    [references(() => properties.id)]. *)
Definition user_exists (db : Database) (id : Z) : Prop :=
  id ∈ User.id <$> users db.

Definition property_exists (db : Database) (id : Z) : Prop :=
  id ∈ Property.id <$> properties db.

#[global] Instance user_exists_dec db id : Decision (user_exists db id).
Proof. unfold user_exists. apply _. Defined.

#[global] Instance property_exists_dec db id : Decision (property_exists db id).
Proof. unfold property_exists. apply _. Defined.

(** Users *)
Definition getUser (id : Z) : App (option User.t) :=
  reads (fun db => head (filter (fun u => User.id u = id) (users db))).

Definition getUserByUsername (username : string) : App (option User.t) :=
  reads (fun db =>
    head (filter (fun u => User.username u = username) (users db))).

(** [username] is [unique()]. *)
Definition createUser (data : User.insert) : App User.t :=
  fun db =>
    if decide (User.i_username data ∈ User.username <$> users db) then
      (Throw "duplicate key value violates unique constraint",
       set_users (users db) (nextUserId db + 1) db)
    else
      let user := User.row (nextUserId db) data in
      (Ok user, set_users (users db ++ [user]) (nextUserId db + 1) db).


(** Properties *)

(** [orderBy(desc(createdAt))]: a row inserted later was created later. *)
Definition getProperties : App (list Property.t) :=
  reads (fun db => reverse (properties db)).

Definition getProperty (id : Z) : App (option Property.t) :=
  reads (fun db => head (filter (fun p => Property.id p = id) (properties db))).

Definition createProperty (data : Property.insert) : App Property.t :=
  fun db =>
    if match Property.i_createdById data with
       | Some id => bool_decide (user_exists db id)
       | None => true
       end
    then
      let property := Property.row (nextPropertyId db) data in
      (Ok property,
       set_properties (properties db ++ [property]) (nextPropertyId db + 1) db)
    else
      (Throw "violates foreign key constraint",
       set_properties (properties db) (nextPropertyId db + 1) db).

Definition getPropertiesByUser (userId : Z) : App (list Property.t) :=
  let! pu := reads (fun db =>
    filter (fun pu => PropertyUser.userId pu = userId
                      /\ PropertyUser.status pu = Approved)
           (propertyUsers (ledger db))) in
  match pu with
  | [] => ok []
  | _ =>
      let propIds := PropertyUser.propertyId <$> pu in
      let! all := reads properties in
      ok (List.filter (fun p => includes propIds (Property.id p)) all)
  end.

(** Property users *)
Definition getPropertyUsers (propertyId : Z) : App (list PropertyUser.t) :=
  reads (fun db => fst (storage.getPropertyUsers propertyId (ledger db))).

Definition getPropertyUserById (id : Z) : App (option PropertyUser.t) :=
  reads (fun db =>
    head (filter (fun pu => PropertyUser.id pu = id) (propertyUsers (ledger db)))).

Definition getPropertyUser (userId propertyId : Z) : App (option PropertyUser.t) :=
  reads (fun db =>
    head (filter (fun pu => PropertyUser.userId pu = userId
                            /\ PropertyUser.propertyId pu = propertyId)
                 (propertyUsers (ledger db)))).

Definition createPropertyUser (data : PropertyUserData.insert)
  : App PropertyUser.t :=
  fun db =>
    if decide (user_exists db (PropertyUserData.i_userId data)
               /\ property_exists db (PropertyUserData.i_propertyId data))
    then
      let pu := PropertyUserData.row (nextPropertyUserId db) data in
      (Ok pu,
       set_propertyUsers (propertyUsers (ledger db) ++ [pu])
         (nextPropertyUserId db + 1) db)
    else
      (Throw "violates foreign key constraint",
       set_propertyUsers (propertyUsers (ledger db))
         (nextPropertyUserId db + 1) db).

Definition updatePropertyUser (id : Z) (data : PropertyUserData.patch)
  : App (option PropertyUser.t) :=
  fun db =>
    if PropertyUserData.sets_nothing data then (Throw "No values to set", db)
    else
      let hit := fun r => PropertyUser.id r =? id in
      let rows :=
        storage.update_where hit (PropertyUserData.set data)
          (propertyUsers (ledger db)) in
      let updated := filter (fun r => PropertyUser.id r = id) rows in
      if decide (Forall (fun r => user_exists db (PropertyUser.userId r)
                                  /\ property_exists db (PropertyUser.propertyId r))
                        updated)
      then (Ok (head updated), set_propertyUsers rows (nextPropertyUserId db) db)
      else (Throw "violates foreign key constraint", db).

(** Units *)
Definition getUnits (propertyId : Z) : App (list Unit.t) :=
  reads (fun db => fst (storage.getUnits propertyId (ledger db))).

Definition getAllUnits : App (list Unit.t) :=
  reads (fun db => units (ledger db)).

Definition getUnit (id : Z) : App (option Unit.t) :=
  reads (fun db => fst (storage.getUnit id (ledger db))).

Definition createUnit (data : UnitData.insert) : App Unit.t :=
  fun db =>
    if decide (property_exists db (UnitData.i_propertyId data)) then
      let unit := UnitData.row (nextUnitId db) data in
      (Ok unit, set_units (units (ledger db) ++ [unit]) (nextUnitId db + 1) db)
    else
      (Throw "violates foreign key constraint",
       set_units (units (ledger db)) (nextUnitId db + 1) db).

Definition updateUnit (id : Z) (data : UnitData.patch) : App (option Unit.t) :=
  fun db =>
    if UnitData.sets_nothing data then (Throw "No values to set", db)
    else
      let hit := fun r => Unit.id r =? id in
      let rows :=
        storage.update_where hit (UnitData.set data) (units (ledger db)) in
      let updated := filter (fun r => Unit.id r = id) rows in
      if decide (Forall (fun r => property_exists db (Unit.propertyId r)) updated)
      then (Ok (head updated), set_units rows (nextUnitId db) db)
      else (Throw "violates foreign key constraint", db).

(** Deletions.  The foreign keys of [tenants] and [rent_invoices] are
    [onDelete: "cascade"]: the tenants of a deleted unit go with it, and
    so do the invoices of a deleted unit or tenant.
    [payments.matched_invoice_id] references [rent_invoices] without an
    action: while a payment points to an invoice, a statement that would
    delete the invoice is refused as a whole. *)
Definition goes_with_unit (st : Store) (unitId : Z) (inv : RentInvoice.t) : Prop :=
  RentInvoice.unitId inv = unitId
  \/ RentInvoice.tenantId inv
     ∈ Tenant.id <$> filter (fun t => Tenant.unitId t = unitId) (tenants st).

Definition matched_by_payment (st : Store) (inv : RentInvoice.t) : Prop :=
  Some (RentInvoice.id inv) ∈ Payment.matchedInvoiceId <$> payments st.

#[global] Instance goes_with_unit_dec st unitId inv :
  Decision (goes_with_unit st unitId inv).
Proof. unfold goes_with_unit. apply _. Defined.

#[global] Instance matched_by_payment_dec st inv :
  Decision (matched_by_payment st inv).
Proof. unfold matched_by_payment. apply _. Defined.

Definition set_tables (us : list Unit.t) (ts : list Tenant.t)
    (invs : list RentInvoice.t) (db : Database) : Database :=
  set_ledger
    {| propertyUsers := propertyUsers (ledger db); units := us;
       tenants := ts; rentInvoices := invs;
       ownerSettlements := ownerSettlements (ledger db);
       payments := payments (ledger db);
       auditLogs := auditLogs (ledger db);
       nextRentInvoiceId := nextRentInvoiceId (ledger db);
       nextOwnerSettlementId := nextOwnerSettlementId (ledger db);
       nextPaymentId := nextPaymentId (ledger db);
       nextAuditLogId := nextAuditLogId (ledger db) |} db.

Definition deleteUnit (id : Z) : App unit :=
  fun db =>
    let st := ledger db in
    if decide (Exists (fun inv => goes_with_unit st id inv
                                  /\ matched_by_payment st inv)
                      (rentInvoices st))
    then (Throw "violates foreign key constraint", db)
    else
      (Ok tt,
       set_tables
         (filter (fun u => Unit.id u <> id) (units st))
         (filter (fun t => Tenant.unitId t <> id) (tenants st))
         (filter (fun inv => ~ goes_with_unit st id inv) (rentInvoices st))
         db).

Definition deleteTenant (id : Z) : App unit :=
  fun db =>
    let st := ledger db in
    if decide (Exists (fun inv => RentInvoice.tenantId inv = id
                                  /\ matched_by_payment st inv)
                      (rentInvoices st))
    then (Throw "violates foreign key constraint", db)
    else
      (Ok tt,
       set_tables (units st)
         (filter (fun t => Tenant.id t <> id) (tenants st))
         (filter (fun inv => RentInvoice.tenantId inv <> id) (rentInvoices st))
         db).

(** The property users, the settlements and the units of a deleted
    property go with it ([onDelete: "cascade"]), and with the units
    their tenants and invoices. *)
Definition goes_with_property (st : Store) (propertyId : Z) (inv : RentInvoice.t)
  : Prop :=
  Exists (fun u => Unit.propertyId u = propertyId
                   /\ goes_with_unit st (Unit.id u) inv)
         (units st).

#[global] Instance goes_with_property_dec st propertyId inv :
  Decision (goes_with_property st propertyId inv).
Proof. unfold goes_with_property. apply _. Defined.

Definition deleteProperty (id : Z) : App unit :=
  fun db =>
    let st := ledger db in
    if decide (Exists (fun inv => goes_with_property st id inv
                                  /\ matched_by_payment st inv)
                      (rentInvoices st))
    then (Throw "violates foreign key constraint", db)
    else
      let gone := Unit.id <$> filter (fun u => Unit.propertyId u = id) (units st) in
      (Ok tt,
       {| ledger :=
            {| propertyUsers :=
                 filter (fun pu => PropertyUser.propertyId pu <> id)
                        (propertyUsers st);
               units := filter (fun u => Unit.propertyId u <> id) (units st);
               tenants := filter (fun t => Tenant.unitId t ∉ gone) (tenants st);
               rentInvoices :=
                 filter (fun inv => ~ goes_with_property st id inv)
                        (rentInvoices st);
               ownerSettlements :=
                 filter (fun s => OwnerSettlement.propertyId s <> id)
                        (ownerSettlements st);
               payments := payments st;
               auditLogs := auditLogs st;
               nextRentInvoiceId := nextRentInvoiceId st;
               nextOwnerSettlementId := nextOwnerSettlementId st;
               nextPaymentId := nextPaymentId st;
               nextAuditLogId := nextAuditLogId st |};
          users := users db;
          properties := filter (fun p => Property.id p <> id) (properties db);
          adminLogs := adminLogs db; nextUserId := nextUserId db;
          nextPropertyId := nextPropertyId db;
          nextPropertyUserId := nextPropertyUserId db;
          nextUnitId := nextUnitId db |}).

(** Audit logs *)
Definition createAuditLog (userId : Z) (action : string) (tableName : string)
    (recordId : Z) (oldValue newValue : option Stringified) : App AdminLog.t :=
  fun db =>
    let next := nextAuditLogId (ledger db) in
    if decide (user_exists db userId) then
      let log := {| AdminLog.id := next;
                    AdminLog.userId := Some userId;
                    AdminLog.action := action;
                    AdminLog.tableName := Some tableName;
                    AdminLog.recordId := Some recordId;
                    AdminLog.oldValue := oldValue;
                    AdminLog.newValue := newValue |} in
      (Ok log, set_adminLogs (adminLogs db ++ [log]) (next + 1) db)
    else
      (Throw "violates foreign key constraint",
       set_adminLogs (adminLogs db) (next + 1) db).

End DatabaseStorage.

(** *** Who may see and who may manage a property *)

Definition userCanAccessProperty (userId : Z) (userRole : UserRole)
    (propertyId : Z) : App bool :=
  if UserRole_eqb userRole SuperAdmin then ok true else
  let! pu := DatabaseStorage.getPropertyUser userId propertyId in
  ok match pu with
     | Some pu => AccessStatus_eqb (PropertyUser.status pu) Approved
     | None => false
     end.

Definition userIsPropertyOwner (userId : Z) (userRole : UserRole)
    (propertyId : Z) : App bool :=
  if UserRole_eqb userRole SuperAdmin then ok true else
  let! pu := DatabaseStorage.getPropertyUser userId propertyId in
  ok match pu with
     | Some pu =>
         AccessStatus_eqb (PropertyUser.status pu) Approved
         && UserRole_eqb (PropertyUser.role pu) PropertyOwner
     | None => false
     end.

(** The outcome of [schema.safeParse(req.body)]. *)
Inductive SafeParse (A : Type) : Type :=
| Success (data : A)
| Invalid (message : string).
Arguments Success {A} data.
Arguments Invalid {A} message.

(** *** GET /api/properties *)
Definition listProperties (user : User.t) : App (Response (list Property.t)) :=
  if UserRole_eqb (User.role user) SuperAdmin then
    let! data := DatabaseStorage.getProperties in
    ok (Json 200 data)
  else
    let! data := DatabaseStorage.getPropertiesByUser (User.id user) in
    ok (Json 200 data).

(** *** GET /api/properties/:id *)
Definition showProperty (user : User.t) (propertyId : Z)
  : App (Response Property.t) :=
  let! allowed :=
    userCanAccessProperty (User.id user) (User.role user) propertyId in
  if negb allowed then ok (Fail 403 "Access denied") else
  let! property := DatabaseStorage.getProperty propertyId in
  match property with
  | None => ok (Fail 404 "Not found")
  | Some property => ok (Json 200 property)
  end.

(** *** POST /api/properties *)
Definition addProperty (user : User.t) (parsed : SafeParse Property.insert)
  : App (Response Property.t) :=
  match parsed with
  | Invalid message => ok (Fail 400 message)
  | Success data =>
      let! property :=
        DatabaseStorage.createProperty
          (Property.created_by (User.id user) data) in
      DatabaseStorage.createPropertyUser
        {| PropertyUserData.i_userId := User.id user;
           PropertyUserData.i_propertyId := Property.id property;
           PropertyUserData.i_role := Some PropertyOwner;
           PropertyUserData.i_status := Some Approved;
           PropertyUserData.i_ownershipPercent := Some (Num.of_Z 100) |};;!
      DatabaseStorage.createAuditLog (User.id user) "create_property"
        "properties" (Property.id property) None (Some (OfProperty property));;!
      ok (Json 201 property)
  end.

(** *** GET /api/properties/:propertyId/users *)
Module Enriched.
Record t := mk {
  propertyUser : PropertyUser.t;
  userName : string;
  userEmail : option string;
}.
End Enriched.



(** *** POST /api/properties/:propertyId/request-access

    [role] and [ownershipPercent] are the body's keys; [None] is an
    absent or falsy one. *)
Definition requestAccess (user : User.t) (propertyId : Z)
    (role : option UserRole) (ownershipPercent : option Q)
  : App (Response PropertyUser.t) :=
  let! existing := DatabaseStorage.getPropertyUser (User.id user) propertyId in
  match existing with
  | Some _ => ok (Fail 409 "Access request already exists")
  | None =>
      let! pu := DatabaseStorage.createPropertyUser
        {| PropertyUserData.i_userId := User.id user;
           PropertyUserData.i_propertyId := propertyId;
           PropertyUserData.i_role := Some (default CoOwner role);
           PropertyUserData.i_status := Some Pending;
           PropertyUserData.i_ownershipPercent :=
             Some (Fin (default 0%Q ownershipPercent)) |} in
      ok (Json 201 pu)
  end.

(** *** PATCH /api/property-users/:id/approve *)
Definition approveAccess (user : User.t) (puId : Z)
  : App (Response PropertyUser.t) :=
  let! targetPu := DatabaseStorage.getPropertyUserById puId in
  match targetPu with
  | None => ok (Fail 404 "Not found")
  | Some targetPu =>
      let! owner :=
        userIsPropertyOwner (User.id user) (User.role user)
          (PropertyUser.propertyId targetPu) in
      if negb owner then
        ok (Fail 403 "Only property owner can approve access")
      else
        let! pu :=
          DatabaseStorage.updatePropertyUser puId
            (PropertyUserData.status_only Approved) in
        match pu with
        | None => ok (Fail 404 "Not found")
        | Some pu =>
            DatabaseStorage.createAuditLog (User.id user) "approve_access"
              "property_users" (PropertyUser.id pu) None
              (Some (OfPropertyUser pu));;!
            ok (Json 200 pu)
        end
  end.

(** *** PATCH /api/property-users/:id/reject *)
Definition rejectAccess (user : User.t) (puId : Z)
  : App (Response PropertyUser.t) :=
  let! targetPu := DatabaseStorage.getPropertyUserById puId in
  match targetPu with
  | None => ok (Fail 404 "Not found")
  | Some targetPu =>
      let! owner :=
        userIsPropertyOwner (User.id user) (User.role user)
          (PropertyUser.propertyId targetPu) in
      if negb owner then
        ok (Fail 403 "Only property owner can reject access")
      else
        let! pu :=
          DatabaseStorage.updatePropertyUser puId
            (PropertyUserData.status_only Rejected) in
        match pu with
        | None => ok (Fail 404 "Not found")
        | Some pu => ok (Json 200 pu)
        end
  end.

(** *** PATCH /api/property-users/:id

    The handler does not read [req.user]: it runs the same for every
    authenticated user. *)
Definition patchPropertyUser (id : Z) (parsed : SafeParse PropertyUserData.patch)
  : App (Response PropertyUser.t) :=
  match parsed with
  | Invalid message => ok (Fail 400 message)
  | Success data =>
      let! pu := DatabaseStorage.updatePropertyUser id data in
      match pu with
      | None => ok (Fail 404 "Not found")
      | Some pu => ok (Json 200 pu)
      end
  end.

(** *** GET /api/units/:id *)
Definition showUnit (id : Z) : App (Response Unit.t) :=
  let! unit := DatabaseStorage.getUnit id in
  match unit with
  | None => ok (Fail 404 "Not found")
  | Some unit => ok (Json 200 unit)
  end.

(** *** POST /api/units *)
Definition addUnit (user : User.t) (parsed : SafeParse UnitData.insert)
  : App (Response Unit.t) :=
  match parsed with
  | Invalid message => ok (Fail 400 message)
  | Success data =>
      let! unit := DatabaseStorage.createUnit data in
      DatabaseStorage.createAuditLog (User.id user) "create_unit" "units"
        (Unit.id unit) None (Some (OfUnit unit));;!
      ok (Json 201 unit)
  end.

(** *** PATCH /api/units/:id *)
Definition patchUnit (user : User.t) (id : Z) (parsed : SafeParse UnitData.patch)
  : App (Response Unit.t) :=
  match parsed with
  | Invalid message => ok (Fail 400 message)
  | Success data =>
      let! old := DatabaseStorage.getUnit id in
      let! unit := DatabaseStorage.updateUnit id data in
      match unit with
      | None => ok (Fail 404 "Not found")
      | Some unit =>
          DatabaseStorage.createAuditLog (User.id user) "update_unit" "units"
            (Unit.id unit) (OfUnit <$> old) (Some (OfUnit unit));;!
          ok (Json 200 unit)
      end
  end.

(** *** DELETE /api/properties/:id *)
Definition removeProperty (user : User.t) (propertyId : Z)
  : App (Response unit) :=
  let! owner :=
    userIsPropertyOwner (User.id user) (User.role user) propertyId in
  if negb owner then ok (Fail 403 "Only property owner can delete") else
  DatabaseStorage.createAuditLog (User.id user) "delete_property" "properties"
    propertyId None None;;!
  DatabaseStorage.deleteProperty propertyId;;!
  ok (Json 204 tt).

(** *** DELETE /api/units/:id and DELETE /api/tenants/:id

    [res.status(204).send()] has no body. *)
Definition removeUnit (id : Z) : App (Response unit) :=
  DatabaseStorage.deleteUnit id;;!
  ok (Json 204 tt).

Definition removeTenant (id : Z) : App (Response unit) :=
  DatabaseStorage.deleteTenant id;;!
  ok (Json 204 tt).

(** *** POST /api/auth/register ([server/auth.ts])

    The keys of the body are texts, [None] when absent; [hashedPassword]
    is what [hashPassword(password)] returned, and [loginFails] tells
    whether [req.login] reported an error. *)

(** [s || null] *)
Definition nonempty (s : option string) : option string :=
  match s with
  | Some t => if String.eqb t "" then None else Some t
  | None => None
  end.

Definition safeRole (role : option string) : UserRole :=
  match nonempty role with
  | Some r =>
      if String.eqb r "property_owner" then PropertyOwner
      else if String.eqb r "co_owner" then CoOwner
      else if String.eqb r "accountant" then Accountant
      else if String.eqb r "tenant" then TenantRole
      else PropertyOwner
  | None => PropertyOwner
  end.

Definition register (username password fullName email phone role : option string)
    (hashedPassword : string) (loginFails : bool) : App (Response User.safe) :=
  try_catch
    match nonempty username, nonempty password, nonempty fullName with
    | Some username, Some _, Some fullName =>
        let! existing := DatabaseStorage.getUserByUsername username in
        match existing with
        | Some _ => ok (Fail 409 "Username already exists")
        | None =>
            let! user := DatabaseStorage.createUser
              {| User.i_username := username;
                 User.i_password := hashedPassword;
                 User.i_fullName := fullName;
                 User.i_email := nonempty email;
                 User.i_phone := nonempty phone;
                 User.i_role := Some (safeRole role) |} in
            if loginFails then ok (Fail 500 "Login failed")
            else ok (Json 201 (User.safeUser user))
        end
    | _, _, _ =>
        ok (Fail 400 "Username, password, and full name are required")
    end
    (fun message => ok (Fail 500 message)).

(** *** A database to run these handlers

    The ledger of [Sample.store] with its property, the accounts of its
    three property users, a super admin and an account without any
    property. *)
Module Accounts.

Definition admin : User.t :=
  User.mk 1 "admin" "c0ffee.5a17" "Site Admin" None None SuperAdmin.

Definition owner : User.t :=
  User.mk 10 "asif" "0a1b2c.d4e5" "Asif Raza" (Some "asif@example.com"%string)
    None PropertyOwner.

Definition partner : User.t :=
  User.mk 11 "bushra" "3c4d5e.f6a7" "Bushra Raza" None None CoOwner.

Definition accountant : User.t :=
  User.mk 12 "kamran" "6f7a8b.c9d0" "Kamran Ali" None None Accountant.

Definition newcomer : User.t :=
  User.mk 13 "nadia" "9e8d7c.b6a5" "Nadia Shah" None None PropertyOwner.

Definition plaza : Property.t :=
  Property.mk 1 "Gulberg Plaza" "12 Main Boulevard, Lahore" Commercial Multi 2
    (Some 10).

Definition database : Database :=
  {| ledger := Sample.store;
     users := [admin; owner; partner; accountant; newcomer];
     properties := [plaza];
     adminLogs := [];
     nextUserId := 14;
     nextPropertyId := 2;
     nextPropertyUserId := 4;
     nextUnitId := 3 |}.

Definition tower : Property.insert :=
  {| Property.i_name := "Clifton Tower";
     Property.i_address := "4 Sea View Road, Karachi";
     Property.i_type := None;
     Property.i_ownershipType := Some Multi;
     Property.i_totalUnits := Some 12;
     Property.i_createdById := None |}.

End Accounts.

(** *** Notions used in the statements about access *)

(** The rows of [property_users], and the one the access checks read
    for a user and a property: the first of that pair. *)
Definition memberships (db : Database) : list PropertyUser.t :=
  propertyUsers (ledger db).

Definition membership (db : Database) (userId propertyId : Z)
  : option PropertyUser.t :=
  head (filter (fun pu => PropertyUser.userId pu = userId
                          /\ PropertyUser.propertyId pu = propertyId)
               (memberships db)).

Definition membership_by_id (db : Database) (id : Z) : option PropertyUser.t :=
  head (filter (fun pu => PropertyUser.id pu = id) (memberships db)).

(** The constraints the schema puts on [property_users]: its primary key
    is unique and below the identity counter, its foreign keys resolve. *)
Definition constrained (db : Database) : Prop :=
  NoDup (PropertyUser.id <$> memberships db)
  /\ Forall (fun pu =>
               PropertyUser.id pu < nextPropertyUserId db
               /\ DatabaseStorage.user_exists db (PropertyUser.userId pu)
               /\ DatabaseStorage.property_exists db (PropertyUser.propertyId pu))
            (memberships db).

(** A user and a property the row is about. *)
Definition member_key (pu : PropertyUser.t) : Z * Z :=
  (PropertyUser.userId pu, PropertyUser.propertyId pu).

(** No user has two rows for one property. *)
Definition one_row_per_member (db : Database) : Prop :=
  NoDup (member_key <$> memberships db).

(** The verdicts of the two checks. *)
Definition can_access (db : Database) (user : User.t) (propertyId : Z) : Prop :=
  userCanAccessProperty (User.id user) (User.role user) propertyId db
  = (Ok true, db).

Definition is_owner (db : Database) (user : User.t) (propertyId : Z) : Prop :=
  userIsPropertyOwner (User.id user) (User.role user) propertyId db
  = (Ok true, db).

(** The database after the rows with an id were given a new status. *)
Definition with_status (db : Database) (id : Z) (s : AccessStatus) : Database :=
  DatabaseStorage.set_propertyUsers
    (storage.update_where (fun r => PropertyUser.id r =? id)
       (PropertyUserData.set (PropertyUserData.status_only s)) (memberships db))
    (nextPropertyUserId db) db.

(** The audit row of an approval. *)
Definition approval_log (db : Database) (user : User.t) (pu : PropertyUser.t)
  : AdminLog.t :=
  {| AdminLog.id := nextAuditLogId (ledger db);
     AdminLog.userId := Some (User.id user);
     AdminLog.action := "approve_access";
     AdminLog.tableName := Some "property_users"%string;
     AdminLog.recordId := Some (PropertyUser.id pu);
     AdminLog.oldValue := None;
     AdminLog.newValue := Some (OfPropertyUser pu) |}.

(** [Accounts.database] once the newcomer has asked for access to the
    plaza as a co-owner. *)
Definition requested_database : Database :=
  DatabaseStorage.set_propertyUsers
    (memberships Accounts.database
     ++ [PropertyUser.mk 4 13 1 CoOwner Pending (Some (Fin 0))])
    5 Accounts.database.

(** The body [{ "role": "property_owner", "status": "approved" }]. *)
Definition make_owner : PropertyUserData.patch :=
  PropertyUserData.mkPatch None None (Some PropertyOwner) (Some Approved) None.

(** The invoices one pass of the reconstruction over the periods [ps]
    writes for the tenant [t], numbered from [next], given the invoices
    already there: a period in which the unit has an invoice, old or just
    written, is passed over. *)
Fixpoint reconstructed_rows (unitId : Z) (currentRent yearlyIncreasePercent : jsval)
    (t : Tenant.t) (existing : list RentInvoice.t) (next : Z)
    (ps : list (YearRent.t * Z)) : list RentInvoice.t :=
  match ps with
  | [] => []
  | p :: rest =>
      if bool_decide (covered existing unitId p.2 (YearRent.year p.1)) then
        reconstructed_rows unitId currentRent yearlyIncreasePercent t
          existing next rest
      else
        let inv :=
          reconstructed_invoice unitId currentRent yearlyIncreasePercent
            next t p.1 p.2 in
        inv :: reconstructed_rows unitId currentRent yearlyIncreasePercent t
                 (existing ++ [inv]) (next + 1) rest
  end.

(** The year and the month an invoice is for. *)
Definition period_of (inv : RentInvoice.t) : Z * Z :=
  (RentInvoice.year inv, RentInvoice.month inv).

(** The months of the year [y] the reconstruction goes through, and the
    periods of a list of years. *)
Definition months_in (currentYear currentMonth sYear sMonth y : Z) : list Z :=
  months_of currentYear currentMonth sYear sMonth (YearRent.mk y NaN).

Definition year_months (currentYear currentMonth sYear sMonth : Z)
    (years : list Z) : list (Z * Z) :=
  flat_map (fun y => pair y <$> months_in currentYear currentMonth sYear sMonth y)
           years.

(** A period that lies between the start month and the current month. *)
Definition in_range (currentYear currentMonth sYear sMonth : Z) (p : Z * Z)
  : Prop :=
  1 <= p.2 <= 12
  /\ (sYear < p.1 \/ (p.1 = sYear /\ sMonth <= p.2))
  /\ (p.1 < currentYear \/ (p.1 = currentYear /\ p.2 <= currentMonth)).

(** The foreign key of [units]: each unit's property exists. *)
Definition units_constrained (db : Database) : Prop :=
  Forall (fun u => DatabaseStorage.property_exists db (Unit.propertyId u))
         (units (ledger db)).

(** A unit to add to the plaza, its rent left out, and the same unit for
    a property that does not exist. *)
Definition shop : UnitData.insert :=
  {| UnitData.i_propertyId := 1; UnitData.i_unitName := "Shop 3";
     UnitData.i_monthlyRent := None |}.

Definition stray_shop : UnitData.insert :=
  {| UnitData.i_propertyId := 7; UnitData.i_unitName := "Shop 3";
     UnitData.i_monthlyRent := None |}.

(** [Accounts.database] over the ledger of the auto-matcher, and the same
    once the payment of 79999.50 was recorded and matched to the unpaid
    invoice of June. *)
Definition matching_database : Database :=
  DatabaseStorage.set_ledger Sample.matching_store Accounts.database.

Definition matched_database : Database :=
  DatabaseStorage.set_ledger
    (snd (recordPayment 10 Sample.payment_79999_50 Sample.matching_store))
    Accounts.database.

(** * Properties *)

(** ** Comparisons of finite numbers *)

Lemma Qltb_lt (a b : Q) : Qltb a b = true <-> (a < b)%Q.
Proof.
  unfold Qltb. rewrite negb_true_iff. split.
  - intros H. apply Qnot_le_lt. intros Hle.
    apply Qle_bool_iff in Hle. congruence.
  - intros H. destruct (Qle_bool b a) eqn:E; [|reflexivity].
    apply Qle_bool_iff in E. exfalso. apply (Qlt_not_le _ _ H E).
Qed.

Lemma Qltb_ge (a b : Q) : Qltb a b = false <-> (b <= a)%Q.
Proof.
  unfold Qltb. rewrite negb_false_iff. apply Qle_bool_iff.
Qed.

Lemma Num_geb_fin (x y : Q) : Num.geb (Fin x) (Fin y) = true <-> (y <= x)%Q.
Proof.
  unfold Num.geb, Num.leb, Num.ltb, Num.eqb. rewrite orb_true_iff.
  rewrite Qltb_lt, Qeq_bool_iff. split.
  - intros [H|H]; [apply Qlt_le_weak, H | rewrite H; apply Qle_refl].
  - intros H. apply Qle_lt_or_eq in H. tauto.
Qed.

Lemma Num_geb_fin_false (x y : Q) : Num.geb (Fin x) (Fin y) = false <-> (x < y)%Q.
Proof.
  split.
  - intros H. apply Qnot_le_lt. intros Hle. apply Num_geb_fin in Hle. congruence.
  - intros H. destruct (Num.geb (Fin x) (Fin y)) eqn:E; [|reflexivity].
    apply Num_geb_fin in E. exfalso. apply (Qlt_not_le _ _ H E).
Qed.

(** ** Rows by identity *)

Lemma set_keeps_id (p : RentInvoice.patch) (r : RentInvoice.t) :
  RentInvoice.id (RentInvoice.set p r) = RentInvoice.id r.
Proof. reflexivity. Qed.

Lemma head_filter_update (id : Z) (p : RentInvoice.patch) (l : list RentInvoice.t) :
  head (filter (fun r => RentInvoice.id r = id)
          (storage.update_where (fun r => RentInvoice.id r =? id)
             (RentInvoice.set p) l))
  = RentInvoice.set p <$> head (filter (fun r => RentInvoice.id r = id) l).
Proof.
  induction l as [|r l IH]; [reflexivity|].
  cbn [storage.update_where map]. rewrite !filter_cons.
  destruct (Z.eqb_spec (RentInvoice.id r) id) as [E|E].
  - rewrite set_keeps_id. rewrite !decide_True by assumption. reflexivity.
  - rewrite !decide_False by assumption. apply IH.
Qed.

Lemma head_filter_Some_id (id : Z) (l : list RentInvoice.t) (inv : RentInvoice.t) :
  head (filter (fun r => RentInvoice.id r = id) l) = Some inv ->
  RentInvoice.id inv = id /\ inv ∈ l.
Proof.
  intros H. apply head_Some_elem_of in H.
  apply list_elem_of_filter in H. tauto.
Qed.

(** ** Paying an invoice *)

Lemma payInvoice_absent now userId id paidAmount paymentMethod st :
  invoice_by_id st id = None ->
  payInvoice now userId id paidAmount paymentMethod st
  = (Fail 404 "Not found", st).
Proof.
  intros H. unfold payInvoice, bind, storage.getRentInvoice, gets, ret.
  fold (invoice_by_id st id). rewrite H. reflexivity.
Qed.

Lemma payInvoice_negative now userId id paidAmount paymentMethod st inv :
  invoice_by_id st id = Some inv ->
  Num.ltb (paid_of paidAmount inv) Num.zero = true ->
  payInvoice now userId id paidAmount paymentMethod st
  = (Fail 400 "Payment amount cannot be negative", st).
Proof.
  intros H Hneg. unfold payInvoice, bind, storage.getRentInvoice, gets, ret.
  fold (invoice_by_id st id). rewrite H. rewrite Hneg. reflexivity.
Qed.

Lemma payInvoice_excess now userId id paidAmount paymentMethod st inv :
  invoice_by_id st id = Some inv ->
  Num.ltb (paid_of paidAmount inv) Num.zero = false ->
  Num.gtb (paid_of paidAmount inv) (RentInvoice.amount inv) = true ->
  payInvoice now userId id paidAmount paymentMethod st
  = (Fail 400 "Payment amount cannot exceed invoice total", st).
Proof.
  intros H Hneg Hgt. unfold payInvoice, bind, storage.getRentInvoice, gets, ret.
  fold (invoice_by_id st id). rewrite H. rewrite Hneg, Hgt. reflexivity.
Qed.

Lemma payInvoice_accepted now userId id paidAmount paymentMethod st inv :
  invoice_by_id st id = Some inv ->
  Num.ltb (paid_of paidAmount inv) Num.zero = false ->
  Num.gtb (paid_of paidAmount inv) (RentInvoice.amount inv) = false ->
  exists st',
    payInvoice now userId id paidAmount paymentMethod st
    = (Json 200
         (Some (RentInvoice.set
                  (pay_patch now st inv (paid_of paidAmount inv) paymentMethod)
                  inv)), st')
    /\ rentInvoices st'
       = storage.update_where (fun r => RentInvoice.id r =? id)
           (RentInvoice.set
              (pay_patch now st inv (paid_of paidAmount inv) paymentMethod))
           (rentInvoices st).
Proof.
  intros H Hneg Hgt.
  destruct (head_filter_Some_id _ _ _ H) as [Hid _].
  unfold payInvoice, bind, storage.getRentInvoice, gets, ret.
  fold (invoice_by_id st id). rewrite H. rewrite Hneg, Hgt.
  unfold pay_patch, status_of, dueDate_of.
  destruct (Num.geb (paid_of paidAmount inv) (RentInvoice.amount inv)) eqn:Hge;
    cbn [storage.getTenant gets storage.updateRentInvoice storage.createAuditLog
         fst snd storage.set_rentInvoices storage.set_auditLogs rentInvoices];
    rewrite Hid, head_filter_update; unfold invoice_by_id in H; rewrite H;
    eexists; split; reflexivity.
Qed.

Lemma parseFloat_fin_truthy (v : jsval) (q : Q) :
  parseFloat v = Fin q -> truthy v = true \/ (q == 0)%Q.
Proof.
  destruct v as [| |b|q0|s]; cbn [parseFloat truthy]; try discriminate.
  - intros [= ->]. destruct (Qeq_bool q 0) eqn:E; [|left; reflexivity].
    right. apply Qeq_bool_iff, E.
  - intros H. left. destruct (String.eqb_spec s ""%string) as [->|]; [|reflexivity].
    discriminate H.
Qed.

Lemma paid_of_supplied (v : jsval) (inv : RentInvoice.t) (q a : Q) :
  parseFloat v = Fin q -> RentInvoice.amount inv = Fin a ->
  paid_of v inv = Fin q \/ ((q == 0)%Q /\ paid_of v inv = Fin a).
Proof.
  intros Hv Ha. unfold paid_of.
  destruct (truthy v) eqn:T; [left; assumption|].
  right. split; [|assumption].
  destruct (parseFloat_fin_truthy v q Hv); [congruence | assumption].
Qed.

Lemma invoice_by_id_updated (st st' : Store) (id : Z) (p : RentInvoice.patch)
    (inv : RentInvoice.t) :
  invoice_by_id st id = Some inv ->
  rentInvoices st'
  = storage.update_where (fun r => RentInvoice.id r =? id) (RentInvoice.set p)
      (rentInvoices st) ->
  invoice_by_id st' id = Some (RentInvoice.set p inv).
Proof.
  intros H E. unfold invoice_by_id in *. rewrite E, head_filter_update, H.
  reflexivity.
Qed.


(** C2.  Paying an invoice that does not exist fails with 404 (NotFound);
    a supplied amount that is negative or exceeds the invoice amount
    fails with 400 (InvalidAmount); both failures leave the store, hence
    the invoice, as it was; every supplied amount from 0 to the invoice
    amount is accepted and the invoice is updated. *)
Theorem payInvoice_amount_bounds now userId id paidAmount paymentMethod st :
  (invoice_by_id st id = None ->
   payInvoice now userId id paidAmount paymentMethod st
   = (Fail 404 "Not found", st))
  /\ (forall inv q a,
        invoice_by_id st id = Some inv ->
        parseFloat paidAmount = Fin q ->
        RentInvoice.amount inv = Fin a ->
        ((q < 0 \/ a < q)%Q ->
         exists message,
           payInvoice now userId id paidAmount paymentMethod st
           = (Fail 400 message, st))
        /\ ((0 <= q /\ q <= a)%Q ->
            exists updated st',
              payInvoice now userId id paidAmount paymentMethod st
              = (Json 200 (Some updated), st')
              /\ invoice_by_id st' id = Some updated)).
Proof.
  split; [apply payInvoice_absent|].
  intros inv q a Hinv Hq Ha.
  assert (Hcases : forall p, paid_of paidAmount inv = Fin p ->
            ((p < 0 \/ a < p)%Q ->
             exists message,
               payInvoice now userId id paidAmount paymentMethod st
               = (Fail 400 message, st))
            /\ ((0 <= p /\ p <= a)%Q ->
                exists updated st',
                  payInvoice now userId id paidAmount paymentMethod st
                  = (Json 200 (Some updated), st')
                  /\ invoice_by_id st' id = Some updated)).
  { intros p Hp. split.
    - intros Hbad.
      destruct (Num.ltb (paid_of paidAmount inv) Num.zero) eqn:Hneg.
      + eexists. apply (payInvoice_negative _ _ _ _ _ _ inv); assumption.
      + eexists. apply (payInvoice_excess _ _ _ _ _ _ inv); try assumption.
        rewrite Hp in Hneg |- *. rewrite Ha. unfold Num.gtb. cbn.
        apply Qltb_lt. cbn in Hneg. apply Qltb_ge in Hneg.
        destruct Hbad as [Hlt|Hlt]; [|assumption].
        exfalso. apply (Qlt_not_le _ _ Hlt Hneg).
    - intros [H0 Hle].
      destruct (payInvoice_accepted now userId id paidAmount paymentMethod st inv)
        as (st' & Hrun & Hrows); try assumption.
      + rewrite Hp. cbn. apply Qltb_ge, H0.
      + rewrite Hp, Ha. unfold Num.gtb. cbn. apply Qltb_ge, Hle.
      + eexists _, st'. split; [exact Hrun|].
        apply (invoice_by_id_updated st); assumption. }
  destruct (paid_of_supplied paidAmount inv q a Hq Ha) as [Hp|[Hz Hp]].
  - apply Hcases, Hp.
  - destruct (Hcases a Hp) as [Hbad Hgood]. split.
    + intros Hq'. apply Hbad. left. rewrite Hz in Hq'.
      destruct Hq' as [Hq'|Hq']; [|assumption].
      exfalso. apply (Qlt_irrefl _ Hq').
    + intros [_ Hle]. apply Hgood. split; [|apply Qle_refl].
      rewrite Hz in Hle. exact Hle.
Qed.

Lemma payInvoice_amount_bounds_witness :
  payInvoice Sample.june_3rd_noon 10 7 (JString "500") None Sample.store
  = (Fail 404 "Not found", Sample.store)
  /\ (exists message,
        payInvoice Sample.june_3rd_noon 10 1 (JNumber (-1)) None Sample.store
        = (Fail 400 message, Sample.store))
  /\ (exists message,
        payInvoice Sample.june_3rd_noon 10 1 (JString "1001") None Sample.store
        = (Fail 400 message, Sample.store))
  /\ (exists updated st',
        payInvoice Sample.june_3rd_noon 10 1 (JString "500") None Sample.store
        = (Json 200 (Some updated), st')
        /\ invoice_by_id st' 1 = Some updated).
Proof.
  split; [|split; [|split]].
  - apply (payInvoice_amount_bounds Sample.june_3rd_noon 10 7 (JString "500")
             None Sample.store).
    reflexivity.
  - apply (proj2 (payInvoice_amount_bounds Sample.june_3rd_noon 10 1
                    (JNumber (-1)) None Sample.store)
             Sample.invoice (-1)%Q 1000%Q);
      [reflexivity | reflexivity | reflexivity | left; reflexivity].
  - apply (proj2 (payInvoice_amount_bounds Sample.june_3rd_noon 10 1
                    (JString "1001") None Sample.store)
             Sample.invoice 1001%Q 1000%Q);
      [reflexivity | reflexivity | reflexivity | right; reflexivity].
  - apply (proj2 (payInvoice_amount_bounds Sample.june_3rd_noon 10 1
                    (JString "500") None Sample.store)
             Sample.invoice 500%Q 1000%Q);
      [reflexivity | reflexivity | reflexivity | split; discriminate].
Defined.





(** The rule of C1 on the sample invoice (1000, due on the 5th of June
    2025): the full amount before the 5th is [Paid], at noon of the 5th
    and later it is [Late], and half the amount is [Partial]. *)
Example sample_invoice_statuses :
  let status_after now amount :=
    match payInvoice now 10 1 amount None Sample.store with
    | (Json _ (Some updated), _) => Some (RentInvoice.status updated)
    | _ => None
    end in
  status_after Sample.june_3rd_noon (JString "1000") = Some Paid
  /\ status_after Sample.june_5th_noon (JString "1000") = Some Late
  /\ status_after Sample.june_6th_noon (JString "1000") = Some Late
  /\ status_after Sample.june_3rd_noon (JString "500") = Some Partial
  /\ status_after Sample.june_6th_noon (JString "500") = Some Partial.
Proof. repeat split. Qed.

(** C9, as stated, fails: the string "0" is truthy, so it is parsed to 0
    and the handler records a payment of 0 with status [Partial]. *)
Lemma payInvoice_string_zero_is_partial :
  truthy (JString "0") = true
  /\ parseFloat (JString "0") = Fin 0
  /\ exists updated st',
       payInvoice Sample.june_3rd_noon 10 1 (JString "0") None Sample.store
       = (Json 200 (Some updated), st')
       /\ invoice_by_id st' 1 = Some updated
       /\ RentInvoice.status updated = Partial
       /\ RentInvoice.paidAmount updated = Some (Fin 0).
Proof.
  split; [reflexivity|]. split; [reflexivity|].
  eexists _, _. split; [vm_compute; reflexivity|]. repeat split.
Qed.

(** C9, amended.  A falsy [paidAmount] (the number 0, the empty string,
    null, false or a missing key) is treated as a missing one: the
    handler applies the invoice's full amount, so on an invoice whose
    amount is not negative the call succeeds and records the full amount
    with status [Paid] or [Late], never [Partial].  The string "0" is
    not falsy: on an invoice with a positive amount it records a payment
    of 0 with status [Partial]. *)
Theorem payInvoice_falsy_amount now userId id paymentMethod st :
  (forall paidAmount,
     truthy paidAmount = false ->
     payInvoice now userId id paidAmount paymentMethod st
     = payInvoice now userId id JUndefined paymentMethod st
     /\ forall inv a,
          invoice_by_id st id = Some inv ->
          RentInvoice.amount inv = Fin a ->
          (0 <= a)%Q ->
          exists updated st',
            payInvoice now userId id paidAmount paymentMethod st
            = (Json 200 (Some updated), st')
            /\ invoice_by_id st' id = Some updated
            /\ RentInvoice.paidAmount updated = Some (RentInvoice.amount inv)
            /\ (RentInvoice.status updated = Paid
                \/ RentInvoice.status updated = Late))
  /\ (forall inv a,
        invoice_by_id st id = Some inv ->
        RentInvoice.amount inv = Fin a ->
        (0 < a)%Q ->
        exists updated st',
          payInvoice now userId id (JString "0") paymentMethod st
          = (Json 200 (Some updated), st')
          /\ invoice_by_id st' id = Some updated
          /\ RentInvoice.paidAmount updated = Some (Fin 0)
          /\ RentInvoice.status updated = Partial).
Proof.
  split.
  - intros paidAmount Hfalsy. split.
    + unfold payInvoice, bind, paid_of. rewrite Hfalsy. reflexivity.
    + intros inv a Hinv Ha H0.
      assert (Hp : paid_of paidAmount inv = Fin a).
      { unfold paid_of. rewrite Hfalsy. exact Ha. }
      destruct (payInvoice_accepted now userId id paidAmount paymentMethod st inv)
        as (st' & Hrun & Hrows); try assumption.
      { rewrite Hp. cbn. apply Qltb_ge, H0. }
      { rewrite Hp, Ha. unfold Num.gtb. cbn. apply Qltb_ge, Qle_refl. }
      eexists _, st'. split; [exact Hrun|].
      split; [apply (invoice_by_id_updated st); assumption|].
      cbn [RentInvoice.set RentInvoice.status RentInvoice.paidAmount pay_patch
           RentInvoice.p_status RentInvoice.p_paidAmount default].
      split; [rewrite Hp, Ha; reflexivity|].
      unfold status_of. rewrite Hp, Ha.
      rewrite (proj2 (Num_geb_fin a a) (Qle_refl a)).
      destruct (Date.gt (Some now) (dueDate_of st inv)); [right|left]; reflexivity.
  - intros inv a Hinv Ha H0.
    assert (Hp : paid_of (JString "0") inv = Fin 0) by reflexivity.
    destruct (payInvoice_accepted now userId id (JString "0") paymentMethod st inv)
      as (st' & Hrun & Hrows); try assumption.
    { rewrite Hp. reflexivity. }
    { rewrite Hp, Ha. unfold Num.gtb. cbn. apply Qltb_ge, Qlt_le_weak, H0. }
    eexists _, st'. split; [exact Hrun|].
    split; [apply (invoice_by_id_updated st); assumption|].
    cbn [RentInvoice.set RentInvoice.status RentInvoice.paidAmount pay_patch
         RentInvoice.p_status RentInvoice.p_paidAmount default].
    split; [rewrite Hp; reflexivity|].
    unfold status_of. rewrite Hp, Ha.
    rewrite (proj2 (Num_geb_fin_false 0 a) H0). reflexivity.
Qed.

Lemma payInvoice_falsy_amount_witness :
  (payInvoice Sample.june_3rd_noon 10 1 (JNumber 0) None Sample.store
   = payInvoice Sample.june_3rd_noon 10 1 JUndefined None Sample.store
   /\ exists updated st',
        payInvoice Sample.june_3rd_noon 10 1 (JNumber 0) None Sample.store
        = (Json 200 (Some updated), st')
        /\ invoice_by_id st' 1 = Some updated
        /\ RentInvoice.paidAmount updated
           = Some (RentInvoice.amount Sample.invoice)
        /\ (RentInvoice.status updated = Paid
            \/ RentInvoice.status updated = Late))
  /\ (exists updated st',
        payInvoice Sample.june_3rd_noon 10 1 (JString "0") None Sample.store
        = (Json 200 (Some updated), st')
        /\ invoice_by_id st' 1 = Some updated
        /\ RentInvoice.paidAmount updated = Some (Fin 0)
        /\ RentInvoice.status updated = Partial).
Proof.
  destruct (payInvoice_falsy_amount Sample.june_3rd_noon 10 1 None Sample.store)
    as [Hfalsy Hzero].
  split.
  - destruct (Hfalsy (JNumber 0) eq_refl) as [Hsame Hfull].
    split; [exact Hsame|].
    apply (Hfull Sample.invoice 1000%Q); [reflexivity | reflexivity | discriminate].
  - apply (Hzero Sample.invoice 1000%Q); reflexivity.
Defined.

(** ** Sums of numbers *)

#[local] Instance Num_eq_equiv : Equivalence Num.eq.
Proof.
  split.
  - intros [| | |x]; cbn; auto. reflexivity.
  - intros [| | |x] [| | |y]; cbn; auto. intros H. symmetry. exact H.
  - intros [| | |x] [| | |y] [| | |z]; cbn; try tauto.
    intros H1 H2. rewrite H1. exact H2.
Qed.




Lemma Num_add_proper (a a' b b' : number) :
  Num.eq a a' -> Num.eq b b' -> Num.eq (Num.add a b) (Num.add a' b').
Proof.
  destruct a, a', b, b'; cbn; try tauto. intros H1 H2. rewrite H1, H2. reflexivity.
Qed.


Lemma parseFloat_or_zero_default (d : option number) :
  parseFloat_or_zero d = default Num.zero d.
Proof. destruct d; reflexivity. Qed.


(** ** Settlements *)

Lemma includes_Exists (ids : list Z) (x : Z) :
  includes ids x <-> Exists (fun i => i = x) ids.
Proof.
  unfold includes. rewrite Is_true_true, existsb_exists, Exists_exists.
  split; intros (i & Hin & E); exists i.
  - apply list_elem_of_In in Hin. apply Z.eqb_eq in E. split; [exact Hin|congruence].
  - apply list_elem_of_In in Hin. split; [exact Hin|]. apply Z.eqb_eq. congruence.
Qed.

Lemma property_invoices_code (st : Store) (propertyId month year : Z) :
  filter (fun inv =>
            includes (Unit.id <$> filter (fun u => Unit.propertyId u = propertyId)
                                         (units st))
                     (RentInvoice.unitId inv))
         (filter (fun i => RentInvoice.month i = month /\ RentInvoice.year i = year)
                 (rentInvoices st))
  = property_invoices st propertyId month year.
Proof.
  unfold property_invoices. rewrite list_filter_filter.
  apply list_filter_iff. intros inv. rewrite includes_Exists.
  rewrite !Exists_exists. split.
  - intros [(i & Hi & E) [Hm Hy]]. split; [exact Hm|]. split; [exact Hy|].
    apply list_elem_of_fmap in Hi. destruct Hi as (u & -> & Hu).
    apply list_elem_of_filter in Hu. destruct Hu as [Hp Hu].
    exists u. auto.
  - intros (Hm & Hy & u & Hu & Hp & E). split; [|auto].
    exists (Unit.id u). split; [|exact E].
    apply list_elem_of_fmap. exists u. split; [reflexivity|].
    apply list_elem_of_filter. auto.
Qed.

Lemma is_approved_owner_spec (o : PropertyUser.t) :
  is_approved_owner o
  <-> PropertyUser.status o = Approved
      /\ (PropertyUser.role o = PropertyOwner \/ PropertyUser.role o = CoOwner).
Proof.
  unfold is_approved_owner.
  destruct (PropertyUser.status o), (PropertyUser.role o); cbn;
    intuition (try discriminate; auto).
Qed.

Lemma approved_owners_code (st : Store) (propertyId : Z) :
  filter is_approved_owner
    (filter (fun pu => PropertyUser.propertyId pu = propertyId) (propertyUsers st))
  = approved_owners st propertyId.
Proof.
  unfold approved_owners. rewrite list_filter_filter.
  apply list_filter_iff. intros o. rewrite is_approved_owner_spec. tauto.
Qed.

Lemma settle_loop propertyId month year totalRent owners acc st :
  for_of owners (settle_one propertyId month year totalRent) acc st
  = (acc ++ settlement_rows propertyId month year totalRent
              (nextOwnerSettlementId st) owners,
     storage.set_ownerSettlements
       (ownerSettlements st
        ++ settlement_rows propertyId month year totalRent
             (nextOwnerSettlementId st) owners)
       (nextOwnerSettlementId st + Z.of_nat (length owners)) st).
Proof.
  revert acc st. induction owners as [|o owners IH]; intros acc st.
  - cbn. rewrite !app_nil_r, Z.add_0_r. destruct st; reflexivity.
  - cbn [for_of]. unfold bind at 1. unfold settle_one at 1.
    unfold bind, storage.createOwnerSettlement, ret.
    rewrite IH. cbn [settlement_rows length].
    unfold share_of. rewrite parseFloat_or_zero_default.
    cbn [storage.set_ownerSettlements ownerSettlements nextOwnerSettlementId].
    rewrite <- !app_assoc. cbn [app]. f_equal.
    unfold storage.set_ownerSettlements. cbn. f_equal. lia.
Qed.

Lemma calculateSettlements_run propertyId month year st :
  let totalRent := sum_paidAmount (property_invoices st propertyId month year) in
  let rows :=
    settlement_rows propertyId month year totalRent (nextOwnerSettlementId st)
      (approved_owners st propertyId) in
  calculateSettlements propertyId month year st
  = (Json 201 rows,
     storage.set_ownerSettlements (ownerSettlements st ++ rows)
       (nextOwnerSettlementId st + Z.of_nat (length (approved_owners st propertyId)))
       st).
Proof.
  cbn zeta. unfold calculateSettlements, bind, storage.getUnits,
    storage.getRentInvoicesByMonth, storage.getPropertyUsers, gets, ret.
  rewrite property_invoices_code, approved_owners_code, settle_loop.
  reflexivity.
Qed.

Lemma settlement_rows_length propertyId month year totalRent next owners :
  length (settlement_rows propertyId month year totalRent next owners)
  = length owners.
Proof.
  revert next. induction owners as [|o owners IH]; intros next; cbn;
    [reflexivity | rewrite IH; reflexivity].
Qed.


Lemma settlement_rows_content propertyId month year totalRent next next' owners :
  settlement_content <$> settlement_rows propertyId month year totalRent next owners
  = settlement_content <$> settlement_rows propertyId month year totalRent next' owners.
Proof.
  revert next next'. induction owners as [|o owners IH]; intros next next'; cbn;
    [reflexivity|]. f_equal. apply IH.
Qed.

Lemma settlement_rows_ids propertyId month year totalRent next owners :
  Forall (fun r => next <= OwnerSettlement.id r
                   < next + Z.of_nat (length owners))
    (settlement_rows propertyId month year totalRent next owners).
Proof.
  revert next. induction owners as [|o owners IH]; intros next;
    cbn [settlement_rows length]; constructor.
  - cbn. lia.
  - eapply Forall_impl; [apply IH|]. cbn. intros r Hr. lia.
Qed.



(** C8.  A run of the calculator appends its rows to the settlements and
    leaves every row that was there as it was, at its place.  Run again
    for the same property and period, it appends rows with the same
    content as those of the first run under new identities: the rows of
    the first run are kept next to them. *)
Theorem calculateSettlements_again propertyId month year st :
  exists rows1 st1 rows2 st2,
    calculateSettlements propertyId month year st = (Json 201 rows1, st1)
    /\ calculateSettlements propertyId month year st1 = (Json 201 rows2, st2)
    /\ ownerSettlements st1 = ownerSettlements st ++ rows1
    /\ ownerSettlements st2 = ownerSettlements st ++ rows1 ++ rows2
    /\ (forall (i : nat) row,
          ownerSettlements st1 !! i = Some row ->
          ownerSettlements st2 !! i = Some row)
    /\ length rows2 = length (approved_owners st propertyId)
    /\ settlement_content <$> rows2 = settlement_content <$> rows1
    /\ Forall (fun r => OwnerSettlement.id r < nextOwnerSettlementId st1) rows1
    /\ Forall (fun r => nextOwnerSettlementId st1 <= OwnerSettlement.id r) rows2.
Proof.
  pose proof (calculateSettlements_run propertyId month year st) as H1.
  cbn zeta in H1.
  set (st1 := storage.set_ownerSettlements _ _ st) in H1.
  pose proof (calculateSettlements_run propertyId month year st1) as H2.
  cbn zeta in H2.
  assert (Eo : approved_owners st1 propertyId = approved_owners st propertyId)
    by reflexivity.
  assert (Ei : property_invoices st1 propertyId month year
               = property_invoices st propertyId month year) by reflexivity.
  rewrite Eo, Ei in H2.
  eexists _, st1, _, _. split; [exact H1|]. split; [exact H2|].
  split; [reflexivity|].
  split; [cbn; rewrite app_assoc; reflexivity|].
  split.
  { intros i row Hi. cbn [storage.set_ownerSettlements ownerSettlements].
    apply lookup_app_l_Some. exact Hi. }
  split; [apply settlement_rows_length|].
  split; [apply settlement_rows_content|].
  split.
  - eapply Forall_impl; [apply settlement_rows_ids|].
    cbn. intros r Hr. lia.
  - eapply Forall_impl; [apply settlement_rows_ids|].
    cbn. intros r Hr. lia.
Qed.

(** ** Recording a payment *)

#[local] Instance newer_first_total : Total storage.newer_first.
Proof. intros a b. unfold storage.newer_first. lia. Qed.

#[local] Instance newer_first_trans : Transitive storage.newer_first.
Proof. intros a b c. unfold storage.newer_first. lia. Qed.

Lemma find_first {A} (f : A -> bool) (l : list A) (x : A) :
  List.find f l = Some x <->
  exists before after,
    l = before ++ x :: after
    /\ Forall (fun y => f y = false) before /\ f x = true.
Proof.
  induction l as [|y l IH]; cbn.
  - split; [discriminate|]. intros (b & a & E & _). destruct b; discriminate E.
  - destruct (f y) eqn:Fy.
    + split.
      * intros [= ->]. exists [], l. auto.
      * intros ([|z b] & a & E & Hb & Hx).
        -- injection E as -> _. reflexivity.
        -- injection E as -> _. inversion Hb; subst. congruence.
    + rewrite IH. split.
      * intros (b & a & -> & Hb & Hx). exists (y :: b), a. auto.
      * intros ([|z b] & a & E & Hb & Hx).
        -- injection E as -> _. congruence.
        -- injection E as -> ->. inversion Hb; subst. exists b, a. auto.
Qed.

Lemma find_none_iff {A} (f : A -> bool) (l : list A) :
  List.find f l = None <-> forall x, x ∈ l -> f x = false.
Proof.
  induction l as [|y l IH]; cbn.
  - split; [|reflexivity]. intros _ x Hx. inversion Hx.
  - destruct (f y) eqn:Fy.
    + split; [discriminate|]. intros H. specialize (H y (list_elem_of_here _ _)).
      congruence.
    + rewrite IH. split.
      * intros H x Hx. apply elem_of_cons in Hx. destruct Hx as [->|Hx]; auto.
      * intros H x Hx. apply H. apply elem_of_cons. auto.
Qed.

Lemma recordPayment_unmatched userId data st :
  let payment := Payment.row (nextPaymentId st) data in
  text_truthy (Payment.i_tenantName data) = true ->
  List.find (matches payment) (merge_sort storage.newer_first (rentInvoices st))
  = None ->
  exists st',
    recordPayment userId data st = (Json 201 payment, st')
    /\ rentInvoices st' = rentInvoices st
    /\ payments st' = payments st ++ [payment].
Proof.
  cbn zeta. intros Hname Hfind.
  unfold recordPayment, bind, storage.createPayment, storage.getRentInvoices,
    gets, ret.
  cbn [Payment.row Payment.tenantName Payment.amount decimal_truthy andb].
  rewrite Hname.
  cbn [storage.set_payments rentInvoices]. rewrite Hfind.
  eexists. split; [reflexivity|]. split; reflexivity.
Qed.

Lemma recordPayment_matched userId data st m :
  let payment := Payment.row (nextPaymentId st) data in
  text_truthy (Payment.i_tenantName data) = true ->
  List.find (matches payment) (merge_sort storage.newer_first (rentInvoices st))
  = Some m ->
  exists st',
    recordPayment userId data st
    = (Json 201 (Payment.set_match (RentInvoice.id m) Matched payment), st')
    /\ rentInvoices st'
       = storage.update_where (fun r => RentInvoice.id r =? RentInvoice.id m)
           (RentInvoice.set (match_patch payment)) (rentInvoices st)
    /\ payments st'
       = storage.update_where (fun r => Payment.id r =? nextPaymentId st)
           (Payment.set_match (RentInvoice.id m) Matched)
           (payments st ++ [payment]).
Proof.
  cbn zeta. intros Hname Hfind.
  unfold recordPayment, bind, storage.createPayment, storage.getRentInvoices,
    gets, ret.
  cbn [Payment.row Payment.tenantName Payment.amount decimal_truthy andb].
  rewrite Hname.
  cbn [storage.set_payments rentInvoices]. rewrite Hfind.
  eexists. split; [reflexivity|]. split; reflexivity.
Qed.


Lemma matches_spec (payment : Payment.t) (inv : RentInvoice.t) :
  matches payment inv = true
  <-> RentInvoice.status inv <> Paid
      /\ Num.ltb (Num.abs (Num.sub (RentInvoice.amount inv)
                                   (Payment.amount payment)))
                 (Num.of_Z 1) = true.
Proof.
  unfold matches. destruct (RentInvoice.status inv); cbn [PaymentStatus_eqb];
    split; try discriminate; try tauto; try (intros [H _]; congruence);
    intros H; (split; [discriminate | exact H]).
Qed.



(** C10.  An invoice in status [Late] stays a candidate of the
    auto-matcher even when it is paid in full: in the ledger below the
    newest invoice, May 2025, was paid late in full (80000 on
    2025-05-21); recording a payment of 79999.50 dated 2025-06-12
    matches it, marks it [Paid] again and overwrites its paid amount and
    paid date with those of the new payment. *)
Theorem late_invoice_matched_again :
  exists st data late,
    late ∈ rentInvoices st
    /\ RentInvoice.status late = Late
    /\ RentInvoice.paidAmount late = Some (RentInvoice.amount late)
    /\ text_truthy (Payment.i_tenantName data) = true
    /\ Num.ltb (Num.abs (Num.sub (RentInvoice.amount late) (Payment.i_amount data)))
               (Num.of_Z 1) = true
    /\ exists payment st' updated,
         recordPayment 10 data st = (Json 201 payment, st')
         /\ Payment.status payment = Matched
         /\ Payment.matchedInvoiceId payment = Some (RentInvoice.id late)
         /\ invoice_by_id st (RentInvoice.id late) = Some late
         /\ invoice_by_id st' (RentInvoice.id late) = Some updated
         /\ RentInvoice.status updated = Paid
         /\ RentInvoice.paidAmount updated = Some (Payment.i_amount data)
         /\ RentInvoice.paidDate updated = Some (Payment.i_date data)
         /\ RentInvoice.paidAmount updated <> RentInvoice.paidAmount late
         /\ RentInvoice.paidDate updated <> RentInvoice.paidDate late.
Proof.
  exists Sample.late_store, Sample.payment_79999_50,
    (RentInvoice.mk 2 3 3 5 2025 (Fin 80000) Late (Some (Fin 80000))
       (Some "2025-05-21"%string) (Some "cash"%string)
       (Some "INV-202505-3"%string) 0 0 None).
  split; [apply list_elem_of_In; vm_compute; auto|].
  do 4 (split; [reflexivity|]).
  eexists _, _, _. split; [vm_compute; reflexivity|].
  do 7 (split; [reflexivity|]).
  split; discriminate.
Qed.

(** ** Generating the invoices of a month *)

Lemma set_rentInvoices_same (st : Store) :
  storage.set_rentInvoices (rentInvoices st) (nextRentInvoiceId st) st = st.
Proof. destruct st; reflexivity. Qed.

Lemma generate_loop month year existing ts acc st :
  let rows :=
    generated_rows month year existing (units st) (nextRentInvoiceId st) ts in
  for_of ts (generate_one month year existing) acc st
  = (acc ++ rows,
     storage.set_rentInvoices (rentInvoices st ++ rows)
       (nextRentInvoiceId st + Z.of_nat (length rows)) st).
Proof.
  cbn zeta. revert acc st. induction ts as [|t ts IH]; intros acc st.
  - cbn. rewrite !app_nil_r, Z.add_0_r, set_rentInvoices_same. reflexivity.
  - cbn [for_of generated_rows]. unfold bind at 1. unfold generate_one at 1.
    destruct (decide (Tenant.id t ∈ existing)) as [Hin|Hin].
    + unfold ret at 1. apply IH.
    + unfold bind at 1. unfold storage.getUnit, gets.
      fold (find_unit (units st) (Tenant.unitId t)).
      destruct (find_unit (units st) (Tenant.unitId t)) as [u|].
      * unfold bind, storage.createRentInvoice, ret. rewrite IH.
        cbn [storage.set_rentInvoices rentInvoices nextRentInvoiceId units].
        fold (generated_invoice month year (nextRentInvoiceId st) t u).
        cbn [length]. rewrite <- !app_assoc. cbn [app]. f_equal.
        unfold storage.set_rentInvoices. cbn. f_equal. lia.
      * unfold ret at 1. apply IH.
Qed.

Lemma generated_rows_period month year existing us next ts :
  Forall (fun inv => RentInvoice.month inv = month /\ RentInvoice.year inv = year)
    (generated_rows month year existing us next ts).
Proof.
  revert next. induction ts as [|t ts IH]; intros next; cbn [generated_rows].
  - constructor.
  - destruct (decide (Tenant.id t ∈ existing)); [apply IH|].
    destruct (find_unit us (Tenant.unitId t)); [|apply IH].
    constructor; [split; reflexivity | apply IH].
Qed.

Lemma generated_rows_each month year existing us next ts :
  Forall2
    (fun t inv =>
       RentInvoice.tenantId inv = Tenant.id t
       /\ RentInvoice.unitId inv = Tenant.unitId t
       /\ RentInvoice.month inv = month
       /\ RentInvoice.year inv = year
       /\ exists u,
            find_unit us (Tenant.unitId t) = Some u
            /\ RentInvoice.amount inv = Unit.monthlyRent u
            /\ RentInvoice.status inv = Unpaid
            /\ RentInvoice.paidAmount inv = Some Num.zero
            /\ RentInvoice.receiptNumber inv
               = Some (INV_receipt year month (Tenant.id t)))
    (filter (fun t => (Tenant.id t ∉ existing)
                      /\ is_Some (find_unit us (Tenant.unitId t))) ts)
    (generated_rows month year existing us next ts).
Proof.
  revert next. induction ts as [|t ts IH]; intros next;
    cbn [generated_rows]; rewrite ?filter_nil, ?filter_cons.
  - constructor.
  - destruct (decide (Tenant.id t ∈ existing)) as [Hin|Hin].
    + rewrite decide_False by tauto. apply IH.
    + destruct (find_unit us (Tenant.unitId t)) as [u|] eqn:Hu.
      * rewrite decide_True by (split; [exact Hin | eexists; reflexivity]).
        constructor; [|apply IH].
        repeat split. exists u. repeat split. exact Hu.
      * rewrite decide_False by (intros [_ [x Hx]]; discriminate Hx).
        apply IH.
Qed.

Lemma generated_rows_nil month year existing us next ts :
  (forall t, t ∈ ts ->
     Tenant.id t ∈ existing \/ find_unit us (Tenant.unitId t) = None) ->
  generated_rows month year existing us next ts = [].
Proof.
  revert next. induction ts as [|t ts IH]; intros next Hall; [reflexivity|].
  cbn [generated_rows].
  assert (Hrest : forall t', t' ∈ ts ->
            Tenant.id t' ∈ existing \/ find_unit us (Tenant.unitId t') = None).
  { intros t' Ht'. apply Hall. apply elem_of_cons. auto. }
  destruct (decide (Tenant.id t ∈ existing)) as [Hin|Hin]; [apply IH, Hrest|].
  destruct (Hall t (list_elem_of_here _ _)) as [H|H]; [contradiction|].
  rewrite H. apply IH, Hrest.
Qed.

Lemma generateInvoices_run month year st :
  month <> 0 -> year <> 0 ->
  let rows :=
    generated_rows month year (invoiced_tenants st month year) (units st)
      (nextRentInvoiceId st)
      (filter (fun t => Tenant.isActive t = 1) (tenants st)) in
  generateInvoices month year st
  = (Json 201 {| Generated.generated := length rows;
                 Generated.invoices := rows |},
     storage.set_rentInvoices (rentInvoices st ++ rows)
       (nextRentInvoiceId st + Z.of_nat (length rows)) st).
Proof.
  intros Hm Hy. cbn zeta. unfold generateInvoices.
  apply Z.eqb_neq in Hm, Hy. rewrite Hm, Hy. cbn [orb].
  unfold bind, storage.getTenants, storage.getRentInvoicesByMonth, gets, ret.
  fold (invoiced_tenants st month year).
  rewrite generate_loop. reflexivity.
Qed.

Lemma generateInvoices_rejected month year st :
  month = 0 \/ year = 0 ->
  generateInvoices month year st = (Fail 400 "month and year required", st).
Proof.
  intros H. unfold generateInvoices.
  assert (E : (month =? 0) || (year =? 0) = true).
  { apply orb_true_iff. rewrite !Z.eqb_eq. exact H. }
  rewrite E. reflexivity.
Qed.

Lemma invoiced_tenants_grows (st : Store) (month year next : Z)
    (rows : list RentInvoice.t) (x : Z) :
  Forall (fun inv => RentInvoice.month inv = month /\ RentInvoice.year inv = year)
    rows ->
  x ∈ invoiced_tenants st month year \/ x ∈ RentInvoice.tenantId <$> rows ->
  x ∈ invoiced_tenants
        (storage.set_rentInvoices (rentInvoices st ++ rows) next st) month year.
Proof.
  intros Hrows Hx. unfold invoiced_tenants in *.
  cbn [storage.set_rentInvoices rentInvoices].
  rewrite elem_of_list_to_set in *. rewrite filter_app, fmap_app.
  apply elem_of_app. destruct Hx as [Hx|Hx]; [left; exact Hx|right].
  apply list_elem_of_fmap in Hx. destruct Hx as (inv & -> & Hinv).
  apply list_elem_of_fmap. exists inv. split; [reflexivity|].
  apply list_elem_of_filter. split; [|exact Hinv].
  rewrite Forall_forall in Hrows. apply Hrows, Hinv.
Qed.

(** C6.  Running the generator twice for a period leaves the store the
    first run left: the second run creates no invoice.  The first run
    skips the active tenants already invoiced for the period and those
    whose unit is missing, without an error, and writes exactly one
    invoice for each other active tenant, with the unit's monthly rent as
    amount, status [Unpaid], paid amount 0 and the receipt number
    [INV-{year}{month:02}-{tenantId}]. *)
Theorem generateInvoices_idempotent month year st :
  exists r1 st1 r2 st2,
    generateInvoices month year st = (r1, st1)
    /\ generateInvoices month year st1 = (r2, st2)
    /\ st2 = st1
    /\ created_of r2 = []
    /\ rentInvoices st1 = rentInvoices st ++ created_of r1
    /\ (month <> 0 -> year <> 0 ->
        r1 = Json 201 {| Generated.generated := length (billable st month year);
                         Generated.invoices := created_of r1 |}
        /\ r2 = Json 201 {| Generated.generated := 0;
                            Generated.invoices := [] |}
        /\ Forall2
             (fun t inv =>
                RentInvoice.tenantId inv = Tenant.id t
                /\ RentInvoice.unitId inv = Tenant.unitId t
                /\ RentInvoice.month inv = month
                /\ RentInvoice.year inv = year
                /\ exists u,
                     unit_by_id st (Tenant.unitId t) = Some u
                     /\ RentInvoice.amount inv = Unit.monthlyRent u
                     /\ RentInvoice.status inv = Unpaid
                     /\ RentInvoice.paidAmount inv = Some Num.zero
                     /\ RentInvoice.receiptNumber inv
                        = Some (INV_receipt year month (Tenant.id t)))
             (billable st month year) (created_of r1)).
Proof.
  destruct (Z.eq_dec month 0) as [Hm|Hm].
  { eexists _, _, _, _.
    split; [apply generateInvoices_rejected; auto|].
    split; [apply generateInvoices_rejected; auto|].
    split; [reflexivity|]. split; [reflexivity|].
    split; [cbn; rewrite app_nil_r; reflexivity|]. contradiction. }
  destruct (Z.eq_dec year 0) as [Hy|Hy].
  { eexists _, _, _, _.
    split; [apply generateInvoices_rejected; auto|].
    split; [apply generateInvoices_rejected; auto|].
    split; [reflexivity|]. split; [reflexivity|].
    split; [cbn; rewrite app_nil_r; reflexivity|]. contradiction. }
  pose proof (generateInvoices_run month year st Hm Hy) as H1. cbn zeta in H1.
  set (active := filter (fun t => Tenant.isActive t = 1) (tenants st)) in *.
  set (existing := invoiced_tenants st month year) in *.
  set (rows := generated_rows month year existing (units st)
                 (nextRentInvoiceId st) active) in *.
  set (st1 := storage.set_rentInvoices (rentInvoices st ++ rows)
                (nextRentInvoiceId st + Z.of_nat (length rows)) st) in *.
  pose proof (generateInvoices_run month year st1 Hm Hy) as H2. cbn zeta in H2.
  pose proof (generated_rows_each month year existing (units st)
                (nextRentInvoiceId st) active) as Heach.
  assert (Hbill : filter (fun t => (Tenant.id t ∉ existing)
                            /\ is_Some (find_unit (units st) (Tenant.unitId t)))
                    active
                  = billable st month year).
  { unfold active, billable. rewrite list_filter_filter.
    apply list_filter_iff. intros t. unfold unit_by_id. fold existing. tauto. }
  rewrite Hbill in Heach.
  assert (Hnil : generated_rows month year (invoiced_tenants st1 month year)
                   (units st) (nextRentInvoiceId st1) active = []).
  { apply generated_rows_nil. intros t Ht.
    destruct (decide (Tenant.id t ∈ existing)) as [Hin|Hin].
    { left. apply invoiced_tenants_grows;
        [apply generated_rows_period | left; exact Hin]. }
    destruct (find_unit (units st) (Tenant.unitId t)) as [u|] eqn:Hu;
      [left | right; reflexivity].
    apply invoiced_tenants_grows; [apply generated_rows_period | right].
    assert (Hb : t ∈ billable st month year).
    { rewrite <- Hbill. apply list_elem_of_filter.
      split; [|exact Ht]. split; [exact Hin|]. rewrite Hu. eexists; reflexivity. }
    apply list_elem_of_lookup in Hb. destruct Hb as [i Hi].
    destruct (Forall2_lookup_l _ _ _ _ _ Heach Hi) as (inv & Hinv & Hti & _).
    rewrite <- Hti. apply list_elem_of_fmap. exists inv.
    split; [reflexivity|]. apply list_elem_of_lookup. exists i. exact Hinv. }
  change (tenants st1) with (tenants st) in H2.
  change (units st1) with (units st) in H2.
  fold active in H2. rewrite Hnil in H2.
  cbn [length Z.of_nat] in H2.
  rewrite app_nil_r, Z.add_0_r, set_rentInvoices_same in H2.
  eexists _, st1, _, st1.
  split; [exact H1|]. split; [exact H2|].
  split; [reflexivity|]. split; [reflexivity|]. split; [reflexivity|].
  intros _ _. cbn [created_of Generated.invoices].
  split; [|split; [reflexivity | exact Heach]].
  rewrite (Forall2_length _ _ _ Heach). reflexivity.
Qed.

Lemma generateInvoices_idempotent_witness :
  exists r1 st1 r2,
    generateInvoices 7 2025 Sample.collected_store = (r1, st1)
    /\ generateInvoices 7 2025 st1 = (r2, st1)
    /\ r1 = Json 201 {| Generated.generated := 2;
                        Generated.invoices := created_of r1 |}
    /\ r2 = Json 201 {| Generated.generated := 0;
                        Generated.invoices := [] |}
    /\ RentInvoice.receiptNumber <$> created_of r1
       = [Some "INV-202507-1"%string; Some "INV-202507-2"%string]
    /\ RentInvoice.amount <$> created_of r1 = [Fin 1000; Fin 45000].
Proof.
  destruct (generateInvoices_idempotent 7 2025 Sample.collected_store)
    as (r1 & st1 & r2 & st2 & H1 & H2 & -> & _ & _ & Hrun).
  destruct Hrun as (Hr1 & Hr2 & _); [discriminate | discriminate |].
  exists r1, st1, r2. split; [exact H1|]. split; [exact H2|].
  split; [exact Hr1|]. split; [exact Hr2|].
  assert (E : r1 = (generateInvoices 7 2025 Sample.collected_store).1)
    by (rewrite H1; reflexivity).
  rewrite E. split; vm_compute; reflexivity.
Defined.

(** ** Loops *)

Lemma for_of_app {A S} (l1 l2 : list A) (body : A -> S -> DB S) (acc : S) (st : Store) :
  for_of (l1 ++ l2) body acc st
  = let (acc', st') := for_of l1 body acc st in for_of l2 body acc' st'.
Proof.
  revert acc st. induction l1 as [|x l1 IH]; intros acc st; [reflexivity|].
  cbn [app for_of]. unfold bind. destruct (body x acc st) as [acc1 st1].
  apply IH.
Qed.

Lemma for_of_fmap {A B S} (h : A -> B) (l : list A) (body : B -> S -> DB S)
    (acc : S) (st : Store) :
  for_of (h <$> l) body acc st = for_of l (fun x => body (h x)) acc st.
Proof.
  revert acc st. induction l as [|x l IH]; intros acc st; [reflexivity|].
  cbn [fmap list_fmap for_of]. unfold bind.
  destruct (body (h x) acc st) as [acc1 st1]. apply IH.
Qed.

(** Two nested loops are one loop over the pairs. *)
Lemma for_of_nested {A B S} (l : list A) (inner : A -> list B)
    (body : A -> B -> S -> DB S) (acc : S) (st : Store) :
  for_of l (fun x acc => for_of (inner x) (body x) acc) acc st
  = for_of (flat_map (fun x => pair x <$> inner x) l)
      (fun p => body p.1 p.2) acc st.
Proof.
  revert acc st. induction l as [|x l IH]; intros acc st; [reflexivity|].
  cbn [for_of flat_map]. rewrite for_of_app, for_of_fmap. unfold bind.
  cbn [fst snd].
  destruct (for_of (inner x) (body x) acc st) as [acc1 st1]. apply IH.
Qed.

(** ** Reconstructing the history of a unit *)

Lemma grow_nil (st : Store) : grow st [] = st.
Proof.
  unfold grow. cbn. rewrite app_nil_r, Z.add_0_r. apply set_rentInvoices_same.
Qed.

Lemma grow_grow (st : Store) (a b : list RentInvoice.t) :
  grow (grow st a) b = grow st (a ++ b).
Proof.
  unfold grow, storage.set_rentInvoices. cbn.
  rewrite length_app, Nat2Z.inj_add, <- app_assoc, Z.add_assoc. reflexivity.
Qed.

Lemma covered_app (l l' : list RentInvoice.t) (unitId m y : Z) :
  covered (l ++ l') unitId m y <-> covered l unitId m y \/ covered l' unitId m y.
Proof. unfold covered. apply Exists_app. Qed.

Lemma find_covered (invs : list RentInvoice.t) (unitId m y : Z) :
  List.find (fun inv => RentInvoice.unitId inv =? unitId)
    (filter (fun i => RentInvoice.month i = m /\ RentInvoice.year i = y) invs)
  = None
  <-> ~ covered invs unitId m y.
Proof.
  rewrite find_none_iff. unfold covered. rewrite Exists_exists. split.
  - intros H (inv & Hin & Hu & Hm & Hy).
    assert (E : (RentInvoice.unitId inv =? unitId) = false).
    { apply H. apply list_elem_of_filter. auto. }
    apply Z.eqb_neq in E. contradiction.
  - intros H inv Hin. apply list_elem_of_filter in Hin.
    destruct Hin as [[Hm Hy] Hin]. apply Z.eqb_neq. intros Hu.
    apply H. exists inv. auto.
Qed.

Lemma reconstruct_month_skip unitId cr yip yr m acc st :
  covered (rentInvoices st) unitId m (YearRent.year yr) ->
  reconstruct_month unitId cr yip yr m acc st = (acc, st).
Proof.
  intros Hc. unfold reconstruct_month, bind, storage.getRentInvoicesByMonth, gets.
  destruct (List.find _ _) eqn:Hf; [reflexivity|].
  apply find_covered in Hf. contradiction.
Qed.

Lemma reconstruct_month_no_tenant unitId cr yip yr m acc st :
  tenant_of_unit st unitId = None ->
  reconstruct_month unitId cr yip yr m acc st = (acc, st).
Proof.
  intros Ht. unfold reconstruct_month, bind, storage.getRentInvoicesByMonth, gets.
  destruct (List.find _ _); [reflexivity|].
  unfold storage.getTenantsByUnit, gets. fold (tenant_of_unit st unitId).
  rewrite Ht. reflexivity.
Qed.

Lemma reconstruct_month_create unitId cr yip yr m acc st t :
  ~ covered (rentInvoices st) unitId m (YearRent.year yr) ->
  tenant_of_unit st unitId = Some t ->
  reconstruct_month unitId cr yip yr m acc st
  = (acc ++ [reconstructed_invoice unitId cr yip (nextRentInvoiceId st) t yr m],
     grow st [reconstructed_invoice unitId cr yip (nextRentInvoiceId st) t yr m]).
Proof.
  intros Hc Ht. apply find_covered in Hc.
  unfold reconstruct_month, bind, storage.getRentInvoicesByMonth, gets.
  rewrite Hc. unfold storage.getTenantsByUnit, gets.
  fold (tenant_of_unit st unitId). rewrite Ht.
  unfold storage.createRentInvoice, ret, grow. reflexivity.
Qed.

Lemma reconstruct_loop unitId cr yip (ps : list (YearRent.t * Z)) acc st :
  exists new,
    for_of ps (fun p => reconstruct_month unitId cr yip p.1 p.2) acc st
    = (acc ++ new, grow st new)
    /\ Forall
         (fun inv =>
            RentInvoice.unitId inv = unitId
            /\ ~ covered (rentInvoices st) unitId
                   (RentInvoice.month inv) (RentInvoice.year inv)
            /\ exists p,
                 p ∈ ps
                 /\ RentInvoice.month inv = p.2
                 /\ RentInvoice.year inv = YearRent.year p.1
                 /\ RentInvoice.amount inv = YearRent.rent p.1)
         new
    /\ (tenant_of_unit st unitId = None -> new = [])
    /\ (is_Some (tenant_of_unit st unitId) ->
        forall p, p ∈ ps ->
          covered (rentInvoices st ++ new) unitId p.2 (YearRent.year p.1))
    /\ ((forall p, p ∈ ps ->
           covered (rentInvoices st) unitId p.2 (YearRent.year p.1)) ->
        new = []).
Proof.
  revert acc st. induction ps as [|[yr m] ps IH]; intros acc st.
  - exists []. cbn [for_of]. unfold ret. rewrite app_nil_r, grow_nil.
    split; [reflexivity|]. split; [constructor|]. split; [reflexivity|].
    split; [|reflexivity]. intros _ p Hp. inversion Hp.
  - cbn [for_of]. unfold bind. cbn [fst snd].
    destruct (decide (covered (rentInvoices st) unitId m (YearRent.year yr)))
      as [Hc|Hc]; [|destruct (tenant_of_unit st unitId) as [t|] eqn:Ht].
    + (* the period already has an invoice of the unit *)
      rewrite reconstruct_month_skip by exact Hc.
      destruct (IH acc st) as (new & Hrun & Hnew & Hnone & Hsome & Hall).
      exists new. split; [exact Hrun|]. split.
      { eapply Forall_impl; [exact Hnew|]. cbn.
        intros inv (Hu & Hn & p & Hp & Hrest).
        split; [exact Hu|]. split; [exact Hn|]. exists p.
        split; [apply elem_of_cons; auto | exact Hrest]. }
      split; [exact Hnone|]. split.
      { intros Hs p Hp. apply elem_of_cons in Hp. destruct Hp as [->|Hp].
        - apply covered_app. left. exact Hc.
        - apply Hsome; assumption. }
      intros Hcov. apply Hall. intros p Hp. apply Hcov, elem_of_cons. auto.
    + (* an invoice is created *)
      rewrite (reconstruct_month_create _ _ _ _ _ _ _ t) by assumption.
      set (inv := reconstructed_invoice unitId cr yip (nextRentInvoiceId st) t yr m).
      destruct (IH (acc ++ [inv]) (grow st [inv]))
        as (new & Hrun & Hnew & Hnone & Hsome & Hall).
      exists (inv :: new). split.
      { rewrite Hrun, grow_grow, <- app_assoc. reflexivity. }
      split.
      { constructor.
        - split; [reflexivity|]. split; [exact Hc|]. exists (yr, m).
          split; [apply list_elem_of_here | repeat split].
        - eapply Forall_impl; [exact Hnew|]. cbn.
          intros i (Hu & Hn & p & Hp & Hrest).
          split; [exact Hu|]. split.
          + intros Hcov. apply Hn. apply covered_app. left. exact Hcov.
          + exists p. split; [apply elem_of_cons; auto | exact Hrest]. }
      split; [intros Hn; discriminate Hn|]. split.
      { intros _ p Hp. apply elem_of_cons in Hp. destruct Hp as [->|Hp].
        - apply covered_app. right. apply Exists_cons_hd. repeat split.
        - assert (Hs : is_Some (tenant_of_unit (grow st [inv]) unitId)).
          { change (tenant_of_unit (grow st [inv]) unitId)
              with (tenant_of_unit st unitId).
            rewrite Ht. eexists; reflexivity. }
          specialize (Hsome Hs p Hp).
          cbn [grow storage.set_rentInvoices rentInvoices] in Hsome.
          rewrite <- app_assoc in Hsome. exact Hsome. }
      intros Hcov. exfalso. apply Hc.
      apply (Hcov (yr, m)), list_elem_of_here.
    + (* the unit has no tenant *)
      rewrite reconstruct_month_no_tenant by exact Ht.
      destruct (IH acc st) as (new & Hrun & Hnew & Hnone & Hsome & Hall).
      assert (new = []) as -> by (apply Hnone, Ht).
      exists []. split; [exact Hrun|]. split; [constructor|].
      split; [reflexivity|]. split; [|reflexivity].
      intros [x Hx]. congruence.
Qed.

Lemma reconstructHistory_rejected now userId unitId cr yip startYear startMonth st :
  truthy cr = false \/ truthy yip = false \/ unit_by_id st unitId = None ->
  exists code message,
    reconstructHistory now userId unitId cr yip startYear startMonth st
    = (Fail code message, st).
Proof.
  intros H. unfold reconstructHistory.
  destruct (truthy cr) eqn:Hc; [|eexists _, _; reflexivity].
  destruct (truthy yip) eqn:Hy; [|eexists _, _; reflexivity].
  cbn [negb orb]. unfold bind, storage.getUnit, gets.
  fold (find_unit (units st) unitId). fold (unit_by_id st unitId).
  destruct H as [H|[H|H]]; try discriminate H.
  rewrite H. eexists _, _; reflexivity.
Qed.

Lemma reconstructHistory_run now userId unitId cr yip startYear startMonth st :
  truthy cr = true -> truthy yip = true -> is_Some (unit_by_id st unitId) ->
  let sYear := int_or startYear 2015 in
  let yearlyRents :=
    yearlyRents_of (Date.getFullYear now) sYear
      (Num.div (parseFloat yip) (Num.of_Z 100)) (parseFloat cr) in
  let ps :=
    periods (Date.getFullYear now) (Date.getMonth now + 1) sYear
      (int_or startMonth 1) yearlyRents in
  exists new st1,
    reconstructHistory now userId unitId cr yip startYear startMonth st
    = (Json 201 {| Reconstructed.generated := length new;
                   Reconstructed.yearlyRents := yearlyRents;
                   Reconstructed.invoices := new |}, st1)
    /\ rentInvoices st1 = rentInvoices st ++ new
    /\ tenants st1 = tenants st
    /\ units st1 = units st
    /\ Forall
         (fun inv =>
            RentInvoice.unitId inv = unitId
            /\ ~ covered (rentInvoices st) unitId
                   (RentInvoice.month inv) (RentInvoice.year inv)
            /\ exists p,
                 p ∈ ps
                 /\ RentInvoice.month inv = p.2
                 /\ RentInvoice.year inv = YearRent.year p.1
                 /\ RentInvoice.amount inv = YearRent.rent p.1)
         new
    /\ (tenant_of_unit st unitId = None -> new = [])
    /\ (is_Some (tenant_of_unit st unitId) ->
        forall p, p ∈ ps ->
          covered (rentInvoices st ++ new) unitId p.2 (YearRent.year p.1))
    /\ ((forall p, p ∈ ps ->
           covered (rentInvoices st) unitId p.2 (YearRent.year p.1)) ->
        new = []).
Proof.
  intros Hc Hy [u Hu]. cbn zeta.
  unfold reconstructHistory. rewrite Hc, Hy. cbn [negb orb].
  unfold bind at 1. unfold storage.getUnit, gets.
  fold (find_unit (units st) unitId). fold (unit_by_id st unitId). rewrite Hu.
  unfold bind at 1. unfold reconstruct_year.
  rewrite (for_of_nested _ _
             (fun yr => reconstruct_month unitId cr yip yr)).
  fold (periods (Date.getFullYear now) (Date.getMonth now + 1)
          (int_or startYear 2015) (int_or startMonth 1)
          (yearlyRents_of (Date.getFullYear now) (int_or startYear 2015)
             (Num.div (parseFloat yip) (Num.of_Z 100)) (parseFloat cr))).
  destruct (reconstruct_loop unitId cr yip
              (periods (Date.getFullYear now) (Date.getMonth now + 1)
                 (int_or startYear 2015) (int_or startMonth 1)
                 (yearlyRents_of (Date.getFullYear now) (int_or startYear 2015)
                    (Num.div (parseFloat yip) (Num.of_Z 100)) (parseFloat cr)))
              [] st)
    as (new & Hrun & Hnew & Hnone & Hsome & Hall).
  rewrite Hrun. cbn [app].
  unfold bind, storage.createAuditLog, ret.
  eexists new, _. split; [reflexivity|].
  repeat split; assumption.
Qed.

Lemma pick_tenant_nil : pick_tenant [] = None.
Proof. reflexivity. Qed.

(** C7.  Running the reconstruction twice with the same parameters under
    the same clock creates no invoice the second time.  A run never
    creates an invoice for a period in which the unit already had an
    invoice, whoever its tenant; and for a unit without any tenant record
    it creates nothing and still answers 201. *)
Theorem reconstructHistory_dedup now userId unitId currentRent
    yearlyIncreasePercent startYear startMonth st :
  exists r1 st1 r2 st2,
    reconstructHistory now userId unitId currentRent yearlyIncreasePercent
      startYear startMonth st = (r1, st1)
    /\ reconstructHistory now userId unitId currentRent yearlyIncreasePercent
         startYear startMonth st1 = (r2, st2)
    /\ reconstructed_of r2 = []
    /\ rentInvoices st2 = rentInvoices st1
    /\ rentInvoices st1 = rentInvoices st ++ reconstructed_of r1
    /\ Forall
         (fun inv =>
            RentInvoice.unitId inv = unitId
            /\ ~ covered (rentInvoices st) unitId
                   (RentInvoice.month inv) (RentInvoice.year inv))
         (reconstructed_of r1)
    /\ (filter (fun t => Tenant.unitId t = unitId) (tenants st) = [] ->
        reconstructed_of r1 = []
        /\ rentInvoices st1 = rentInvoices st
        /\ (truthy currentRent = true ->
            truthy yearlyIncreasePercent = true ->
            is_Some (unit_by_id st unitId) ->
            exists b, r1 = Json 201 b /\ Reconstructed.generated b = 0%nat)).
Proof.
  destruct (truthy currentRent) eqn:Hc;
    [destruct (truthy yearlyIncreasePercent) eqn:Hy;
     [destruct (unit_by_id st unitId) as [u|] eqn:Hu|]|].
  - (* both runs go through *)
    destruct (reconstructHistory_run now userId unitId currentRent
                yearlyIncreasePercent startYear startMonth st Hc Hy)
      as (new & st1 & Hrun1 & Hinv1 & Hten1 & Hun1 & Hnew & Hnone & Hsome & _).
    { rewrite Hu. eexists; reflexivity. }
    destruct (reconstructHistory_run now userId unitId currentRent
                yearlyIncreasePercent startYear startMonth st1 Hc Hy)
      as (new2 & st2 & Hrun2 & Hinv2 & _ & _ & _ & Hnone2 & _ & Hall2).
    { unfold unit_by_id in *. rewrite Hun1, Hu. eexists; reflexivity. }
    assert (Hnil : new2 = []).
    { destruct (tenant_of_unit st unitId) as [t|] eqn:Ht.
      - apply Hall2. intros p Hp. rewrite Hinv1. apply Hsome; [|exact Hp].
        eexists; reflexivity.
      - apply Hnone2. unfold tenant_of_unit in *. rewrite Hten1. exact Ht. }
    subst new2. rewrite app_nil_r in Hinv2.
    eexists _, st1, _, st2. split; [exact Hrun1|]. split; [exact Hrun2|].
    cbn [reconstructed_of Reconstructed.invoices].
    split; [reflexivity|]. split; [exact Hinv2|]. split; [exact Hinv1|].
    split.
    { eapply Forall_impl; [exact Hnew|]. cbn. tauto. }
    intros Hno.
    assert (Hnew0 : new = []).
    { apply Hnone. unfold tenant_of_unit. rewrite Hno. apply pick_tenant_nil. }
    subst new. rewrite app_nil_r in Hinv1.
    split; [reflexivity|]. split; [exact Hinv1|].
    intros _ _ _. eexists. split; reflexivity.
  - destruct (reconstructHistory_rejected now userId unitId currentRent
                yearlyIncreasePercent startYear startMonth st)
      as (code & message & Hrun); [auto|].
    eexists _, st, _, st. split; [exact Hrun|]. split; [exact Hrun|].
    cbn [reconstructed_of]. rewrite app_nil_r.
    repeat split; try constructor. intros _ _ [x Hx]. discriminate Hx.
  - destruct (reconstructHistory_rejected now userId unitId currentRent
                yearlyIncreasePercent startYear startMonth st)
      as (code & message & Hrun); [auto|].
    eexists _, st, _, st. split; [exact Hrun|]. split; [exact Hrun|].
    cbn [reconstructed_of]. rewrite app_nil_r.
    repeat split; try constructor. intros _ Hx. discriminate Hx.
  - destruct (reconstructHistory_rejected now userId unitId currentRent
                yearlyIncreasePercent startYear startMonth st)
      as (code & message & Hrun); [auto|].
    eexists _, st, _, st. split; [exact Hrun|]. split; [exact Hrun|].
    cbn [reconstructed_of]. rewrite app_nil_r.
    repeat split; try constructor. intros Hx. discriminate Hx.
Qed.

Lemma reconstructHistory_dedup_witness :
  (exists r1 st1 r2 st2,
     reconstructHistory Sample.june_3rd_noon 10 1 (JNumber 45000) (JNumber 10)
       (Some 2024) (Some 11) Sample.store = (r1, st1)
     /\ reconstructHistory Sample.june_3rd_noon 10 1 (JNumber 45000) (JNumber 10)
          (Some 2024) (Some 11) st1 = (r2, st2)
     /\ length (reconstructed_of r1) = 7%nat
     /\ reconstructed_of r2 = []
     /\ rentInvoices st2 = rentInvoices st1)
  /\ (exists st1 b,
        reconstructHistory Sample.june_3rd_noon 10 2 (JNumber 45000) (JNumber 10)
          (Some 2024) (Some 11) Sample.store = (Json 201 b, st1)
        /\ Reconstructed.generated b = 0%nat
        /\ rentInvoices st1 = rentInvoices Sample.store).
Proof.
  split.
  - destruct (reconstructHistory_dedup Sample.june_3rd_noon 10 1 (JNumber 45000)
                (JNumber 10) (Some 2024) (Some 11) Sample.store)
      as (r1 & st1 & r2 & st2 & H1 & H2 & Hnil & Hsame & _).
    exists r1, st1, r2, st2. repeat split; try assumption.
    assert (E : r1 = (reconstructHistory Sample.june_3rd_noon 10 1
                        (JNumber 45000) (JNumber 10) (Some 2024) (Some 11)
                        Sample.store).1) by (rewrite H1; reflexivity).
    rewrite E. vm_compute. reflexivity.
  - destruct (reconstructHistory_dedup Sample.june_3rd_noon 10 2 (JNumber 45000)
                (JNumber 10) (Some 2024) (Some 11) Sample.store)
      as (r1 & st1 & r2 & st2 & H1 & _ & _ & _ & _ & _ & Hnone).
    destruct Hnone as (_ & Hinv & Hok); [reflexivity|].
    destruct Hok as (b & -> & Hb);
      [reflexivity | reflexivity | eexists; reflexivity |].
    exists st1, b. auto.
Defined.

(** ** The yearly rents of a reconstruction *)

















(** * Further properties of the handlers *)

(** A closed decidable statement, settled by evaluating its decision. *)
Ltac by_evaluation := apply (bool_decide_unpack _); vm_compute; exact I.

(** ** Payments on an invoice *)

Lemma payInvoice_accepted_store now userId id paidAmount paymentMethod st inv :
  invoice_by_id st id = Some inv ->
  Num.ltb (paid_of paidAmount inv) Num.zero = false ->
  Num.gtb (paid_of paidAmount inv) (RentInvoice.amount inv) = false ->
  payInvoice now userId id paidAmount paymentMethod st
  = (Json 200
       (Some (RentInvoice.set
                (pay_patch now st inv (paid_of paidAmount inv) paymentMethod)
                inv)),
     storage.set_auditLogs
       (auditLogs st ++ [pay_log now userId st inv (paid_of paidAmount inv)])
       (nextAuditLogId st + 1)
       (storage.set_rentInvoices
          (storage.update_where (fun r => RentInvoice.id r =? id)
             (RentInvoice.set
                (pay_patch now st inv (paid_of paidAmount inv) paymentMethod))
             (rentInvoices st))
          (nextRentInvoiceId st) st)).
Proof.
  intros H Hneg Hgt.
  destruct (head_filter_Some_id _ _ _ H) as [Hid _].
  unfold payInvoice, bind, storage.getRentInvoice, gets, ret.
  fold (invoice_by_id st id). rewrite H. rewrite Hneg, Hgt.
  unfold pay_patch, pay_log, status_of, dueDate_of.
  destruct (Num.geb (paid_of paidAmount inv) (RentInvoice.amount inv)) eqn:Hge;
    cbn [storage.getTenant gets storage.updateRentInvoice storage.createAuditLog
         fst snd storage.set_rentInvoices storage.set_auditLogs rentInvoices
         auditLogs nextAuditLogId];
    rewrite Hid, head_filter_update; unfold invoice_by_id in H; rewrite H;
    reflexivity.
Qed.

Lemma payInvoice_cases now userId id paidAmount paymentMethod st :
  (exists code message,
     payInvoice now userId id paidAmount paymentMethod st
     = (Fail code message, st))
  \/ (exists inv,
        invoice_by_id st id = Some inv
        /\ Num.ltb (paid_of paidAmount inv) Num.zero = false
        /\ Num.gtb (paid_of paidAmount inv) (RentInvoice.amount inv) = false).
Proof.
  destruct (invoice_by_id st id) as [inv|] eqn:Hinv.
  - destruct (Num.ltb (paid_of paidAmount inv) Num.zero) eqn:Hneg.
    + left. eexists _, _. apply (payInvoice_negative _ _ _ _ _ _ inv); assumption.
    + destruct (Num.gtb (paid_of paidAmount inv) (RentInvoice.amount inv)) eqn:Hgt.
      * left. eexists _, _. apply (payInvoice_excess _ _ _ _ _ _ inv); assumption.
      * right. exists inv. auto.
  - left. eexists _, _. apply payInvoice_absent. exact Hinv.
Qed.

Lemma update_where_lookup {A} (hit : A -> bool) (f : A -> A) (l : list A)
    (i : nat) (r : A) :
  l !! i = Some r ->
  storage.update_where hit f l !! i = Some (if hit r then f r else r).
Proof.
  intros H. unfold storage.update_where.
  change (map ?g l) with (g <$> l). rewrite list_lookup_fmap, H. reflexivity.
Qed.

Lemma set_same_billing (p : RentInvoice.patch) (r : RentInvoice.t) :
  same_billing r (RentInvoice.set p r).
Proof. repeat split. Qed.

(** X1.  A payment that is answered with an error changes nothing.  A
    payment that is accepted rewrites, in the rows carrying the invoice's
    id, only the status, the paid amount, the paid date and the payment
    method; every other invoice row and every other table is left as it
    was, and exactly one audit row is appended. *)
Theorem payInvoice_frame now userId id paidAmount paymentMethod st r st' :
  payInvoice now userId id paidAmount paymentMethod st = (r, st') ->
  match r with
  | Fail _ _ => st' = st
  | Json _ _ =>
      length (rentInvoices st') = length (rentInvoices st)
      /\ (forall (i : nat) row,
            rentInvoices st !! i = Some row ->
            exists row',
              rentInvoices st' !! i = Some row'
              /\ same_billing row row'
              /\ (RentInvoice.id row <> id -> row' = row))
      /\ units st' = units st
      /\ tenants st' = tenants st
      /\ propertyUsers st' = propertyUsers st
      /\ ownerSettlements st' = ownerSettlements st
      /\ payments st' = payments st
      /\ exists log,
           auditLogs st' = auditLogs st ++ [log]
           /\ AuditLog.action log = "mark_payment"%string
           /\ AuditLog.recordId log = Some id
           /\ AuditLog.userId log = Some userId
  end.
Proof.
  intros Hrun.
  destruct (payInvoice_cases now userId id paidAmount paymentMethod st)
    as [(code & message & Hfail)|(inv & Hinv & Hneg & Hgt)].
  - rewrite Hfail in Hrun. injection Hrun as <- <-. reflexivity.
  - rewrite (payInvoice_accepted_store _ _ _ _ _ _ inv Hinv Hneg Hgt) in Hrun.
    injection Hrun as <- <-.
    destruct (head_filter_Some_id _ _ _ Hinv) as [Hid _].
    cbn [storage.set_auditLogs storage.set_rentInvoices rentInvoices units
         tenants propertyUsers ownerSettlements payments auditLogs].
    split; [unfold storage.update_where; apply length_map|].
    split.
    { intros i row Hrow. rewrite (update_where_lookup _ _ _ _ _ Hrow).
      eexists. split; [reflexivity|].
      destruct (Z.eqb_spec (RentInvoice.id row) id) as [E|E].
      - split; [apply set_same_billing | contradiction].
      - split; [repeat split | reflexivity]. }
    do 5 (split; [reflexivity|]).
    eexists. split; [reflexivity|]. cbn. rewrite Hid. auto.
Qed.

Lemma payInvoice_frame_witness :
  exists updated st',
    payInvoice Sample.june_3rd_noon 10 1 (JString "500") None
      Sample.collected_store = (Json 200 updated, st')
    /\ length (rentInvoices st') = 3%nat
    /\ tenants st' = tenants Sample.collected_store
    /\ payments st' = payments Sample.collected_store
    /\ length (auditLogs st') = 1%nat.
Proof.
  destruct (payInvoice Sample.june_3rd_noon 10 1 (JString "500") None
              Sample.collected_store) as [r st'] eqn:Hrun.
  pose proof (payInvoice_frame _ _ _ _ _ _ _ _ Hrun) as H.
  assert (Hr : exists updated, r = Json 200 updated).
  { vm_compute in Hrun. injection Hrun as <- _. eexists. reflexivity. }
  destruct Hr as [updated ->]. exists updated, st'.
  destruct H as (Hlen & _ & _ & Hten & _ & _ & Hpay & log & Hlog & _).
  split; [reflexivity|]. split; [exact Hlen|]. split; [exact Hten|].
  split; [exact Hpay|]. rewrite Hlog. reflexivity.
Defined.

Lemma pay_patch_overwrites now st inv paid m (p : RentInvoice.patch)
    (r : RentInvoice.t) :
  RentInvoice.set (pay_patch now st inv paid m) (RentInvoice.set p r)
  = RentInvoice.set (pay_patch now st inv paid m) r.
Proof. reflexivity. Qed.

Lemma update_where_overwrites id (p q : RentInvoice.patch) l :
  (forall r, RentInvoice.set q (RentInvoice.set p r) = RentInvoice.set q r) ->
  storage.update_where (fun r => RentInvoice.id r =? id) (RentInvoice.set q)
    (storage.update_where (fun r => RentInvoice.id r =? id) (RentInvoice.set p) l)
  = storage.update_where (fun r => RentInvoice.id r =? id) (RentInvoice.set q) l.
Proof.
  intros Hq. unfold storage.update_where. rewrite map_map.
  apply map_ext. intros r.
  destruct (RentInvoice.id r =? id) eqn:E.
  - rewrite set_keeps_id, E. apply Hq.
  - rewrite E. reflexivity.
Qed.

(** X2.  Payments on an invoice do not add up: when a payment has been
    accepted, a second accepted payment on the same invoice is answered
    with, and leaves in the invoice table, exactly what it would have
    without the first.  The invoice keeps the amount, date, method and
    status of the last payment only. *)
Theorem payInvoice_last_payment_wins
    now1 user1 amount1 method1 now2 user2 amount2 method2 id st c1 b1 st1 c2 b2 st2 :
  payInvoice now1 user1 id amount1 method1 st = (Json c1 b1, st1) ->
  payInvoice now2 user2 id amount2 method2 st1 = (Json c2 b2, st2) ->
  exists st2',
    payInvoice now2 user2 id amount2 method2 st = (Json c2 b2, st2')
    /\ rentInvoices st2' = rentInvoices st2.
Proof.
  intros H1 H2.
  destruct (payInvoice_cases now1 user1 id amount1 method1 st)
    as [(c & m & Hf)|(inv & Hinv & Hneg & Hgt)];
    [rewrite Hf in H1; discriminate|].
  rewrite (payInvoice_accepted_store _ _ _ _ _ _ inv Hinv Hneg Hgt) in H1.
  injection H1 as <- <- <-.
  set (p1 := pay_patch now1 st inv (paid_of amount1 inv) method1) in *.
  set (st1 := storage.set_auditLogs _ _ _) in *.
  assert (Hinv1 : invoice_by_id st1 id = Some (RentInvoice.set p1 inv))
    by (apply (invoice_by_id_updated st); [exact Hinv | reflexivity]).
  destruct (payInvoice_cases now2 user2 id amount2 method2 st1)
    as [(c & m & Hf)|(inv1 & Hinv1' & Hneg2 & Hgt2)];
    [rewrite Hf in H2; discriminate|].
  rewrite Hinv1 in Hinv1'. injection Hinv1' as <-.
  rewrite (payInvoice_accepted_store _ _ _ _ _ _ _ Hinv1 Hneg2 Hgt2) in H2.
  injection H2 as <- <- <-.
  change (paid_of amount2 (RentInvoice.set p1 inv)) with (paid_of amount2 inv)
    in *.
  change (RentInvoice.amount (RentInvoice.set p1 inv))
    with (RentInvoice.amount inv) in *.
  eexists. split.
  - rewrite (payInvoice_accepted_store _ _ _ _ _ _ inv Hinv Hneg2 Hgt2).
    reflexivity.
  - cbn [storage.set_auditLogs storage.set_rentInvoices rentInvoices].
    subst st1. cbn [storage.set_auditLogs storage.set_rentInvoices rentInvoices].
    symmetry. apply update_where_overwrites. intros r. reflexivity.
Qed.

Lemma payInvoice_last_payment_wins_witness :
  exists b1 st1 updated st2 st2',
    payInvoice Sample.june_3rd_noon 10 1 (JString "400") None Sample.store
    = (Json 200 b1, st1)
    /\ payInvoice Sample.june_3rd_noon 10 1 (JString "600") None st1
       = (Json 200 (Some updated), st2)
    /\ payInvoice Sample.june_3rd_noon 10 1 (JString "600") None Sample.store
       = (Json 200 (Some updated), st2')
    /\ rentInvoices st2' = rentInvoices st2
    /\ RentInvoice.status updated = Partial
    /\ RentInvoice.paidAmount updated = Some (Fin 600).
Proof.
  destruct (payInvoice Sample.june_3rd_noon 10 1 (JString "400") None
              Sample.store) as [r1 st1] eqn:H1.
  pose proof H1 as E1. vm_compute in E1. injection E1 as <- <-.
  match type of H1 with _ = (Json 200 ?b, ?st) => set (b1 := b); set (st1 := st) end.
  destruct (payInvoice Sample.june_3rd_noon 10 1 (JString "600") None st1)
    as [r2 st2] eqn:H2.
  pose proof H2 as E2. vm_compute in E2. injection E2 as <- <-.
  match type of H2 with _ = (Json 200 (Some ?u), ?st) =>
    set (updated := u); set (st2 := st) end.
  destruct (payInvoice_last_payment_wins _ _ _ _ _ _ _ _ _ _ _ _ _ _ _ _ H1 H2)
    as (st2' & H3 & Hrows).
  exists b1, st1, updated, st2, st2'.
  split; [exact H1|]. split; [exact H2|]. split; [exact H3|].
  split; [exact Hrows|]. split; reflexivity.
Defined.

(** X3.  A supplied amount that is truthy but does not parse as a number
    (a string such as "abc") is not rejected: NaN is neither below zero nor
    above the invoice amount, so the payment is accepted with 200 and the
    invoice is recorded as [Partial] with NaN as its paid amount. *)
Theorem payInvoice_unparsable_amount
    now userId id paidAmount paymentMethod st inv :
  invoice_by_id st id = Some inv ->
  truthy paidAmount = true ->
  parseFloat paidAmount = NaN ->
  exists updated st',
    payInvoice now userId id paidAmount paymentMethod st
    = (Json 200 (Some updated), st')
    /\ invoice_by_id st' id = Some updated
    /\ RentInvoice.status updated = Partial
    /\ RentInvoice.paidAmount updated = Some NaN.
Proof.
  intros Hinv Ht Hp.
  assert (Hpaid : paid_of paidAmount inv = NaN)
    by (unfold paid_of; rewrite Ht; exact Hp).
  rewrite (payInvoice_accepted_store _ _ _ _ _ _ inv Hinv)
    by (rewrite Hpaid; unfold Num.gtb;
        destruct (RentInvoice.amount inv); reflexivity).
  eexists _, _. split; [reflexivity|]. split.
  - apply (invoice_by_id_updated st); [exact Hinv | reflexivity].
  - rewrite Hpaid.
    cbn [RentInvoice.set pay_patch RentInvoice.status RentInvoice.paidAmount
         RentInvoice.p_status RentInvoice.p_paidAmount default].
    unfold status_of, Num.geb, Num.leb.
    destruct (RentInvoice.amount inv); split; reflexivity.
Qed.

Lemma payInvoice_unparsable_amount_witness :
  exists updated st',
    payInvoice Sample.june_3rd_noon 10 1 (JString "abc") None Sample.store
    = (Json 200 (Some updated), st')
    /\ invoice_by_id st' 1 = Some updated
    /\ RentInvoice.status updated = Partial
    /\ RentInvoice.paidAmount updated = Some NaN.
Proof.
  apply (payInvoice_unparsable_amount _ _ _ _ _ _ Sample.invoice);
    reflexivity.
Defined.

(** ** Recording payments *)

Lemma recordPayment_no_name userId data st :
  text_truthy (Payment.i_tenantName data) = false ->
  recordPayment userId data st
  = (Json 201 (Payment.row (nextPaymentId st) data),
     storage.set_auditLogs
       (auditLogs st
        ++ [AuditLog.mk (nextAuditLogId st) (Some userId) "add_payment"
              (Some "payments"%string) (Some (nextPaymentId st)) None
              (Some (SnapPayment (Payment.row (nextPaymentId st) data)))])
       (nextAuditLogId st + 1)
       (storage.set_payments
          (payments st ++ [Payment.row (nextPaymentId st) data])
          (nextPaymentId st + 1) st)).
Proof.
  intros Hname.
  unfold recordPayment, bind, storage.createPayment, gets, ret.
  cbn [Payment.row Payment.tenantName Payment.amount decimal_truthy andb].
  rewrite Hname. reflexivity.
Qed.

Lemma recordPayment_invoices userId data st :
  exists p st',
    recordPayment userId data st = (Json 201 p, st')
    /\ (rentInvoices st' = rentInvoices st
        \/ exists m,
             m ∈ rentInvoices st
             /\ matches (Payment.row (nextPaymentId st) data) m = true
             /\ rentInvoices st'
                = storage.update_where
                    (fun r => RentInvoice.id r =? RentInvoice.id m)
                    (RentInvoice.set
                       (match_patch (Payment.row (nextPaymentId st) data)))
                    (rentInvoices st)).
Proof.
  destruct (text_truthy (Payment.i_tenantName data)) eqn:Hname.
  - destruct (List.find (matches (Payment.row (nextPaymentId st) data))
                (merge_sort storage.newer_first (rentInvoices st)))
      as [m|] eqn:Hfind.
    + destruct (recordPayment_matched userId data st m Hname Hfind)
        as (st' & Hrun & Hinv & _).
      eexists _, st'. split; [exact Hrun|]. right. exists m.
      apply find_first in Hfind as (before & after & Hall & _ & Hm).
      split; [|split; assumption].
      rewrite <- (merge_sort_Permutation storage.newer_first (rentInvoices st)).
      rewrite Hall. apply elem_of_app. right. apply list_elem_of_here.
    + destruct (recordPayment_unmatched userId data st Hname Hfind)
        as (st' & Hrun & Hinv & _).
      eexists _, st'. split; [exact Hrun|]. left. exact Hinv.
  - rewrite (recordPayment_no_name _ _ _ Hname). eexists _, _.
    split; [reflexivity|]. left. reflexivity.
Qed.

Lemma NoDup_fmap_eq {A B} (f : A -> B) (l : list A) (x y : A) :
  NoDup (f <$> l) -> x ∈ l -> y ∈ l -> f x = f y -> x = y.
Proof.
  intros Hnd Hx Hy E.
  apply list_elem_of_lookup in Hx as [i Hi].
  apply list_elem_of_lookup in Hy as [j Hj].
  assert (i = j).
  { apply (NoDup_lookup (f <$> l) i j (f x)); [exact Hnd| |].
    - rewrite list_lookup_fmap, Hi. reflexivity.
    - rewrite list_lookup_fmap, Hj, E. reflexivity. }
  subst j. congruence.
Qed.

(** X4.  A payment recorded without a tenant name (absent or empty) is
    never auto-matched, whatever the invoices are: it is stored as it was
    sent, the invoice table is left untouched, and one "add_payment" audit
    row is written. *)
Theorem recordPayment_without_tenant_name userId data st :
  text_truthy (Payment.i_tenantName data) = false ->
  exists st',
    recordPayment userId data st
    = (Json 201 (Payment.row (nextPaymentId st) data), st')
    /\ rentInvoices st' = rentInvoices st
    /\ payments st' = payments st ++ [Payment.row (nextPaymentId st) data]
    /\ Payment.status (Payment.row (nextPaymentId st) data)
       = default Unmatched (Payment.i_status data)
    /\ length (auditLogs st') = S (length (auditLogs st)).
Proof.
  intros Hname. rewrite (recordPayment_no_name _ _ _ Hname).
  eexists. split; [reflexivity|]. do 3 (split; [reflexivity|]).
  cbn [storage.set_auditLogs auditLogs]. rewrite length_app. cbn. lia.
Qed.

Lemma recordPayment_without_tenant_name_witness :
  (exists m, m ∈ rentInvoices Sample.matching_store
             /\ matches (Payment.row 1 unnamed_payment) m = true)
  /\ exists st',
       recordPayment 10 unnamed_payment Sample.matching_store
       = (Json 201 (Payment.row 1 unnamed_payment), st')
       /\ rentInvoices st' = rentInvoices Sample.matching_store
       /\ payments st' = [Payment.row 1 unnamed_payment]
       /\ Payment.status (Payment.row 1 unnamed_payment) = Unmatched
       /\ length (auditLogs st') = 1%nat.
Proof.
  split.
  - eexists.
    split; [apply list_elem_of_lookup; exists 2%nat; reflexivity | reflexivity].
  - apply (recordPayment_without_tenant_name 10 unnamed_payment
             Sample.matching_store).
    reflexivity.
Defined.

(** X5.  The auto-matcher never touches a settled invoice: when invoice
    ids are unique, every invoice that is [Paid] before a payment is
    recorded is the same row, at the same place, afterwards, and the
    invoice table keeps its length. *)
Theorem recordPayment_keeps_paid userId data st r st' :
  NoDup (invoice_ids st) ->
  recordPayment userId data st = (r, st') ->
  length (rentInvoices st') = length (rentInvoices st)
  /\ forall (i : nat) row,
       rentInvoices st !! i = Some row ->
       RentInvoice.status row = Paid ->
       rentInvoices st' !! i = Some row.
Proof.
  intros Hnd Hrun.
  destruct (recordPayment_invoices userId data st)
    as (p & st0 & Hrun0 & [Hsame|(m & Hin & Hm & Hrows)]);
    rewrite Hrun0 in Hrun; injection Hrun as <- <-.
  - rewrite Hsame. split; [reflexivity|]. auto.
  - rewrite Hrows. split; [unfold storage.update_where; apply length_map|].
    intros i row Hrow Hpaid. rewrite (update_where_lookup _ _ _ _ _ Hrow).
    destruct (Z.eqb_spec (RentInvoice.id row) (RentInvoice.id m)) as [E|E];
      [|reflexivity].
    exfalso. apply matches_spec in Hm as [Hm _]. apply Hm.
    rewrite <- (NoDup_fmap_eq RentInvoice.id (rentInvoices st) row m Hnd);
      [exact Hpaid | | exact Hin | exact E].
    apply list_elem_of_lookup. exists i. exact Hrow.
Qed.

Lemma recordPayment_keeps_paid_witness :
  exists r st',
    recordPayment 10 Sample.payment_79999_50 Sample.matching_store = (r, st')
    /\ length (rentInvoices st') = 3%nat
    /\ rentInvoices st' !! 0%nat = rentInvoices Sample.matching_store !! 0%nat
    /\ rentInvoices st' !! 2%nat <> rentInvoices Sample.matching_store !! 2%nat.
Proof.
  destruct (recordPayment 10 Sample.payment_79999_50 Sample.matching_store)
    as [r st'] eqn:Hrun.
  exists r, st'. split; [reflexivity|].
  assert (Hnd : NoDup (invoice_ids Sample.matching_store))
    by by_evaluation.
  destruct (recordPayment_keeps_paid _ _ _ _ _ Hnd Hrun) as [Hlen Hkeep].
  split; [exact Hlen|]. split.
  - rewrite (Hkeep 0%nat _ eq_refl eq_refl). reflexivity.
  - vm_compute in Hrun. injection Hrun as _ <-. discriminate.
Defined.

(** ** The generator and the invoice table *)

Lemma generated_rows_tenants month year existing us next ts :
  RentInvoice.tenantId <$> generated_rows month year existing us next ts
  = Tenant.id
      <$> filter (fun t => (Tenant.id t ∉ existing)
                           /\ is_Some (find_unit us (Tenant.unitId t))) ts.
Proof.
  revert next. induction ts as [|t ts IH]; intros next; [reflexivity|].
  cbn [generated_rows]. rewrite filter_cons.
  destruct (decide (Tenant.id t ∈ existing)) as [Hin|Hin].
  - rewrite decide_False by tauto. apply IH.
  - destruct (find_unit us (Tenant.unitId t)) as [u|] eqn:Hu.
    + rewrite decide_True by (split; [exact Hin | eexists; reflexivity]).
      cbn [fmap list_fmap]. f_equal. apply IH.
    + rewrite decide_False by (intros [_ [? ?]]; discriminate). apply IH.
Qed.

Lemma generated_rows_keys month year existing us next ts :
  billing_key <$> generated_rows month year existing us next ts
  = (fun id => (id, month, year))
      <$> (RentInvoice.tenantId
             <$> generated_rows month year existing us next ts).
Proof.
  rewrite <- list_fmap_compose.
  apply Forall_fmap_ext_1.
  eapply Forall_impl; [apply generated_rows_period|].
  intros inv [Hm Hy]. unfold billing_key, compose. rewrite Hm, Hy. reflexivity.
Qed.

(** X6.  The generator keeps the invoice table free of double billing:
    when tenant ids are unique and no tenant has two invoices for one
    period before a run, none has afterwards, whichever period the run is
    for; the invoices that were there are all kept, in place. *)
Theorem generateInvoices_no_double_billing month year st r st' :
  NoDup (Tenant.id <$> tenants st) ->
  NoDup (billing_keys st) ->
  generateInvoices month year st = (r, st') ->
  NoDup (billing_keys st')
  /\ rentInvoices st `prefix_of` rentInvoices st'.
Proof.
  intros Hten Hkeys Hrun.
  destruct (decide (month = 0 \/ year = 0)) as [H0|H0].
  { rewrite generateInvoices_rejected in Hrun by exact H0.
    injection Hrun as <- <-. split; [exact Hkeys | reflexivity]. }
  rewrite generateInvoices_run in Hrun by tauto. injection Hrun as <- <-.
  unfold billing_keys. cbn [storage.set_rentInvoices rentInvoices].
  split; [|apply prefix_app_r; reflexivity].
  rewrite fmap_app. apply NoDup_app. split; [exact Hkeys|]. split.
  - intros k Hold Hnew. rewrite generated_rows_keys, generated_rows_tenants in Hnew.
    apply list_elem_of_fmap in Hnew as (id & -> & Hid).
    apply list_elem_of_fmap in Hid as (t & -> & Ht).
    apply list_elem_of_filter in Ht as [[Hfree _] _].
    apply Hfree. unfold invoiced_tenants. apply elem_of_list_to_set.
    apply list_elem_of_fmap in Hold as (inv & Hk & Hinv).
    unfold billing_key in Hk. injection Hk as Hk1 Hk2 Hk3.
    apply list_elem_of_fmap. exists inv. split; [exact Hk1|].
    apply list_elem_of_filter. auto.
  - rewrite generated_rows_keys, generated_rows_tenants.
    apply NoDup_fmap_2; [intros a b E; congruence|].
    rewrite list_filter_filter.
    eapply sublist_NoDup; [exact Hten | apply fmap_sublist, sublist_filter].
Qed.

Lemma generateInvoices_no_double_billing_witness :
  exists r st',
    generateInvoices 7 2025 Sample.collected_store = (r, st')
    /\ NoDup (billing_keys st')
    /\ rentInvoices Sample.collected_store `prefix_of` rentInvoices st'.
Proof.
  destruct (generateInvoices 7 2025 Sample.collected_store) as [r st'] eqn:Hrun.
  exists r, st'. split; [reflexivity|].
  apply (generateInvoices_no_double_billing 7 2025 Sample.collected_store r st');
    [ | | exact Hrun]; by_evaluation.
Defined.

(** ** What the calculator hands out *)




(** ** Access to properties *)

Lemma userCanAccessProperty_run userId userRole propertyId db :
  userCanAccessProperty userId userRole propertyId db
  = (Ok (if UserRole_eqb userRole SuperAdmin then true
         else match membership db userId propertyId with
              | Some pu => AccessStatus_eqb (PropertyUser.status pu) Approved
              | None => false
              end), db).
Proof.
  unfold userCanAccessProperty.
  destruct (UserRole_eqb userRole SuperAdmin); reflexivity.
Qed.

Lemma userIsPropertyOwner_run userId userRole propertyId db :
  userIsPropertyOwner userId userRole propertyId db
  = (Ok (if UserRole_eqb userRole SuperAdmin then true
         else match membership db userId propertyId with
              | Some pu =>
                  AccessStatus_eqb (PropertyUser.status pu) Approved
                  && UserRole_eqb (PropertyUser.role pu) PropertyOwner
              | None => false
              end), db).
Proof.
  unfold userIsPropertyOwner.
  destruct (UserRole_eqb userRole SuperAdmin); reflexivity.
Qed.

Lemma UserRole_eqb_eq a b : UserRole_eqb a b = true <-> a = b.
Proof. destruct a, b; cbn; split; congruence. Qed.

Lemma AccessStatus_eqb_eq a b : AccessStatus_eqb a b = true <-> a = b.
Proof. destruct a, b; cbn; split; congruence. Qed.

Lemma UserRole_eqb_neq a b : a <> b -> UserRole_eqb a b = false.
Proof. destruct a, b; cbn; congruence. Qed.

Lemma head_filter_None {A} (P : A -> Prop) {Pdec : forall x, Decision (P x)}
    (l : list A) :
  head (filter P l) = None <-> forall x, x ∈ l -> ~ P x.
Proof.
  rewrite head_None. split.
  - intros E x Hx HP.
    assert (Hin : x ∈ filter P l) by (apply list_elem_of_filter; auto).
    rewrite E in Hin. inversion Hin.
  - intros H. destruct (filter P l) as [|x l'] eqn:E; [reflexivity|].
    assert (Hin : x ∈ filter P l) by (rewrite E; apply list_elem_of_here).
    apply list_elem_of_filter in Hin as [HP Hx]. destruct (H x Hx HP).
Qed.

Lemma head_filter_app_new {A} (P : A -> Prop) {Pdec : forall x, Decision (P x)}
    (l : list A) (x : A) :
  head (filter P l) = None -> P x -> head (filter P (l ++ [x])) = Some x.
Proof.
  intros Hnone HP. rewrite filter_app. apply head_None in Hnone.
  rewrite Hnone. cbn [app]. rewrite filter_cons, decide_True by exact HP.
  reflexivity.
Qed.

Lemma head_filter_app_old {A} (P : A -> Prop) {Pdec : forall x, Decision (P x)}
    (l : list A) (x y : A) :
  head (filter P l) = Some y -> head (filter P (l ++ [x])) = Some y.
Proof.
  intros H. rewrite filter_app. destruct (filter P l); [discriminate|].
  exact H.
Qed.

Lemma requestAccess_run user propertyId role pct db :
  DatabaseStorage.user_exists db (User.id user) ->
  DatabaseStorage.property_exists db propertyId ->
  membership db (User.id user) propertyId = None ->
  let pu :=
    PropertyUser.mk (nextPropertyUserId db) (User.id user) propertyId
      (default CoOwner role) Pending (Some (Fin (default 0%Q pct))) in
  requestAccess user propertyId role pct db
  = (Ok (Json 201 pu),
     DatabaseStorage.set_propertyUsers (memberships db ++ [pu])
       (nextPropertyUserId db + 1) db).
Proof.
  intros Hu Hp Hnone. cbn zeta.
  unfold requestAccess, and_then, DatabaseStorage.getPropertyUser, reads.
  fold (memberships db). fold (membership db (User.id user) propertyId).
  rewrite Hnone. unfold DatabaseStorage.createPropertyUser.
  cbn [PropertyUserData.i_userId PropertyUserData.i_propertyId].
  rewrite decide_True by (split; assumption). reflexivity.
Qed.

Lemma requestAccess_again user propertyId role pct db pu :
  membership db (User.id user) propertyId = Some pu ->
  requestAccess user propertyId role pct db
  = (Ok (Fail 409 "Access request already exists"), db).
Proof.
  intros Hsome.
  unfold requestAccess, and_then, DatabaseStorage.getPropertyUser, reads.
  fold (memberships db). fold (membership db (User.id user) propertyId).
  rewrite Hsome. reflexivity.
Qed.

(** X8.  A request for access to an existing property by a registered
    user who has no row for it is answered 201 with a new row that is
    [Pending], whatever role the request names (co-owner when it names
    none).  The request by itself opens nothing to a user who is not a
    super admin: the property's page answers 403 afterwards, and a second
    request is refused with 409 and changes nothing. *)
Theorem requestAccess_stays_pending user propertyId role pct db :
  DatabaseStorage.user_exists db (User.id user) ->
  DatabaseStorage.property_exists db propertyId ->
  membership db (User.id user) propertyId = None ->
  User.role user <> SuperAdmin ->
  exists pu db',
    requestAccess user propertyId role pct db = (Ok (Json 201 pu), db')
    /\ memberships db' = memberships db ++ [pu]
    /\ PropertyUser.status pu = Pending
    /\ PropertyUser.role pu = default CoOwner role
    /\ PropertyUser.userId pu = User.id user
    /\ PropertyUser.propertyId pu = propertyId
    /\ properties db' = properties db
    /\ ~ can_access db' user propertyId
    /\ ~ is_owner db' user propertyId
    /\ showProperty user propertyId db' = (Ok (Fail 403 "Access denied"), db')
    /\ forall role' pct',
         requestAccess user propertyId role' pct' db'
         = (Ok (Fail 409 "Access request already exists"), db').
Proof.
  intros Hu Hp Hnone Hrole.
  rewrite (requestAccess_run _ _ _ _ _ Hu Hp Hnone).
  set (pu := PropertyUser.mk _ _ _ _ _ _).
  set (db' := DatabaseStorage.set_propertyUsers _ _ _).
  assert (Hm : membership db' (User.id user) propertyId = Some pu).
  { unfold membership, db', memberships.
    cbn [DatabaseStorage.set_propertyUsers ledger propertyUsers].
    apply head_filter_app_new; [exact Hnone | split; reflexivity]. }
  assert (Hcan : userCanAccessProperty (User.id user) (User.role user)
                   propertyId db' = (Ok false, db')).
  { rewrite userCanAccessProperty_run, Hm, UserRole_eqb_neq by exact Hrole.
    reflexivity. }
  exists pu, db'. split; [reflexivity|].
  do 6 (split; [reflexivity|]).
  split; [unfold can_access; rewrite Hcan; discriminate|].
  split.
  { unfold is_owner. rewrite userIsPropertyOwner_run, Hm,
      UserRole_eqb_neq by exact Hrole. discriminate. }
  split.
  { unfold showProperty, and_then. rewrite Hcan. reflexivity. }
  intros role' pct'. apply (requestAccess_again _ _ _ _ _ pu Hm).
Qed.

Lemma requestAccess_stays_pending_witness :
  exists pu db',
    requestAccess Accounts.newcomer 1 (Some PropertyOwner) (Some 50%Q)
      Accounts.database = (Ok (Json 201 pu), db')
    /\ PropertyUser.status pu = Pending
    /\ PropertyUser.role pu = PropertyOwner
    /\ showProperty Accounts.newcomer 1 db'
       = (Ok (Fail 403 "Access denied"), db').
Proof.
  destruct (requestAccess_stays_pending Accounts.newcomer 1
              (Some PropertyOwner) (Some 50%Q) Accounts.database)
    as (pu & db' & Hrun & _ & Hs & Hr & _ & _ & _ & _ & _ & Hshow & _).
  - by_evaluation.
  - by_evaluation.
  - reflexivity.
  - discriminate.
  - exists pu, db'. auto.
Defined.

Lemma can_access_iff db user propertyId :
  can_access db user propertyId
  <-> User.role user = SuperAdmin
      \/ exists pu,
           membership db (User.id user) propertyId = Some pu
           /\ PropertyUser.status pu = Approved.
Proof.
  unfold can_access. rewrite userCanAccessProperty_run.
  destruct (UserRole_eqb (User.role user) SuperAdmin) eqn:E.
  - apply UserRole_eqb_eq in E. tauto.
  - assert (Hr : User.role user <> SuperAdmin)
      by (intros H; apply UserRole_eqb_eq in H; congruence).
    destruct (membership db (User.id user) propertyId) as [pu|].
    + destruct (AccessStatus_eqb (PropertyUser.status pu) Approved) eqn:Es.
      * apply AccessStatus_eqb_eq in Es. split; [|reflexivity].
        intros _. right. exists pu. auto.
      * split; [discriminate|]. intros [H|(pu' & H & Hs)]; [contradiction|].
        injection H as <-. apply AccessStatus_eqb_eq in Hs. congruence.
    + split; [discriminate|]. intros [H|(pu' & H & _)];
        [contradiction | discriminate].
Qed.

Lemma is_owner_iff db user propertyId :
  is_owner db user propertyId
  <-> User.role user = SuperAdmin
      \/ exists pu,
           membership db (User.id user) propertyId = Some pu
           /\ PropertyUser.status pu = Approved
           /\ PropertyUser.role pu = PropertyOwner.
Proof.
  unfold is_owner. rewrite userIsPropertyOwner_run.
  destruct (UserRole_eqb (User.role user) SuperAdmin) eqn:E.
  - apply UserRole_eqb_eq in E. tauto.
  - assert (Hr : User.role user <> SuperAdmin)
      by (intros H; apply UserRole_eqb_eq in H; congruence).
    destruct (membership db (User.id user) propertyId) as [pu|].
    + destruct (AccessStatus_eqb (PropertyUser.status pu) Approved) eqn:Es;
        [destruct (UserRole_eqb (PropertyUser.role pu) PropertyOwner) eqn:Ero|].
      * apply AccessStatus_eqb_eq in Es. apply UserRole_eqb_eq in Ero.
        split; [|reflexivity]. intros _. right. exists pu. auto.
      * split; [discriminate|].
        intros [H|(pu' & H & _ & Hro)]; [contradiction|].
        injection H as <-. apply UserRole_eqb_eq in Hro. congruence.
      * split; [discriminate|].
        intros [H|(pu' & H & Hs & _)]; [contradiction|].
        injection H as <-. apply AccessStatus_eqb_eq in Hs. congruence.
    + split; [discriminate|]. intros [H|(pu' & H & _)];
        [contradiction | discriminate].
Qed.

Lemma is_owner_dec db user propertyId :
  {is_owner db user propertyId}
  + {userIsPropertyOwner (User.id user) (User.role user) propertyId db
     = (Ok false, db)}.
Proof.
  unfold is_owner. rewrite userIsPropertyOwner_run.
  match goal with |- context [Ok ?b] => destruct b end; auto.
Qed.

Lemma set_keeps_member_id (p : PropertyUserData.patch) (r : PropertyUser.t) :
  PropertyUser.id (PropertyUserData.set p r) = PropertyUser.id r.
Proof. reflexivity. Qed.

Lemma head_filter_map {A} (P : A -> Prop) {Pdec : forall x, Decision (P x)}
    (f : A -> A) (l : list A) :
  (forall x, P (f x) <-> P x) ->
  head (filter P (map f l)) = f <$> head (filter P l).
Proof.
  intros Hf. induction l as [|x l IH]; [reflexivity|].
  cbn [map]. rewrite !filter_cons.
  destruct (decide (P x)) as [HP|HP].
  - rewrite decide_True by (apply Hf; exact HP). reflexivity.
  - rewrite decide_False by (rewrite Hf; exact HP). exact IH.
Qed.

Lemma filter_map_comm {A} (P : A -> Prop) {Pdec : forall x, Decision (P x)}
    (f : A -> A) (l : list A) :
  (forall x, P (f x) <-> P x) ->
  filter P (map f l) = map f (filter P l).
Proof.
  intros Hf. induction l as [|x l IH]; [reflexivity|].
  cbn [map]. rewrite !filter_cons.
  destruct (decide (P x)) as [HP|HP].
  - rewrite decide_True by (apply Hf; exact HP). cbn [map]. f_equal. exact IH.
  - rewrite decide_False by (rewrite Hf; exact HP). exact IH.
Qed.

Lemma membership_by_id_elem db id r :
  membership_by_id db id = Some r ->
  r ∈ memberships db /\ PropertyUser.id r = id.
Proof.
  unfold membership_by_id. intros H.
  apply head_Some_elem_of in H. apply list_elem_of_filter in H. tauto.
Qed.

Lemma membership_unique db r :
  one_row_per_member db -> r ∈ memberships db ->
  membership db (PropertyUser.userId r) (PropertyUser.propertyId r) = Some r.
Proof.
  intros Hone Hr. unfold membership.
  destruct (head _) as [x|] eqn:Hx.
  - apply head_Some_elem_of in Hx.
    apply list_elem_of_filter in Hx as [[Hu Hp] Hin].
    f_equal. apply (NoDup_fmap_eq member_key (memberships db) x r Hone Hin Hr).
    unfold member_key. rewrite Hu, Hp. reflexivity.
  - exfalso. rewrite head_filter_None in Hx. apply (Hx r Hr). auto.
Qed.

(** What [updatePropertyUser] does for a patch that leaves the user and
    the property of the row alone. *)
Lemma updatePropertyUser_run id (p : PropertyUserData.patch) db target :
  constrained db ->
  membership_by_id db id = Some target ->
  PropertyUserData.sets_nothing p = false ->
  PropertyUserData.p_userId p = None ->
  PropertyUserData.p_propertyId p = None ->
  DatabaseStorage.updatePropertyUser id p db
  = (Ok (Some (PropertyUserData.set p target)),
     DatabaseStorage.set_propertyUsers
       (storage.update_where (fun r => PropertyUser.id r =? id)
          (PropertyUserData.set p) (memberships db))
       (nextPropertyUserId db) db).
Proof.
  intros [_ Hfk] Htarget Hne Hpu Hpp.
  unfold DatabaseStorage.updatePropertyUser. rewrite Hne.
  fold (memberships db). unfold storage.update_where.
  assert (Hkeep : forall x : PropertyUser.t,
            PropertyUser.id
              (if PropertyUser.id x =? id then PropertyUserData.set p x else x)
            = id <-> PropertyUser.id x = id).
  { intros x. destruct (PropertyUser.id x =? id); reflexivity. }
  rewrite decide_True.
  - rewrite (head_filter_map (fun r => PropertyUser.id r = id) _ _ Hkeep).
    unfold membership_by_id in Htarget. rewrite Htarget. cbn [fmap option_fmap option_map].
    destruct (membership_by_id_elem db id target Htarget) as [_ Hid].
    apply Z.eqb_eq in Hid. rewrite Hid. reflexivity.
  - rewrite (filter_map_comm (fun r => PropertyUser.id r = id) _ _ Hkeep).
    apply Forall_forall. intros r' Hr'.
    change (map ?g ?l) with (g <$> l) in Hr'.
    apply list_elem_of_fmap in Hr' as (r & -> & Hr).
    apply list_elem_of_filter in Hr as [_ Hr].
    rewrite Forall_forall in Hfk. destruct (Hfk r Hr) as (_ & Hu & Hp).
    destruct (PropertyUser.id r =? id); [|auto].
    unfold PropertyUserData.set. cbn [PropertyUser.userId PropertyUser.propertyId].
    rewrite Hpu, Hpp. auto.
Qed.

Lemma membership_updated db db' id (p : PropertyUserData.patch) r :
  PropertyUserData.p_userId p = None ->
  PropertyUserData.p_propertyId p = None ->
  memberships db'
  = storage.update_where (fun r => PropertyUser.id r =? id)
      (PropertyUserData.set p) (memberships db) ->
  one_row_per_member db ->
  r ∈ memberships db ->
  membership db' (PropertyUser.userId r) (PropertyUser.propertyId r)
  = Some (if PropertyUser.id r =? id then PropertyUserData.set p r else r).
Proof.
  intros Hpu Hpp Hrows Hone Hr. unfold membership. rewrite Hrows.
  unfold storage.update_where. rewrite head_filter_map.
  - fold (membership db (PropertyUser.userId r) (PropertyUser.propertyId r)).
    rewrite (membership_unique db r Hone Hr). reflexivity.
  - intros x. destruct (PropertyUser.id x =? id); [|reflexivity].
    unfold PropertyUserData.set. cbn [PropertyUser.userId PropertyUser.propertyId].
    rewrite Hpu, Hpp. reflexivity.
Qed.

Lemma approveAccess_run user puId db target :
  constrained db ->
  DatabaseStorage.user_exists db (User.id user) ->
  membership_by_id db puId = Some target ->
  is_owner db user (PropertyUser.propertyId target) ->
  let pu := PropertyUserData.set (PropertyUserData.status_only Approved) target in
  approveAccess user puId db
  = (Ok (Json 200 pu),
     DatabaseStorage.set_adminLogs
       (adminLogs db ++ [approval_log db user pu])
       (nextAuditLogId (ledger db) + 1)
       (with_status db puId Approved)).
Proof.
  intros Hc Hu Htarget Howner. cbn zeta.
  unfold approveAccess, and_then at 1, DatabaseStorage.getPropertyUserById, reads.
  fold (memberships db). fold (membership_by_id db puId). rewrite Htarget.
  unfold and_then at 1. rewrite Howner. cbn [negb].
  unfold and_then at 1.
  rewrite (updatePropertyUser_run puId _ db target Hc Htarget)
    by reflexivity.
  fold (with_status db puId Approved).
  unfold and_then, DatabaseStorage.createAuditLog, ok.
  rewrite decide_True by exact Hu. reflexivity.
Qed.

Lemma rejectAccess_run user puId db target :
  constrained db ->
  membership_by_id db puId = Some target ->
  is_owner db user (PropertyUser.propertyId target) ->
  rejectAccess user puId db
  = (Ok (Json 200
           (PropertyUserData.set (PropertyUserData.status_only Rejected) target)),
     with_status db puId Rejected).
Proof.
  intros Hc Htarget Howner.
  unfold rejectAccess, and_then at 1, DatabaseStorage.getPropertyUserById, reads.
  fold (memberships db). fold (membership_by_id db puId). rewrite Htarget.
  unfold and_then at 1. rewrite Howner. cbn [negb].
  unfold and_then at 1.
  rewrite (updatePropertyUser_run puId _ db target Hc Htarget)
    by reflexivity.
  reflexivity.
Qed.

Lemma with_status_lookup db id s (i : nat) row :
  memberships db !! i = Some row ->
  memberships (with_status db id s) !! i
  = Some (if PropertyUser.id row =? id
          then PropertyUserData.set (PropertyUserData.status_only s) row
          else row).
Proof.
  intros H. unfold with_status, memberships at 1.
  cbn [DatabaseStorage.set_propertyUsers ledger propertyUsers].
  exact (update_where_lookup (fun r => PropertyUser.id r =? id) _ _ _ row H).
Qed.

Lemma with_status_membership db id s r :
  one_row_per_member db -> r ∈ memberships db ->
  membership (with_status db id s) (PropertyUser.userId r)
    (PropertyUser.propertyId r)
  = Some (if PropertyUser.id r =? id
          then PropertyUserData.set (PropertyUserData.status_only s) r
          else r).
Proof.
  intros Hone Hr.
  apply (membership_updated db _ id (PropertyUserData.status_only s) r);
    auto.
Qed.

(** X9.  When a property owner of the row's property (an approved row
    with role property owner) or a super admin approves an access request,
    the answer is 200 with the row now [Approved] and otherwise as it was;
    from then on the access check lets the row's user in, every row with
    another id is untouched, and one "approve_access" audit row names the
    approver and the row. *)
Theorem approveAccess_grants user puId db target :
  constrained db ->
  one_row_per_member db ->
  DatabaseStorage.user_exists db (User.id user) ->
  membership_by_id db puId = Some target ->
  is_owner db user (PropertyUser.propertyId target) ->
  exists pu db',
    approveAccess user puId db = (Ok (Json 200 pu), db')
    /\ pu = PropertyUser.mk puId (PropertyUser.userId target)
              (PropertyUser.propertyId target) (PropertyUser.role target)
              Approved (PropertyUser.ownershipPercent target)
    /\ membership_by_id db' puId = Some pu
    /\ (forall grantee,
          User.id grantee = PropertyUser.userId target ->
          can_access db' grantee (PropertyUser.propertyId target))
    /\ (forall (i : nat) row,
          memberships db !! i = Some row -> PropertyUser.id row <> puId ->
          memberships db' !! i = Some row)
    /\ length (memberships db') = length (memberships db)
    /\ exists log,
         adminLogs db' = adminLogs db ++ [log]
         /\ AdminLog.action log = "approve_access"%string
         /\ AdminLog.userId log = Some (User.id user)
         /\ AdminLog.recordId log = Some puId.
Proof.
  intros Hc Hone Hu Htarget Howner.
  destruct (membership_by_id_elem db puId target Htarget) as [Hin Hid].
  rewrite (approveAccess_run user puId db target Hc Hu Htarget Howner).
  set (pu := PropertyUserData.set _ target).
  eexists pu, _. split; [reflexivity|].
  split; [unfold pu, PropertyUserData.set; cbn; rewrite Hid; reflexivity|].
  split.
  { unfold membership_by_id.
    change (memberships (DatabaseStorage.set_adminLogs ?l ?n ?d))
      with (memberships d).
    unfold with_status, memberships at 1.
    cbn [DatabaseStorage.set_propertyUsers ledger propertyUsers].
    unfold storage.update_where. rewrite head_filter_map.
    - fold (membership_by_id db puId). rewrite Htarget. cbn.
      apply Z.eqb_eq in Hid. rewrite Hid. reflexivity.
    - intros x. destruct (PropertyUser.id x =? puId); reflexivity. }
  split.
  { intros grantee Hg. apply can_access_iff. right. exists pu. split.
    - rewrite Hg.
      change (membership (DatabaseStorage.set_adminLogs ?l ?n ?d))
        with (membership d).
      rewrite (with_status_membership db puId Approved target Hone Hin).
      apply Z.eqb_eq in Hid. rewrite Hid. reflexivity.
    - reflexivity. }
  split.
  { intros i row Hrow Hne.
    change (memberships (DatabaseStorage.set_adminLogs ?l ?n ?d))
      with (memberships d).
    rewrite (with_status_lookup db puId Approved i row Hrow).
    apply Z.eqb_neq in Hne. rewrite Hne. reflexivity. }
  split.
  { change (memberships (DatabaseStorage.set_adminLogs ?l ?n ?d))
      with (memberships d).
    unfold with_status, memberships at 1.
    cbn [DatabaseStorage.set_propertyUsers ledger propertyUsers].
    unfold storage.update_where. apply length_map. }
  eexists. split; [reflexivity|]. cbn. rewrite Hid. auto.
Qed.

Lemma requested_database_constrained :
  constrained requested_database /\ one_row_per_member requested_database.
Proof.
  split; [split|]; by_evaluation.
Defined.

Lemma approveAccess_grants_witness :
  exists pu db',
    approveAccess Accounts.owner 4 requested_database = (Ok (Json 200 pu), db')
    /\ PropertyUser.status pu = Approved
    /\ can_access db' Accounts.newcomer 1
    /\ ~ can_access requested_database Accounts.newcomer 1.
Proof.
  destruct (approveAccess_grants Accounts.owner 4 requested_database
              (PropertyUser.mk 4 13 1 CoOwner Pending (Some (Fin 0))))
    as (pu & db' & Hrun & Hpu & _ & Hcan & _).
  - apply requested_database_constrained.
  - apply requested_database_constrained.
  - by_evaluation.
  - reflexivity.
  - reflexivity.
  - exists pu, db'. split; [exact Hrun|]. split; [rewrite Hpu; reflexivity|].
    split; [apply Hcan; reflexivity | discriminate].
Defined.

Lemma not_owner_verdict db user propertyId :
  User.role user <> SuperAdmin ->
  (forall pu,
     membership db (User.id user) propertyId = Some pu ->
     ~ (PropertyUser.status pu = Approved
        /\ PropertyUser.role pu = PropertyOwner)) ->
  userIsPropertyOwner (User.id user) (User.role user) propertyId db
  = (Ok false, db).
Proof.
  intros Hrole Hrow.
  destruct (is_owner_dec db user propertyId) as [Ho|Ho]; [|exact Ho].
  apply is_owner_iff in Ho. destruct Ho as [Ho|(pu & Hm & Hs & Hr)];
    [contradiction|]. destruct (Hrow pu Hm). auto.
Qed.

(** X10.  Approving and rejecting are reserved to the property's owner:
    for a caller who is not a super admin and whose own row for the
    property of the targeted row is missing, not approved, or approved
    with another role than property owner (a co-owner, an accountant),
    both routes answer 403 and leave the database as it was; for an id
    that no row has they answer 404, equally without a change. *)
Theorem approve_reject_reserved_to_owner user puId db :
  User.role user <> SuperAdmin ->
  match membership_by_id db puId with
  | None =>
      approveAccess user puId db = (Ok (Fail 404 "Not found"), db)
      /\ rejectAccess user puId db = (Ok (Fail 404 "Not found"), db)
  | Some target =>
      (forall pu,
         membership db (User.id user) (PropertyUser.propertyId target) = Some pu ->
         ~ (PropertyUser.status pu = Approved
            /\ PropertyUser.role pu = PropertyOwner)) ->
      approveAccess user puId db
      = (Ok (Fail 403 "Only property owner can approve access"), db)
      /\ rejectAccess user puId db
         = (Ok (Fail 403 "Only property owner can reject access"), db)
  end.
Proof.
  intros Hrole.
  destruct (membership_by_id db puId) as [target|] eqn:Htarget.
  - intros Hrow.
    pose proof (not_owner_verdict db user _ Hrole Hrow) as Hno.
    split.
    + unfold approveAccess, and_then at 1,
        DatabaseStorage.getPropertyUserById, reads.
      fold (memberships db). fold (membership_by_id db puId). rewrite Htarget.
      unfold and_then at 1. rewrite Hno. reflexivity.
    + unfold rejectAccess, and_then at 1,
        DatabaseStorage.getPropertyUserById, reads.
      fold (memberships db). fold (membership_by_id db puId). rewrite Htarget.
      unfold and_then at 1. rewrite Hno. reflexivity.
  - split.
    + unfold approveAccess, and_then at 1,
        DatabaseStorage.getPropertyUserById, reads.
      fold (memberships db). fold (membership_by_id db puId). rewrite Htarget.
      reflexivity.
    + unfold rejectAccess, and_then at 1,
        DatabaseStorage.getPropertyUserById, reads.
      fold (memberships db). fold (membership_by_id db puId). rewrite Htarget.
      reflexivity.
Qed.

Lemma approve_reject_reserved_to_owner_witness :
  approveAccess Accounts.partner 4 requested_database
  = (Ok (Fail 403 "Only property owner can approve access"), requested_database)
  /\ rejectAccess Accounts.partner 4 requested_database
     = (Ok (Fail 403 "Only property owner can reject access"),
        requested_database).
Proof.
  apply (approve_reject_reserved_to_owner Accounts.partner 4 requested_database).
  - discriminate.
  - intros pu Hpu. injection Hpu as <-. intros [_ H]. discriminate H.
Defined.

(** X11.  When the owner of the row's property or a super admin rejects
    a row, the answer is 200 with the row now [Rejected]; from then on the
    access check refuses the row's user unless that user is a super admin,
    whether the row was pending or approved before, and every row with
    another id is untouched.  No audit row is written. *)
Theorem rejectAccess_revokes user puId db target :
  constrained db ->
  one_row_per_member db ->
  membership_by_id db puId = Some target ->
  is_owner db user (PropertyUser.propertyId target) ->
  exists pu db',
    rejectAccess user puId db = (Ok (Json 200 pu), db')
    /\ pu = PropertyUser.mk puId (PropertyUser.userId target)
              (PropertyUser.propertyId target) (PropertyUser.role target)
              Rejected (PropertyUser.ownershipPercent target)
    /\ (forall refused,
          User.id refused = PropertyUser.userId target ->
          User.role refused <> SuperAdmin ->
          ~ can_access db' refused (PropertyUser.propertyId target)
          /\ showProperty refused (PropertyUser.propertyId target) db'
             = (Ok (Fail 403 "Access denied"), db'))
    /\ (forall (i : nat) row,
          memberships db !! i = Some row -> PropertyUser.id row <> puId ->
          memberships db' !! i = Some row)
    /\ adminLogs db' = adminLogs db
    /\ auditLogs (ledger db') = auditLogs (ledger db).
Proof.
  intros Hc Hone Htarget Howner.
  destruct (membership_by_id_elem db puId target Htarget) as [Hin Hid].
  rewrite (rejectAccess_run user puId db target Hc Htarget Howner).
  eexists _, _. split; [reflexivity|].
  split; [unfold PropertyUserData.set; cbn; rewrite Hid; reflexivity|].
  split.
  { intros refused Hg Hrole.
    assert (Hcan : userCanAccessProperty (User.id refused) (User.role refused)
                     (PropertyUser.propertyId target)
                     (with_status db puId Rejected)
                   = (Ok false, with_status db puId Rejected)).
    { rewrite userCanAccessProperty_run, UserRole_eqb_neq by exact Hrole.
      rewrite Hg, (with_status_membership db puId Rejected target Hone Hin).
      apply Z.eqb_eq in Hid. rewrite Hid. reflexivity. }
    split.
    - unfold can_access. rewrite Hcan. discriminate.
    - unfold showProperty, and_then. rewrite Hcan. reflexivity. }
  split.
  { intros i row Hrow Hne.
    rewrite (with_status_lookup db puId Rejected i row Hrow).
    apply Z.eqb_neq in Hne. rewrite Hne. reflexivity. }
  split; reflexivity.
Qed.

Lemma rejectAccess_revokes_witness :
  can_access requested_database Accounts.partner 1
  /\ exists pu db',
       rejectAccess Accounts.owner 2 requested_database = (Ok (Json 200 pu), db')
       /\ PropertyUser.status pu = Rejected
       /\ ~ can_access db' Accounts.partner 1.
Proof.
  split; [reflexivity|].
  destruct (rejectAccess_revokes Accounts.owner 2 requested_database
              (PropertyUser.mk 2 11 1 CoOwner Approved (Some (Fin 40))))
    as (pu & db' & Hrun & Hpu & Hno & _).
  - apply requested_database_constrained.
  - apply requested_database_constrained.
  - reflexivity.
  - reflexivity.
  - exists pu, db'. split; [exact Hrun|]. split; [rewrite Hpu; reflexivity|].
    apply (Hno Accounts.partner); [reflexivity | discriminate].
Defined.

Lemma constrained_after_request db (pu : PropertyUser.t) :
  constrained db ->
  PropertyUser.id pu = nextPropertyUserId db ->
  DatabaseStorage.user_exists db (PropertyUser.userId pu) ->
  DatabaseStorage.property_exists db (PropertyUser.propertyId pu) ->
  constrained
    (DatabaseStorage.set_propertyUsers (memberships db ++ [pu])
       (nextPropertyUserId db + 1) db).
Proof.
  intros [Hnd Hall] Hid Hu Hp. split.
  - unfold memberships at 1.
    cbn [DatabaseStorage.set_propertyUsers ledger propertyUsers].
    rewrite fmap_app. apply NoDup_app. split; [exact Hnd|]. split.
    + intros x Hx Hx'. cbn in Hx'. apply list_elem_of_singleton in Hx'.
      apply list_elem_of_fmap in Hx as (r & -> & Hr).
      rewrite Forall_forall in Hall. destruct (Hall r Hr) as [Hlt _]. lia.
    + cbn. apply NoDup_singleton.
  - unfold memberships at 1.
    cbn [DatabaseStorage.set_propertyUsers ledger propertyUsers nextPropertyUserId].
    apply Forall_app. split.
    + eapply Forall_impl; [exact Hall|]. cbn. intros r (Hlt & Hur & Hpr).
      split; [lia|]. split; assumption.
    + constructor; [|constructor]. split; [lia|]. split; assumption.
Qed.

Lemma membership_by_id_new db (pu : PropertyUser.t) :
  constrained db ->
  PropertyUser.id pu = nextPropertyUserId db ->
  membership_by_id
    (DatabaseStorage.set_propertyUsers (memberships db ++ [pu])
       (nextPropertyUserId db + 1) db) (nextPropertyUserId db)
  = Some pu.
Proof.
  intros [_ Hall] Hid. unfold membership_by_id, memberships at 1.
  cbn [DatabaseStorage.set_propertyUsers ledger propertyUsers].
  apply head_filter_app_new; [|exact Hid].
  apply head_filter_None. intros r Hr.
  rewrite Forall_forall in Hall. destruct (Hall r Hr) as [Hlt _]. lia.
Qed.

(** X12.  The route that patches a property-user row by its id asks for
    no right over the row or its property: it runs the same for every
    signed-in user.  A registered user without any row for an existing
    property who requests access and then sends the body
    [{ role: "property_owner", status: "approved" }] for the row just
    created is answered 200 and passes, from then on, both the access
    check and the owner check of that property. *)
Theorem patchPropertyUser_asks_no_right user propertyId role pct db :
  constrained db ->
  DatabaseStorage.user_exists db (User.id user) ->
  DatabaseStorage.property_exists db propertyId ->
  membership db (User.id user) propertyId = None ->
  exists pu db1 pu' db2,
    requestAccess user propertyId role pct db = (Ok (Json 201 pu), db1)
    /\ PropertyUser.status pu = Pending
    /\ patchPropertyUser (PropertyUser.id pu) (Success make_owner) db1
       = (Ok (Json 200 pu'), db2)
    /\ PropertyUser.status pu' = Approved
    /\ PropertyUser.role pu' = PropertyOwner
    /\ can_access db2 user propertyId
    /\ is_owner db2 user propertyId.
Proof.
  intros Hc Hu Hp Hnone.
  rewrite (requestAccess_run _ _ _ _ _ Hu Hp Hnone).
  set (pu := PropertyUser.mk _ _ _ _ _ _).
  set (db1 := DatabaseStorage.set_propertyUsers _ _ _).
  assert (Hc1 : constrained db1)
    by (apply constrained_after_request; auto).
  assert (Hid1 : membership_by_id db1 (nextPropertyUserId db) = Some pu)
    by (apply membership_by_id_new; auto).
  assert (Hm1 : membership db1 (User.id user) propertyId = Some pu).
  { unfold membership, db1, memberships at 1.
    cbn [DatabaseStorage.set_propertyUsers ledger propertyUsers].
    apply head_filter_app_new; [exact Hnone | split; reflexivity]. }
  pose proof (updatePropertyUser_run (nextPropertyUserId db) make_owner db1 pu
                Hc1 Hid1 eq_refl eq_refl eq_refl) as Hup.
  set (db2 := DatabaseStorage.set_propertyUsers _ _ db1) in Hup.
  assert (Hm2 : membership db2 (User.id user) propertyId
                = Some (PropertyUserData.set make_owner pu)).
  { unfold membership, db2, memberships at 1.
    cbn [DatabaseStorage.set_propertyUsers ledger propertyUsers].
    unfold storage.update_where. rewrite head_filter_map.
    - fold (membership db1 (User.id user) propertyId). rewrite Hm1.
      cbn [fmap option_fmap option_map PropertyUser.id pu].
      rewrite Z.eqb_refl. reflexivity.
    - intros x. destruct (PropertyUser.id x =? nextPropertyUserId db);
        reflexivity. }
  exists pu, db1, (PropertyUserData.set make_owner pu), db2.
  split; [reflexivity|]. split; [reflexivity|]. split.
  { unfold patchPropertyUser, and_then.
    change (PropertyUser.id pu) with (nextPropertyUserId db).
    rewrite Hup. reflexivity. }
  split; [reflexivity|]. split; [reflexivity|]. split.
  - apply can_access_iff. right. eexists. split; [exact Hm2 | reflexivity].
  - apply is_owner_iff. right. eexists. split; [exact Hm2|].
    split; reflexivity.
Qed.

Lemma accounts_database_constrained :
  constrained Accounts.database /\ one_row_per_member Accounts.database.
Proof.
  split; [split|]; by_evaluation.
Defined.

Lemma patchPropertyUser_asks_no_right_witness :
  exists pu db1 pu' db2,
    requestAccess Accounts.newcomer 1 None None Accounts.database
    = (Ok (Json 201 pu), db1)
    /\ PropertyUser.status pu = Pending
    /\ patchPropertyUser (PropertyUser.id pu) (Success make_owner) db1
       = (Ok (Json 200 pu'), db2)
    /\ PropertyUser.status pu' = Approved
    /\ PropertyUser.role pu' = PropertyOwner
    /\ can_access db2 Accounts.newcomer 1
    /\ is_owner db2 Accounts.newcomer 1.
Proof.
  apply (patchPropertyUser_asks_no_right Accounts.newcomer 1 None None
           Accounts.database).
  - apply accounts_database_constrained.
  - by_evaluation.
  - by_evaluation.
  - reflexivity.
Defined.

(** ** Creating a property *)

Lemma addProperty_run user data db :
  DatabaseStorage.user_exists db (User.id user) ->
  let property :=
    Property.row (nextPropertyId db)
      (Property.created_by (User.id user) data) in
  let pu :=
    PropertyUser.mk (nextPropertyUserId db) (User.id user) (nextPropertyId db)
      PropertyOwner Approved (Some (Fin 100)) in
  let log :=
    AdminLog.mk (nextAuditLogId (ledger db)) (Some (User.id user))
      "create_property" (Some "properties"%string) (Some (nextPropertyId db))
      None (Some (OfProperty property)) in
  addProperty user (Success data) db
  = (Ok (Json 201 property),
     DatabaseStorage.set_adminLogs (adminLogs db ++ [log])
       (nextAuditLogId (ledger db) + 1)
       (DatabaseStorage.set_propertyUsers (memberships db ++ [pu])
          (nextPropertyUserId db + 1)
          (DatabaseStorage.set_properties (properties db ++ [property])
             (nextPropertyId db + 1) db))).
Proof.
  intros Hu. cbn zeta.
  unfold addProperty, and_then at 1, DatabaseStorage.createProperty.
  cbn [Property.created_by Property.i_createdById].
  rewrite bool_decide_eq_true_2 by exact Hu.
  unfold and_then at 1, DatabaseStorage.createPropertyUser.
  cbn [PropertyUserData.i_userId PropertyUserData.i_propertyId Property.row
       Property.id].
  rewrite decide_True.
  2:{ split; [exact Hu|].
      unfold DatabaseStorage.property_exists.
      cbn [DatabaseStorage.set_properties properties].
      rewrite fmap_app. apply elem_of_app. right. cbn. apply list_elem_of_here. }
  unfold and_then, DatabaseStorage.createAuditLog, ok.
  rewrite decide_True by exact Hu. reflexivity.
Qed.

(** X13.  A registered user who creates a property (a body that passes
    validation) is answered 201 with the new property, recorded as its
    creator, and is made its owner on the spot: one approved row with role
    property owner and 100 percent is added for the pair.  The creator
    passes the owner check and sees the property's page at once; any
    other user who is not a super admin is refused.  One
    "create_property" audit row is written. *)
Theorem addProperty_creator_owns user data db :
  DatabaseStorage.user_exists db (User.id user) ->
  constrained db ->
  Forall (fun p => Property.id p < nextPropertyId db) (properties db) ->
  exists property pu db',
    addProperty user (Success data) db = (Ok (Json 201 property), db')
    /\ Property.id property = nextPropertyId db
    /\ Property.createdById property = Some (User.id user)
    /\ Property.name property = Property.i_name data
    /\ properties db' = properties db ++ [property]
    /\ memberships db' = memberships db ++ [pu]
    /\ pu = PropertyUser.mk (nextPropertyUserId db) (User.id user)
              (Property.id property) PropertyOwner Approved (Some (Fin 100))
    /\ is_owner db' user (Property.id property)
    /\ showProperty user (Property.id property) db'
       = (Ok (Json 200 property), db')
    /\ (forall other,
          User.id other <> User.id user -> User.role other <> SuperAdmin ->
          showProperty other (Property.id property) db'
          = (Ok (Fail 403 "Access denied"), db'))
    /\ exists log,
         adminLogs db' = adminLogs db ++ [log]
         /\ AdminLog.action log = "create_property"%string
         /\ AdminLog.recordId log = Some (Property.id property).
Proof.
  intros Hu [_ Hfk] Hids.
  rewrite (addProperty_run user data db Hu).
  set (property := Property.row _ _).
  set (pu := PropertyUser.mk _ _ _ _ _ _).
  set (db' := DatabaseStorage.set_adminLogs _ _ _).
  assert (Hfresh : forall r, r ∈ memberships db ->
                     PropertyUser.propertyId r <> nextPropertyId db).
  { intros r Hr E. rewrite Forall_forall in Hfk.
    destruct (Hfk r Hr) as (_ & _ & Hp).
    unfold DatabaseStorage.property_exists in Hp.
    apply list_elem_of_fmap in Hp as (p & Hp & Hin).
    rewrite Forall_forall in Hids. specialize (Hids p Hin). lia. }
  assert (Hnone : forall userId,
            head (filter (fun r => PropertyUser.userId r = userId
                                   /\ PropertyUser.propertyId r = nextPropertyId db)
                    (memberships db)) = None).
  { intros userId. apply head_filter_None. intros r Hr [_ E].
    exact (Hfresh r Hr E). }
  assert (Hm : membership db' (User.id user) (nextPropertyId db) = Some pu).
  { unfold membership, memberships at 1, db'.
    cbn [DatabaseStorage.set_adminLogs DatabaseStorage.set_propertyUsers
         DatabaseStorage.set_properties storage.set_auditLogs ledger
         propertyUsers].
    apply head_filter_app_new; [apply Hnone | split; reflexivity]. }
  assert (Hprop : DatabaseStorage.getProperty (nextPropertyId db) db'
                  = (Ok (Some property), db')).
  { unfold DatabaseStorage.getProperty, reads. f_equal. f_equal.
    cbn [db' DatabaseStorage.set_adminLogs DatabaseStorage.set_propertyUsers
         DatabaseStorage.set_properties properties].
    apply head_filter_app_new; [|reflexivity].
    apply head_filter_None. intros p Hp E.
    rewrite Forall_forall in Hids. specialize (Hids p Hp). lia. }
  assert (Hown : is_owner db' user (nextPropertyId db)).
  { apply is_owner_iff. right. exists pu. split; [exact Hm|].
    split; reflexivity. }
  exists property, pu, db'. split; [reflexivity|].
  do 6 (split; [reflexivity|]).
  split; [exact Hown|]. split.
  { unfold showProperty, and_then.
    assert (Hcan : can_access db' user (nextPropertyId db)).
    { apply can_access_iff. right. exists pu. split; [exact Hm|reflexivity]. }
    unfold can_access in Hcan.
    change (Property.id property) with (nextPropertyId db).
    rewrite Hcan. cbn [negb]. rewrite Hprop. reflexivity. }
  split.
  { intros other Hother Hrole. unfold showProperty, and_then.
    change (Property.id property) with (nextPropertyId db).
    rewrite userCanAccessProperty_run, UserRole_eqb_neq by exact Hrole.
    assert (Hmo : membership db' (User.id other) (nextPropertyId db) = None).
    { unfold membership, memberships at 1, db'.
      cbn [DatabaseStorage.set_adminLogs DatabaseStorage.set_propertyUsers
           DatabaseStorage.set_properties storage.set_auditLogs ledger
           propertyUsers].
      rewrite filter_app. pose proof (Hnone (User.id other)) as H0.
      apply head_None in H0. rewrite H0. cbn [app].
      rewrite filter_cons, decide_False; [reflexivity|].
      intros [E _]. cbn in E. congruence. }
    rewrite Hmo. reflexivity. }
  eexists. split; [reflexivity|]. split; reflexivity.
Qed.

Lemma addProperty_creator_owns_witness :
  exists property db',
    addProperty Accounts.newcomer (Success Accounts.tower) Accounts.database
    = (Ok (Json 201 property), db')
    /\ Property.id property = 2
    /\ Property.createdById property = Some 13
    /\ is_owner db' Accounts.newcomer 2
    /\ showProperty Accounts.owner 2 db' = (Ok (Fail 403 "Access denied"), db').
Proof.
  destruct (addProperty_creator_owns Accounts.newcomer Accounts.tower
              Accounts.database)
    as (property & pu & db' & Hrun & Hid & Hby & _ & _ & _ & _ & Hown & _
        & Hother & _).
  - by_evaluation.
  - apply accounts_database_constrained.
  - by_evaluation.
  - exists property, db'. split; [exact Hrun|]. split; [exact Hid|].
    split; [exact Hby|]. rewrite Hid in Hown, Hother.
    split; [exact Hown|]. apply Hother; discriminate.
Defined.

(** ** The list of properties and the pages of properties *)

Lemma includes_elem (l : list Z) (x : Z) : includes l x = true <-> x ∈ l.
Proof.
  unfold includes. rewrite existsb_exists. split.
  - intros (y & Hy & E). apply Z.eqb_eq in E. subst y.
    apply list_elem_of_In. exact Hy.
  - intros H. exists x. split; [apply list_elem_of_In; exact H | apply Z.eqb_refl].
Qed.

Lemma getPropertiesByUser_run userId db :
  exists l,
    DatabaseStorage.getPropertiesByUser userId db = (Ok l, db)
    /\ forall p,
         p ∈ l
         <-> p ∈ properties db
             /\ exists pu,
                  pu ∈ memberships db
                  /\ PropertyUser.userId pu = userId
                  /\ PropertyUser.status pu = Approved
                  /\ PropertyUser.propertyId pu = Property.id p.
Proof.
  unfold DatabaseStorage.getPropertiesByUser, and_then, reads.
  fold (memberships db).
  destruct (filter _ (memberships db)) as [|pu0 rest] eqn:E.
  - exists []. split; [reflexivity|]. intros p. split; [intros H; inversion H|].
    intros (_ & pu & Hin & Hu & Hs & _).
    assert (Hpu : pu ∈ filter (fun pu => PropertyUser.userId pu = userId
                                /\ PropertyUser.status pu = Approved)
                    (memberships db))
      by (apply list_elem_of_filter; auto).
    rewrite E in Hpu. inversion Hpu.
  - eexists. split; [reflexivity|]. intros p.
    rewrite list_elem_of_In, filter_In, <- list_elem_of_In, includes_elem.
    rewrite <- E, list_elem_of_fmap. split.
    + intros (Hp & pu & Hid & Hpu). split; [exact Hp|].
      apply list_elem_of_filter in Hpu as [[Hu Hs] Hin].
      exists pu. auto.
    + intros (Hp & pu & Hin & Hu & Hs & Hid). split; [exact Hp|].
      exists pu. split; [auto|]. apply list_elem_of_filter. auto.
Qed.

Lemma getProperty_unique db p :
  NoDup (Property.id <$> properties db) -> p ∈ properties db ->
  head (filter (fun q => Property.id q = Property.id p) (properties db)) = Some p.
Proof.
  intros Hnd Hp.
  destruct (head _) as [x|] eqn:Hx.
  - apply head_Some_elem_of in Hx.
    apply list_elem_of_filter in Hx as [Hid Hin].
    f_equal. apply (NoDup_fmap_eq Property.id (properties db) x p Hnd Hin Hp Hid).
  - exfalso. rewrite head_filter_None in Hx. apply (Hx p Hp). reflexivity.
Qed.

Lemma showProperty_run user propertyId db :
  showProperty user propertyId db
  = (Ok (if UserRole_eqb (User.role user) SuperAdmin
            || match membership db (User.id user) propertyId with
               | Some pu => AccessStatus_eqb (PropertyUser.status pu) Approved
               | None => false
               end
         then match head (filter (fun p => Property.id p = propertyId)
                            (properties db)) with
              | Some p => Json 200 p
              | None => Fail 404 "Not found"
              end
         else Fail 403 "Access denied"), db).
Proof.
  unfold showProperty, and_then. rewrite userCanAccessProperty_run.
  destruct (UserRole_eqb (User.role user) SuperAdmin); cbn [orb negb].
  - unfold DatabaseStorage.getProperty, reads.
    destruct (head _); reflexivity.
  - destruct (membership db (User.id user) propertyId) as [pu|];
      [destruct (AccessStatus_eqb (PropertyUser.status pu) Approved)|];
      cbn [negb]; try reflexivity.
    unfold DatabaseStorage.getProperty, reads. destruct (head _); reflexivity.
Qed.

(** X14.  The list of properties and the pages of the properties agree
    when no user has two rows for one property and property ids are
    unique: the list a user is sent holds exactly the properties whose
    page answers that user with 200, which are all properties for a super
    admin and, for anyone else, those for which the user's row is
    approved. *)
Theorem listProperties_matches_pages user db :
  one_row_per_member db ->
  NoDup (Property.id <$> properties db) ->
  exists l,
    listProperties user db = (Ok (Json 200 l), db)
    /\ (forall p,
          p ∈ l
          <-> showProperty user (Property.id p) db = (Ok (Json 200 p), db))
    /\ (User.role user = SuperAdmin -> l = reverse (properties db))
    /\ (User.role user <> SuperAdmin ->
        forall p,
          p ∈ l
          <-> p ∈ properties db
              /\ exists pu,
                   membership db (User.id user) (Property.id p) = Some pu
                   /\ PropertyUser.status pu = Approved).
Proof.
  intros Hone Hnd.
  assert (Hpage : forall p,
            head (filter (fun q => Property.id q = Property.id p) (properties db))
            = Some p <-> p ∈ properties db).
  { intros p. split; [|apply getProperty_unique; exact Hnd].
    intros H. apply head_Some_elem_of, list_elem_of_filter in H. tauto. }
  unfold listProperties.
  destruct (UserRole_eqb (User.role user) SuperAdmin) eqn:Hrole.
  - exists (reverse (properties db)). split; [reflexivity|]. split.
    + intros p. rewrite showProperty_run, Hrole. cbn [orb].
      rewrite elem_of_reverse, <- Hpage.
      destruct (head _) as [q|]; split; congruence.
    + split; [reflexivity|]. intros H. apply UserRole_eqb_eq in Hrole.
      contradiction.
  - destruct (getPropertiesByUser_run (User.id user) db) as (l & Hrun & Hl).
    assert (Hmem : forall p,
              p ∈ l
              <-> p ∈ properties db
                  /\ exists pu,
                       membership db (User.id user) (Property.id p) = Some pu
                       /\ PropertyUser.status pu = Approved).
    { intros p. rewrite Hl. split.
      - intros (Hp & pu & Hin & Hu & Hs & Hid). split; [exact Hp|].
        exists pu. split; [|exact Hs].
        rewrite <- Hu, <- Hid. apply membership_unique; assumption.
      - intros (Hp & pu & Hm & Hs). split; [exact Hp|]. exists pu.
        unfold membership in Hm.
        apply head_Some_elem_of, list_elem_of_filter in Hm as [[Hu Hid] Hin].
        auto. }
    exists l. unfold and_then. rewrite Hrun. split; [reflexivity|]. split.
    + intros p. rewrite Hmem, showProperty_run, Hrole. cbn [orb].
      rewrite <- Hpage.
      destruct (membership db (User.id user) (Property.id p)) as [pu|].
      * destruct (AccessStatus_eqb (PropertyUser.status pu) Approved) eqn:Es.
        -- apply AccessStatus_eqb_eq in Es.
           destruct (head _) as [q|]; split.
           ++ intros [E _]. congruence.
           ++ intros E. split; [congruence|]. exists pu. auto.
           ++ intros [E _]. discriminate.
           ++ discriminate.
        -- split; [|discriminate]. intros (_ & pu' & E & Hs).
           injection E as <-. apply AccessStatus_eqb_eq in Hs. congruence.
      * split; [|discriminate]. intros (_ & pu' & E & _). discriminate.
    + split; [|intros _; exact Hmem].
      intros H. apply UserRole_eqb_eq in H. congruence.
Qed.

Lemma listProperties_matches_pages_witness :
  exists l,
    listProperties Accounts.newcomer requested_database = (Ok (Json 200 l), requested_database)
    /\ l = []
    /\ showProperty Accounts.newcomer 1 requested_database
       <> (Ok (Json 200 Accounts.plaza), requested_database).
Proof.
  destruct (listProperties_matches_pages Accounts.newcomer requested_database)
    as (l & Hrun & Hpages & _).
  - apply requested_database_constrained.
  - by_evaluation.
  - exists l. split; [exact Hrun|].
    assert (Hl : l = []) by (vm_compute in Hrun; congruence).
    split; [exact Hl|].
    intros Hshow. apply (Hpages Accounts.plaza) in Hshow.
    rewrite Hl in Hshow. inversion Hshow.
Defined.

(** ** Registration *)

Lemma safeRole_not_admin role : safeRole role <> SuperAdmin.
Proof.
  unfold safeRole. destruct (nonempty role) as [r|]; [|discriminate].
  repeat match goal with
         | |- context [String.eqb ?a ?b] => destruct (String.eqb a b)
         end; discriminate.
Qed.

Lemma getUserByUsername_taken db username :
  username ∈ User.username <$> users db ->
  exists u,
    DatabaseStorage.getUserByUsername username db = (Ok (Some u), db).
Proof.
  intros Hin. unfold DatabaseStorage.getUserByUsername, reads.
  destruct (head _) as [u|] eqn:Hu; [eexists; reflexivity|].
  exfalso. rewrite head_filter_None in Hu.
  apply list_elem_of_fmap in Hin as (u & -> & Hin). apply (Hu u Hin).
  reflexivity.
Qed.

Lemma getUserByUsername_free db username :
  username ∉ User.username <$> users db ->
  DatabaseStorage.getUserByUsername username db = (Ok None, db).
Proof.
  intros Hout. unfold DatabaseStorage.getUserByUsername, reads.
  destruct (head _) as [u|] eqn:Hu; [|reflexivity].
  exfalso. apply head_Some_elem_of, list_elem_of_filter in Hu as [Hn Hin].
  apply Hout. apply list_elem_of_fmap. exists u. auto.
Qed.

(** X15.  Registration answers 400 and changes nothing when the
    username, the password or the full name is missing or empty, and 409,
    again without a change, when the username is taken.  Otherwise it
    adds exactly one account, with the hashed password, whose role is the
    requested one when that is property owner, co-owner, accountant or
    tenant and property owner in every other case: no request registers
    a super admin.  Usernames that were unique stay unique.  The account
    is added even when signing it in fails, which is answered 500. *)
Theorem register_outcomes username password fullName email phone role
    hashedPassword loginFails db :
  (nonempty username = None \/ nonempty password = None
   \/ nonempty fullName = None ->
   register username password fullName email phone role hashedPassword
     loginFails db
   = (Ok (Fail 400 "Username, password, and full name are required"), db))
  /\ forall u p f,
       nonempty username = Some u ->
       nonempty password = Some p ->
       nonempty fullName = Some f ->
       (u ∈ User.username <$> users db ->
        register username password fullName email phone role hashedPassword
          loginFails db
        = (Ok (Fail 409 "Username already exists"), db))
       /\ ((u ∉ User.username <$> users db) ->
           exists user db',
             register username password fullName email phone role
               hashedPassword loginFails db
             = (Ok (if loginFails then Fail 500 "Login failed"
                    else Json 201 (User.safeUser user)), db')
             /\ user = User.mk (nextUserId db) u hashedPassword f
                         (nonempty email) (nonempty phone) (safeRole role)
             /\ users db' = users db ++ [user]
             /\ User.role user <> SuperAdmin
             /\ memberships db' = memberships db
             /\ (NoDup (User.username <$> users db) ->
                 NoDup (User.username <$> users db'))).
Proof.
  split.
  - intros H. unfold register, try_catch.
    destruct (nonempty username); [|reflexivity].
    destruct (nonempty password); [|reflexivity].
    destruct (nonempty fullName); [|reflexivity].
    destruct H as [H|[H|H]]; discriminate.
  - intros u p f Hu Hp Hf. unfold register, try_catch.
    rewrite Hu, Hp, Hf. split.
    + intros Hin. destruct (getUserByUsername_taken db u Hin) as [x Hx].
      unfold and_then. rewrite Hx. reflexivity.
    + intros Hout. unfold and_then.
      rewrite (getUserByUsername_free db u Hout).
      unfold DatabaseStorage.createUser. cbn [User.i_username].
      rewrite decide_False by exact Hout.
      eexists _, _. split; [destruct loginFails; reflexivity|].
      split; [reflexivity|]. split; [reflexivity|].
      split; [apply safeRole_not_admin|]. split; [reflexivity|].
      intros Hnd. cbn [DatabaseStorage.set_users users].
      rewrite fmap_app. apply NoDup_app. split; [exact Hnd|]. split.
      * intros x Hx Hx'. cbn in Hx'. apply list_elem_of_singleton in Hx'.
        subst x. contradiction.
      * cbn. apply NoDup_singleton.
Qed.

Lemma register_outcomes_witness :
  (exists user db',
     register (Some "zara") (Some "s3cret") (Some "Zara Noor") (Some "") None
       (Some "super_admin") "ab12.cd34" false Accounts.database
     = (Ok (Json 201 (User.safeUser user)), db')
     /\ User.role user = PropertyOwner
     /\ User.email user = None
     /\ users db' = users Accounts.database ++ [user])
  /\ register (Some "asif") (Some "s3cret") (Some "Asif Again") None None None
       "ab12.cd34" false Accounts.database
     = (Ok (Fail 409 "Username already exists"), Accounts.database)
  /\ register (Some "zara") (Some "") (Some "Zara Noor") None None None
       "ab12.cd34" false Accounts.database
     = (Ok (Fail 400 "Username, password, and full name are required"),
        Accounts.database).
Proof.
  split; [|split].
  - destruct (register_outcomes (Some "zara") (Some "s3cret") (Some "Zara Noor")
                (Some "") None (Some "super_admin") "ab12.cd34" false
                Accounts.database) as [_ H].
    destruct (H "zara"%string "s3cret"%string "Zara Noor"%string
                eq_refl eq_refl eq_refl) as [_ Hnew].
    destruct Hnew as (user & db' & Hrun & Huser & Husers & _).
    { by_evaluation. }
    exists user, db'. split; [exact Hrun|]. rewrite Huser.
    split; [reflexivity|]. split; [reflexivity|]. rewrite Husers, Huser.
    reflexivity.
  - destruct (register_outcomes (Some "asif") (Some "s3cret")
                (Some "Asif Again") None None None "ab12.cd34" false
                Accounts.database) as [_ H].
    destruct (H "asif"%string "s3cret"%string "Asif Again"%string
                eq_refl eq_refl eq_refl) as [Htaken _].
    apply Htaken. by_evaluation.
  - apply (register_outcomes (Some "zara") (Some "") (Some "Zara Noor") None
             None None "ab12.cd34" false Accounts.database).
    right. left. reflexivity.
Defined.

(** ** One row for a user and a property *)

Lemma status_only_keeps_keys id s (l : list PropertyUser.t) :
  member_key
    <$> storage.update_where (fun r => PropertyUser.id r =? id)
          (PropertyUserData.set (PropertyUserData.status_only s)) l
  = member_key <$> l.
Proof.
  unfold storage.update_where. change (map ?g l) with (g <$> l).
  rewrite <- list_fmap_compose. apply list_fmap_ext.
  intros i x _. unfold compose. destruct (PropertyUser.id x =? id); reflexivity.
Qed.

Lemma one_row_after_insert db (pu : PropertyUser.t) next :
  one_row_per_member db ->
  membership db (PropertyUser.userId pu) (PropertyUser.propertyId pu) = None ->
  one_row_per_member
    (DatabaseStorage.set_propertyUsers (memberships db ++ [pu]) next db).
Proof.
  intros Hone Hnone. unfold one_row_per_member, memberships at 1.
  cbn [DatabaseStorage.set_propertyUsers ledger propertyUsers].
  rewrite fmap_app. apply NoDup_app. split; [exact Hone|]. split.
  - intros k Hk Hk'. cbn in Hk'. apply list_elem_of_singleton in Hk'. subst k.
    apply list_elem_of_fmap in Hk as (r & Hkey & Hr).
    unfold membership in Hnone. rewrite head_filter_None in Hnone.
    apply (Hnone r Hr). unfold member_key in Hkey.
    injection Hkey as Hu Hp. auto.
  - cbn. apply NoDup_singleton.
Qed.

Lemma updateStatus_keeps_one_row id s db r db' :
  one_row_per_member db ->
  DatabaseStorage.updatePropertyUser id (PropertyUserData.status_only s) db
  = (r, db') ->
  one_row_per_member db' /\ users db' = users db.
Proof.
  intros Hone Hrun. unfold DatabaseStorage.updatePropertyUser in Hrun.
  cbn [PropertyUserData.sets_nothing PropertyUserData.status_only] in Hrun.
  destruct (decide _) in Hrun; injection Hrun as <- <-; [|auto].
  split; [|reflexivity]. unfold one_row_per_member, memberships.
  cbn [DatabaseStorage.set_propertyUsers ledger propertyUsers].
  rewrite status_only_keeps_keys. exact Hone.
Qed.

Lemma createAuditLog_keeps_rows userId action tableName recordId old new db r db' :
  DatabaseStorage.createAuditLog userId action tableName recordId old new db
  = (r, db') ->
  memberships db' = memberships db.
Proof.
  unfold DatabaseStorage.createAuditLog. intros Hrun.
  destruct (decide _) in Hrun; injection Hrun as <- <-; reflexivity.
Qed.

Lemma one_row_same_rows db db' :
  memberships db' = memberships db ->
  one_row_per_member db -> one_row_per_member db'.
Proof. unfold one_row_per_member. intros ->. auto. Qed.

Lemma change_status_keeps_one_row user puId db r db'
    (handler : User.t -> Z -> App (Response PropertyUser.t)) :
  handler = approveAccess \/ handler = rejectAccess ->
  one_row_per_member db ->
  handler user puId db = (r, db') ->
  one_row_per_member db'.
Proof.
  intros Hh Hone Hrun.
  assert (Hverdict : exists b,
            userIsPropertyOwner (User.id user) (User.role user)
              (default 0 (PropertyUser.propertyId <$> membership_by_id db puId))
              db = (Ok b, db))
    by (rewrite userIsPropertyOwner_run; eexists; reflexivity).
  destruct Hverdict as [b Hb].
  destruct Hh as [-> | ->].
  - unfold approveAccess, and_then at 1,
      DatabaseStorage.getPropertyUserById, reads in Hrun.
    fold (memberships db) in Hrun. fold (membership_by_id db puId) in Hrun.
    destruct (membership_by_id db puId) as [target|];
      [|injection Hrun as <- <-; exact Hone].
    change (default 0 (PropertyUser.propertyId <$> Some target))
      with (PropertyUser.propertyId target) in Hb.
    unfold and_then at 1 in Hrun. rewrite Hb in Hrun.
    destruct b; cbn [negb] in Hrun; [|injection Hrun as <- <-; exact Hone].
    unfold and_then at 1 in Hrun.
    destruct (DatabaseStorage.updatePropertyUser puId _ db) as [ru db1] eqn:Hup.
    destruct (updateStatus_keeps_one_row _ _ _ _ _ Hone Hup) as [Hone1 _].
    destruct ru as [[pu|]|message]; try (injection Hrun as <- <-; exact Hone1).
    unfold and_then in Hrun.
    destruct (DatabaseStorage.createAuditLog _ _ _ _ _ _ db1) as [rl db2] eqn:Hlog.
    apply createAuditLog_keeps_rows in Hlog.
    destruct rl; injection Hrun as <- <-;
      exact (one_row_same_rows db1 db2 Hlog Hone1).
  - unfold rejectAccess, and_then at 1,
      DatabaseStorage.getPropertyUserById, reads in Hrun.
    fold (memberships db) in Hrun. fold (membership_by_id db puId) in Hrun.
    destruct (membership_by_id db puId) as [target|];
      [|injection Hrun as <- <-; exact Hone].
    change (default 0 (PropertyUser.propertyId <$> Some target))
      with (PropertyUser.propertyId target) in Hb.
    unfold and_then at 1 in Hrun. rewrite Hb in Hrun.
    destruct b; cbn [negb] in Hrun; [|injection Hrun as <- <-; exact Hone].
    unfold and_then at 1 in Hrun.
    destruct (DatabaseStorage.updatePropertyUser puId _ db) as [ru db1] eqn:Hup.
    destruct (updateStatus_keeps_one_row _ _ _ _ _ Hone Hup) as [Hone1 _].
    destruct ru as [[pu|]|message]; injection Hrun as <- <-; exact Hone1.
Qed.

Lemma requestAccess_keeps_one_row user propertyId role pct db r db' :
  one_row_per_member db ->
  requestAccess user propertyId role pct db = (r, db') ->
  one_row_per_member db'.
Proof.
  intros Hone Hrun.
  unfold requestAccess, and_then, DatabaseStorage.getPropertyUser, reads in Hrun.
  fold (memberships db) in Hrun.
  fold (membership db (User.id user) propertyId) in Hrun.
  destruct (membership db (User.id user) propertyId) eqn:Hm;
    [injection Hrun as <- <-; exact Hone|].
  unfold DatabaseStorage.createPropertyUser in Hrun.
  destruct (decide _) in Hrun; injection Hrun as <- <-.
  - apply one_row_after_insert; [exact Hone | exact Hm].
  - apply (one_row_same_rows db); [reflexivity | exact Hone].
Qed.

Lemma addProperty_keeps_one_row user parsed db r db' :
  constrained db ->
  Forall (fun p => Property.id p < nextPropertyId db) (properties db) ->
  one_row_per_member db ->
  addProperty user parsed db = (r, db') ->
  one_row_per_member db'.
Proof.
  intros [_ Hfk] Hids Hone Hrun.
  destruct parsed as [data|message];
    [|injection Hrun as <- <-; exact Hone].
  unfold addProperty, and_then at 1, DatabaseStorage.createProperty in Hrun.
  destruct (match Property.i_createdById _ with Some _ => _ | None => _ end)
    in Hrun.
  2:{ injection Hrun as <- <-. apply (one_row_same_rows db);
        [reflexivity | exact Hone]. }
  set (db1 := DatabaseStorage.set_properties _ _ db) in Hrun.
  assert (Hone1 : one_row_per_member db1)
    by (apply (one_row_same_rows db); [reflexivity | exact Hone]).
  unfold and_then at 1, DatabaseStorage.createPropertyUser in Hrun.
  destruct (decide _) in Hrun.
  2:{ injection Hrun as <- <-. apply (one_row_same_rows db1);
        [reflexivity | exact Hone1]. }
  set (db2 := DatabaseStorage.set_propertyUsers _ _ db1) in Hrun.
  assert (Hone2 : one_row_per_member db2).
  { apply one_row_after_insert; [exact Hone1|].
    unfold membership. apply head_filter_None. intros x Hx [_ E].
    cbn in E. rewrite Forall_forall in Hfk.
    destruct (Hfk x Hx) as (_ & _ & Hp).
    unfold DatabaseStorage.property_exists in Hp.
    apply list_elem_of_fmap in Hp as (p & Hp & Hin).
    rewrite Forall_forall in Hids. specialize (Hids p Hin). lia. }
  unfold and_then in Hrun.
  destruct (DatabaseStorage.createAuditLog _ _ _ _ _ _ db2) as [rl db3] eqn:Hlog.
  apply createAuditLog_keeps_rows in Hlog.
  destruct rl; injection Hrun as <- <-;
    exact (one_row_same_rows db2 db3 Hlog Hone2).
Qed.

(** X16.  That no user has two rows for one property is kept by the
    routes that add or decide access: a request for access, an approval,
    a rejection and the creation of a property each leave a database that
    still has at most one row for every user and property, whatever they
    answer.  (For the creation of a property the database must respect
    its keys: each row's property exists and existing property ids lie
    below the next one.) *)
Theorem access_routes_keep_one_row db :
  one_row_per_member db ->
  (forall user propertyId role pct r db',
     requestAccess user propertyId role pct db = (r, db') ->
     one_row_per_member db')
  /\ (forall user puId r db',
        approveAccess user puId db = (r, db') -> one_row_per_member db')
  /\ (forall user puId r db',
        rejectAccess user puId db = (r, db') -> one_row_per_member db')
  /\ (constrained db ->
      Forall (fun p => Property.id p < nextPropertyId db) (properties db) ->
      forall user parsed r db',
        addProperty user parsed db = (r, db') -> one_row_per_member db').
Proof.
  intros Hone. split; [|split; [|split]].
  - intros user propertyId role pct r db'.
    apply requestAccess_keeps_one_row. exact Hone.
  - intros user puId r db'.
    apply (change_status_keeps_one_row user puId db r db' approveAccess); auto.
  - intros user puId r db'.
    apply (change_status_keeps_one_row user puId db r db' rejectAccess); auto.
  - intros Hc Hids user parsed r db'.
    apply addProperty_keeps_one_row; assumption.
Qed.

Lemma access_routes_keep_one_row_witness :
  one_row_per_member
    (snd (requestAccess Accounts.newcomer 1 None None Accounts.database))
  /\ one_row_per_member (snd (approveAccess Accounts.owner 4 requested_database))
  /\ one_row_per_member (snd (rejectAccess Accounts.owner 2 requested_database))
  /\ one_row_per_member
       (snd (addProperty Accounts.newcomer (Success Accounts.tower)
               Accounts.database)).
Proof.
  destruct (access_routes_keep_one_row Accounts.database)
    as (Hrequest & _ & _ & Hadd);
    [apply accounts_database_constrained|].
  destruct (access_routes_keep_one_row requested_database)
    as (_ & Happrove & Hreject & _);
    [apply requested_database_constrained|].
  split; [|split; [|split]].
  - eapply Hrequest. apply surjective_pairing.
  - eapply Happrove. apply surjective_pairing.
  - eapply Hreject. apply surjective_pairing.
  - eapply Hadd; [apply accounts_database_constrained | by_evaluation
                 | apply surjective_pairing].
Defined.

(** ** The users of a property *)




(** ** The invoices a reconstruction writes *)

Lemma reconstruct_rows_loop unitId cr yip t (ps : list (YearRent.t * Z)) acc st :
  tenant_of_unit st unitId = Some t ->
  for_of ps (fun p => reconstruct_month unitId cr yip p.1 p.2) acc st
  = (acc ++ reconstructed_rows unitId cr yip t (rentInvoices st)
              (nextRentInvoiceId st) ps,
     grow st (reconstructed_rows unitId cr yip t (rentInvoices st)
                (nextRentInvoiceId st) ps)).
Proof.
  revert acc st. induction ps as [|[yr m] ps IH]; intros acc st Ht.
  - cbn [for_of reconstructed_rows]. unfold ret.
    rewrite app_nil_r, grow_nil. reflexivity.
  - cbn [for_of reconstructed_rows fst snd]. unfold bind.
    destruct (decide (covered (rentInvoices st) unitId m (YearRent.year yr)))
      as [Hc|Hc].
    + rewrite reconstruct_month_skip by exact Hc.
      rewrite bool_decide_eq_true_2 by exact Hc. apply IH. exact Ht.
    + rewrite (reconstruct_month_create _ _ _ _ _ _ _ t Hc Ht).
      rewrite bool_decide_eq_false_2 by exact Hc.
      set (inv := reconstructed_invoice unitId cr yip (nextRentInvoiceId st) t yr m).
      rewrite (IH (acc ++ [inv]) (grow st [inv])) by exact Ht.
      change (rentInvoices (grow st [inv])) with (rentInvoices st ++ [inv]).
      change (nextRentInvoiceId (grow st [inv])) with (nextRentInvoiceId st + 1).
      rewrite grow_grow, <- app_assoc. reflexivity.
Qed.

Lemma reconstructHistory_rows now userId unitId cr yip startYear startMonth st t :
  truthy cr = true -> truthy yip = true -> is_Some (unit_by_id st unitId) ->
  tenant_of_unit st unitId = Some t ->
  let sYear := int_or startYear 2015 in
  let yearlyRents :=
    yearlyRents_of (Date.getFullYear now) sYear
      (Num.div (parseFloat yip) (Num.of_Z 100)) (parseFloat cr) in
  let rows :=
    reconstructed_rows unitId cr yip t (rentInvoices st) (nextRentInvoiceId st)
      (periods (Date.getFullYear now) (Date.getMonth now + 1) sYear
         (int_or startMonth 1) yearlyRents) in
  reconstructHistory now userId unitId cr yip startYear startMonth st
  = (Json 201 {| Reconstructed.generated := length rows;
                 Reconstructed.yearlyRents := yearlyRents;
                 Reconstructed.invoices := rows |},
     storage.set_auditLogs
       (auditLogs st
        ++ [AuditLog.mk (nextAuditLogId st) (Some userId) "reconstruct_history"
              (Some "rent_invoices"%string) (Some unitId) None
              (Some (SnapReconstruct cr yip sYear (length rows)))])
       (nextAuditLogId st + 1) (grow st rows)).
Proof.
  intros Hc Hy [u Hu] Ht. cbn zeta.
  unfold reconstructHistory. rewrite Hc, Hy. cbn [negb orb].
  unfold bind at 1. unfold storage.getUnit, gets.
  fold (find_unit (units st) unitId). fold (unit_by_id st unitId). rewrite Hu.
  unfold bind at 1. unfold reconstruct_year.
  rewrite (for_of_nested _ _
             (fun yr => reconstruct_month unitId cr yip yr)).
  fold (periods (Date.getFullYear now) (Date.getMonth now + 1)
          (int_or startYear 2015) (int_or startMonth 1)
          (yearlyRents_of (Date.getFullYear now) (int_or startYear 2015)
             (Num.div (parseFloat yip) (Num.of_Z 100)) (parseFloat cr))).
  rewrite (reconstruct_rows_loop unitId cr yip t _ [] st Ht). cbn [app].
  reflexivity.
Qed.

Lemma reconstructed_rows_ids unitId cr yip t existing next ps :
  RentInvoice.id <$> reconstructed_rows unitId cr yip t existing next ps
  = seqZ next
      (Z.of_nat (length (reconstructed_rows unitId cr yip t existing next ps))).
Proof.
  revert existing next. induction ps as [|p ps IH]; intros existing next;
    [reflexivity|].
  cbn [reconstructed_rows].
  destruct (bool_decide _); [apply IH|].
  cbn [fmap list_fmap length]. rewrite IH, Nat2Z.inj_succ.
  rewrite (seqZ_cons next) by lia.
  cbn [reconstructed_invoice RentInvoice.row RentInvoice.id].
  f_equal. f_equal; lia.
Qed.

Lemma reconstructed_rows_each unitId cr yip t existing next ps :
  Forall
    (fun inv =>
       exists p id,
         p ∈ ps /\ inv = reconstructed_invoice unitId cr yip id t p.1 p.2)
    (reconstructed_rows unitId cr yip t existing next ps).
Proof.
  revert existing next. induction ps as [|p ps IH]; intros existing next;
    [constructor|].
  cbn [reconstructed_rows].
  assert (Hrest : forall e n,
            Forall
              (fun inv =>
                 exists q id,
                   q ∈ p :: ps
                   /\ inv = reconstructed_invoice unitId cr yip id t q.1 q.2)
              (reconstructed_rows unitId cr yip t e n ps)).
  { intros e n. eapply Forall_impl; [apply IH|]. cbn.
    intros inv (q & id & Hq & E). exists q, id. split; [|exact E].
    apply elem_of_cons. auto. }
  destruct (bool_decide _); [apply Hrest|].
  constructor; [|apply Hrest].
  exists p, next. split; [apply list_elem_of_here | reflexivity].
Qed.

Lemma pick_tenant_active (l : list Tenant.t) (t a : Tenant.t) :
  pick_tenant l = Some t -> a ∈ l -> Tenant.isActive a = 1 ->
  Tenant.isActive t = 1.
Proof.
  unfold pick_tenant. intros Hpick Ha Hact.
  destruct (List.find _ l) as [x|] eqn:Hx.
  - injection Hpick as <-. apply find_some in Hx as [_ E].
    apply Z.eqb_eq in E. exact E.
  - exfalso. apply list_elem_of_In in Ha.
    pose proof (find_none _ _ Hx a Ha) as E. cbn in E.
    apply Z.eqb_neq in E. contradiction.
Qed.

(** X18.  What a reconstruction writes: for a unit with a tenant record
    every invoice of an accepted run is attributed to one and the same
    tenant (an active tenant of the unit when it has one, else its first
    tenant), is [Unpaid] with nothing paid and no paid date, is flagged as
    historical, carries the receipt number
    [HIST-{year}{month:02}-{unitId}] and the note of the reconstruction,
    and is billed at the rent of its year in the answer's yearly rents.
    The new invoices take the next ids in order and are appended to the
    table; tenants, units, settlements and payments are untouched, and
    one "reconstruct_history" audit row records how many were written. *)
Theorem reconstructHistory_invoices now userId unitId currentRent
    yearlyIncreasePercent startYear startMonth st t :
  truthy currentRent = true ->
  truthy yearlyIncreasePercent = true ->
  is_Some (unit_by_id st unitId) ->
  tenant_of_unit st unitId = Some t ->
  exists b st',
    reconstructHistory now userId unitId currentRent yearlyIncreasePercent
      startYear startMonth st = (Json 201 b, st')
    /\ Reconstructed.generated b = length (Reconstructed.invoices b)
    /\ rentInvoices st' = rentInvoices st ++ Reconstructed.invoices b
    /\ RentInvoice.id <$> Reconstructed.invoices b
       = seqZ (nextRentInvoiceId st)
           (Z.of_nat (length (Reconstructed.invoices b)))
    /\ Forall
         (fun inv =>
            RentInvoice.tenantId inv = Tenant.id t
            /\ RentInvoice.unitId inv = unitId
            /\ RentInvoice.status inv = Unpaid
            /\ RentInvoice.paidAmount inv = Some Num.zero
            /\ RentInvoice.paidDate inv = None
            /\ RentInvoice.isHistorical inv = 1
            /\ RentInvoice.receiptNumber inv
               = Some (HIST_receipt (RentInvoice.year inv)
                         (RentInvoice.month inv) unitId)
            /\ RentInvoice.notes inv
               = Some (NoteReconstructed yearlyIncreasePercent currentRent)
            /\ exists yr,
                 yr ∈ Reconstructed.yearlyRents b
                 /\ YearRent.year yr = RentInvoice.year inv
                 /\ YearRent.rent yr = RentInvoice.amount inv)
         (Reconstructed.invoices b)
    /\ (forall a,
          a ∈ tenants st -> Tenant.unitId a = unitId -> Tenant.isActive a = 1 ->
          Tenant.isActive t = 1)
    /\ tenants st' = tenants st /\ units st' = units st
    /\ ownerSettlements st' = ownerSettlements st
    /\ payments st' = payments st
    /\ exists log,
         auditLogs st' = auditLogs st ++ [log]
         /\ AuditLog.action log = "reconstruct_history"%string
         /\ AuditLog.recordId log = Some unitId
         /\ AuditLog.newValue log
            = Some (SnapReconstruct currentRent yearlyIncreasePercent
                      (int_or startYear 2015)
                      (length (Reconstructed.invoices b))).
Proof.
  intros Hc Hy Hu Ht.
  rewrite (reconstructHistory_rows now userId unitId currentRent
             yearlyIncreasePercent startYear startMonth st t Hc Hy Hu Ht).
  eexists _, _. split; [reflexivity|].
  cbn [Reconstructed.generated Reconstructed.invoices Reconstructed.yearlyRents].
  split; [reflexivity|]. split; [reflexivity|].
  split; [apply reconstructed_rows_ids|]. split.
  { eapply Forall_impl; [apply reconstructed_rows_each|]. cbn beta.
    intros inv (p & id & Hp & ->).
    do 8 (split; [reflexivity|]).
    unfold periods in Hp. apply list_elem_of_In, in_flat_map in Hp.
    destruct Hp as (yr & Hyr & Hp). apply list_elem_of_In in Hyr, Hp.
    apply list_elem_of_fmap in Hp as (m & -> & _).
    exists yr. split; [exact Hyr|]. split; reflexivity. }
  split.
  { intros a Ha Hau Hact. unfold tenant_of_unit in Ht.
    apply (pick_tenant_active _ t a Ht); [|exact Hact].
    apply list_elem_of_filter. auto. }
  do 4 (split; [reflexivity|]).
  eexists. split; [reflexivity|]. split; [reflexivity|].
  split; reflexivity.
Qed.

Lemma reconstructHistory_invoices_witness :
  exists b st',
    reconstructHistory Sample.june_3rd_noon 10 2 (JNumber 45000) (JNumber 10)
      (Some 2024) (Some 11) Sample.collected_store = (Json 201 b, st')
    /\ Reconstructed.generated b = 6%nat
    /\ RentInvoice.id <$> Reconstructed.invoices b = [4; 5; 6; 7; 8; 9]
    /\ period_of <$> Reconstructed.invoices b
       = [(2024, 11); (2024, 12); (2025, 1); (2025, 2); (2025, 3); (2025, 4)]
    /\ Forall (fun inv => RentInvoice.tenantId inv = 2
                          /\ RentInvoice.isHistorical inv = 1)
         (Reconstructed.invoices b).
Proof.
  destruct (reconstructHistory_invoices Sample.june_3rd_noon 10 2
              (JNumber 45000) (JNumber 10) (Some 2024) (Some 11)
              Sample.collected_store (Tenant.mk 2 2 "Sara Malik" 1 1))
    as (b & st' & Hrun & Hgen & _ & Hids & Heach & _).
  - reflexivity.
  - reflexivity.
  - eexists. reflexivity.
  - reflexivity.
  - exists b, st'. split; [exact Hrun|].
    assert (Hb : period_of <$> Reconstructed.invoices b
                 = [(2024, 11); (2024, 12); (2025, 1); (2025, 2); (2025, 3);
                    (2025, 4)])
      by (vm_compute in Hrun; injection Hrun as <- _; reflexivity).
    assert (Hlen : length (Reconstructed.invoices b) = 6%nat)
      by (rewrite <- (length_fmap period_of), Hb; reflexivity).
    split; [rewrite Hgen; exact Hlen|].
    split; [rewrite Hids, Hlen; reflexivity|].
    split; [exact Hb|].
    eapply Forall_impl; [exact Heach|]. cbn. tauto.
Defined.

(** ** How many invoices a reconstruction writes *)

Lemma Date_month_range (t : Z) : 0 <= Date.getMonth t <= 11.
Proof.
  unfold Date.getMonth, Date.civil, Date.civil_from_days. cbv zeta.
  cbn [fst snd].
  set (z' := t / Date.msPerDay + 719468).
  set (era := z' / 146097).
  set (doe := z' - era * 146097).
  assert (Hdoe : 0 <= doe <= 146096)
    by (unfold doe, era; Z.div_mod_to_equations; lia).
  clearbody doe. clear era z'.
  set (yoe := (doe - doe / 1460 + doe / 36524 - doe / 146096) / 365).
  set (doy := doe - (365 * yoe + yoe / 4 - yoe / 100)).
  assert (Hdoy : 0 <= doy <= 365)
    by (unfold doy, yoe; Z.div_mod_to_equations; lia).
  clearbody doy.
  set (mp := (5 * doy + 2) / 153).
  assert (Hmp : 0 <= mp <= 11) by (unfold mp; Z.div_mod_to_equations; lia).
  destruct (mp <? 10) eqn:E; [apply Z.ltb_lt in E | apply Z.ltb_ge in E]; lia.
Qed.

Lemma yearly_loop_years (n : nat) (y sYear : Z) (rate rent : number) acc :
  YearRent.year <$> yearly_loop n y sYear rate rent acc
  = seqZ (y - Z.of_nat n + 1) (Z.of_nat n) ++ (YearRent.year <$> acc).
Proof.
  revert y rent acc. induction n as [|n IH]; intros y rent acc; [reflexivity|].
  cbn [yearly_loop]. rewrite IH. cbn [fmap list_fmap YearRent.year].
  rewrite (seqZ_S _ n), <- app_assoc. cbn [app].
  replace (y - 1 - Z.of_nat n + 1) with (y - Z.of_nat (S n) + 1) by lia.
  replace (y - Z.of_nat (S n) + 1 + Z.of_nat n) with y by lia.
  reflexivity.
Qed.

Lemma yearlyRents_of_years (cy sYear : Z) (rate rent : number) :
  YearRent.year <$> yearlyRents_of cy sYear rate rent
  = seqZ sYear (cy - sYear + 1).
Proof.
  unfold yearlyRents_of. rewrite yearly_loop_years, app_nil_r.
  destruct (Z_le_gt_dec (cy - sYear + 1) 0) as [Hle|Hgt].
  - replace (Z.to_nat (cy - sYear + 1)) with O by lia.
    rewrite (seqZ_nil sYear) by exact Hle. reflexivity.
  - rewrite Z2Nat.id by lia. f_equal. lia.
Qed.

Lemma periods_year_months cy cm sy sm (yrs : list YearRent.t) :
  (fun p : YearRent.t * Z => (YearRent.year p.1, p.2)) <$> periods cy cm sy sm yrs
  = year_months cy cm sy sm (YearRent.year <$> yrs).
Proof.
  unfold periods, year_months.
  induction yrs as [|yr yrs IH]; [reflexivity|].
  cbn [flat_map fmap list_fmap]. rewrite fmap_app. f_equal; [|exact IH].
  rewrite <- list_fmap_compose. reflexivity.
Qed.

Lemma year_months_app cy cm sy sm (a b : list Z) :
  year_months cy cm sy sm (a ++ b)
  = year_months cy cm sy sm a ++ year_months cy cm sy sm b.
Proof. unfold year_months. apply flat_map_app. Qed.

Lemma year_months_elem cy cm sy sm years (p : Z * Z) :
  p ∈ year_months cy cm sy sm years
  <-> p.1 ∈ years /\ p.2 ∈ months_in cy cm sy sm p.1.
Proof.
  unfold year_months. rewrite list_elem_of_In, in_flat_map. split.
  - intros (y & Hy & Hp). apply list_elem_of_In in Hy, Hp.
    apply list_elem_of_fmap in Hp as (m & -> & Hm). auto.
  - intros [Hy Hm]. exists p.1. split; [apply list_elem_of_In; exact Hy|].
    apply list_elem_of_In. apply list_elem_of_fmap. exists p.2.
    split; [destruct p; reflexivity | exact Hm].
Qed.

Lemma year_months_NoDup cy cm sy sm years :
  NoDup years -> NoDup (year_months cy cm sy sm years).
Proof.
  induction years as [|y years IH]; intros Hnd; [constructor|].
  apply NoDup_cons in Hnd as [Hy Hnd].
  change (year_months cy cm sy sm (y :: years))
    with ((pair y <$> months_in cy cm sy sm y) ++ year_months cy cm sy sm years).
  apply NoDup_app. split; [|split; [|apply IH; exact Hnd]].
  - apply NoDup_fmap_2; [intros a b E; congruence|]. apply NoDup_seqZ.
  - intros p Hp Hp'. apply list_elem_of_fmap in Hp as (m & -> & _).
    apply year_months_elem in Hp' as [Hin _]. contradiction.
Qed.

Lemma months_in_length cy cm sy sm y :
  length (months_in cy cm sy sm y)
  = Z.to_nat ((if y =? cy then cm else 12) - (if y =? sy then sm else 1) + 1).
Proof. unfold months_in, months_of. cbn [YearRent.year]. apply length_seqZ. Qed.

Lemma seqZ_one (m : Z) : seqZ m 1 = [m].
Proof. rewrite seqZ_cons by lia. cbn. rewrite seqZ_nil by lia. reflexivity. Qed.

Lemma year_months_one cy cm sy sm y :
  length (year_months cy cm sy sm [y])
  = Z.to_nat ((if y =? cy then cm else 12) - (if y =? sy then sm else 1) + 1).
Proof.
  unfold year_months. cbn [flat_map]. rewrite app_nil_r, length_fmap.
  apply months_in_length.
Qed.

Lemma year_months_early cy cm sy sm (k : nat) :
  sy + Z.of_nat k < cy -> 1 <= sm <= 13 ->
  length (year_months cy cm sy sm (seqZ sy (Z.of_nat (S k))))
  = Z.to_nat (13 - sm + 12 * Z.of_nat k).
Proof.
  intros Hlt Hsm. induction k as [|k IH].
  - change (Z.of_nat 1) with 1. rewrite seqZ_one, year_months_one.
    replace (sy =? cy) with false by (symmetry; apply Z.eqb_neq; lia).
    rewrite Z.eqb_refl. f_equal. lia.
  - rewrite (seqZ_S sy (S k)), year_months_app, length_app, IH by lia.
    rewrite year_months_one.
    replace (sy + Z.of_nat (S k) =? cy) with false
      by (symmetry; apply Z.eqb_neq; lia).
    replace (sy + Z.of_nat (S k) =? sy) with false
      by (symmetry; apply Z.eqb_neq; lia).
    lia.
Qed.

Lemma year_months_length cy cm sy sm :
  sy <= cy -> 1 <= sm <= 12 -> 1 <= cm <= 12 -> (sy = cy -> sm <= cm) ->
  length (year_months cy cm sy sm (seqZ sy (cy - sy + 1)))
  = Z.to_nat (12 * (cy - sy) + cm - sm + 1).
Proof.
  intros Hy Hsm Hcm Hsame.
  destruct (Z.eq_dec sy cy) as [E|E].
  - subst cy. replace (sy - sy + 1) with 1 by lia.
    rewrite seqZ_one, year_months_one, Z.eqb_refl. f_equal. lia.
  - replace (cy - sy + 1) with (Z.of_nat (S (S (Z.to_nat (cy - sy - 1)))))
      by lia.
    rewrite (seqZ_S sy (S _)), year_months_app, length_app.
    rewrite year_months_early by lia.
    rewrite year_months_one.
    replace (sy + Z.of_nat (S (Z.to_nat (cy - sy - 1))) =? cy) with true
      by (symmetry; apply Z.eqb_eq; lia).
    replace (sy + Z.of_nat (S (Z.to_nat (cy - sy - 1))) =? sy) with false
      by (symmetry; apply Z.eqb_neq; lia).
    lia.
Qed.

Lemma year_months_in_range cy cm sy sm :
  1 <= sm <= 12 -> 1 <= cm <= 12 ->
  Forall (in_range cy cm sy sm)
    (year_months cy cm sy sm (seqZ sy (cy - sy + 1))).
Proof.
  intros Hsm Hcm. apply Forall_forall. intros [y m] Hp.
  apply year_months_elem in Hp as [Hy Hm]. cbn [fst snd] in *.
  apply elem_of_seqZ in Hy.
  unfold months_in, months_of in Hm. cbn [YearRent.year] in Hm.
  apply elem_of_seqZ in Hm. unfold in_range. cbn [fst snd].
  destruct (Z.eqb_spec y cy), (Z.eqb_spec y sy); lia.
Qed.

Lemma reconstructed_rows_fresh unitId cr yip t existing next
    (ps : list (YearRent.t * Z)) :
  NoDup ((fun p : YearRent.t * Z => (YearRent.year p.1, p.2)) <$> ps) ->
  (forall p, p ∈ ps -> ~ covered existing unitId p.2 (YearRent.year p.1)) ->
  period_of <$> reconstructed_rows unitId cr yip t existing next ps
  = (fun p : YearRent.t * Z => (YearRent.year p.1, p.2)) <$> ps.
Proof.
  revert existing next. induction ps as [|p ps IH]; intros existing next Hnd Hfree;
    [reflexivity|].
  cbn [reconstructed_rows fmap list_fmap] in *.
  apply NoDup_cons in Hnd as [Hp Hnd].
  rewrite bool_decide_eq_false_2 by (apply Hfree; apply list_elem_of_here).
  cbn [fmap list_fmap]. f_equal. apply IH; [exact Hnd|].
  intros q Hq Hc. apply covered_app in Hc as [Hc|Hc].
  - apply (Hfree q); [apply elem_of_cons; auto | exact Hc].
  - unfold covered in Hc. apply Exists_cons in Hc as [(_ & Hm & Hy)|Hc];
      [|inversion Hc].
    cbn in Hm, Hy. apply Hp. apply list_elem_of_fmap. exists q.
    split; [|exact Hq]. rewrite Hm, Hy. reflexivity.
Qed.

(** X19.  For a unit that has a tenant record and no invoice yet, an
    accepted reconstruction from a start month in 1..12 of a start year
    not after the current year (and, within the current year, not after
    the current month) writes exactly one invoice for every month from
    the start month to the current month, both included:
    [12 * (currentYear - startYear) + currentMonth - startMonth + 1]
    invoices, for pairwise different periods that all lie in that range,
    in the order of the calendar. *)
Theorem reconstructHistory_every_month now userId unitId currentRent
    yearlyIncreasePercent startYear startMonth st t :
  truthy currentRent = true ->
  truthy yearlyIncreasePercent = true ->
  is_Some (unit_by_id st unitId) ->
  tenant_of_unit st unitId = Some t ->
  Forall (fun inv => RentInvoice.unitId inv <> unitId) (rentInvoices st) ->
  let sYear := int_or startYear 2015 in
  let sMonth := int_or startMonth 1 in
  let currentYear := Date.getFullYear now in
  let currentMonth := Date.getMonth now + 1 in
  sYear <= currentYear ->
  1 <= sMonth <= 12 ->
  (sYear = currentYear -> sMonth <= currentMonth) ->
  exists b st',
    reconstructHistory now userId unitId currentRent yearlyIncreasePercent
      startYear startMonth st = (Json 201 b, st')
    /\ Reconstructed.generated b
       = Z.to_nat (12 * (currentYear - sYear) + currentMonth - sMonth + 1)
    /\ length (Reconstructed.invoices b) = Reconstructed.generated b
    /\ NoDup (period_of <$> Reconstructed.invoices b)
    /\ Forall (in_range currentYear currentMonth sYear sMonth)
         (period_of <$> Reconstructed.invoices b)
    /\ period_of <$> Reconstructed.invoices b
       = year_months currentYear currentMonth sYear sMonth
           (seqZ sYear (currentYear - sYear + 1)).
Proof.
  intros Hc Hy Hu Ht Hnone sYear sMonth currentYear currentMonth Hle Hsm Hsame.
  pose proof (Date_month_range now) as Hcm.
  rewrite (reconstructHistory_rows now userId unitId currentRent
             yearlyIncreasePercent startYear startMonth st t Hc Hy Hu Ht).
  fold sYear sMonth currentYear currentMonth.
  set (yrs := yearlyRents_of currentYear sYear _ _).
  set (ps := periods currentYear currentMonth sYear sMonth yrs).
  assert (Hkeys : (fun p : YearRent.t * Z => (YearRent.year p.1, p.2)) <$> ps
                  = year_months currentYear currentMonth sYear sMonth
                      (seqZ sYear (currentYear - sYear + 1))).
  { unfold ps. rewrite periods_year_months. unfold yrs.
    rewrite yearlyRents_of_years. reflexivity. }
  assert (Hnd : NoDup (year_months currentYear currentMonth sYear sMonth
                         (seqZ sYear (currentYear - sYear + 1))))
    by (apply year_months_NoDup, NoDup_seqZ).
  assert (Hrows : period_of
                    <$> reconstructed_rows unitId currentRent
                          yearlyIncreasePercent t (rentInvoices st)
                          (nextRentInvoiceId st) ps
                  = year_months currentYear currentMonth sYear sMonth
                      (seqZ sYear (currentYear - sYear + 1))).
  { rewrite <- Hkeys. apply reconstructed_rows_fresh.
    - rewrite Hkeys. exact Hnd.
    - intros p _ Hcov. unfold covered in Hcov.
      apply Exists_exists in Hcov as (inv & Hin & Hunit & _).
      rewrite Forall_forall in Hnone. exact (Hnone inv Hin Hunit). }
  assert (Hlen : length (reconstructed_rows unitId currentRent
                           yearlyIncreasePercent t (rentInvoices st)
                           (nextRentInvoiceId st) ps)
                 = Z.to_nat (12 * (currentYear - sYear) + currentMonth
                             - sMonth + 1)).
  { rewrite <- (length_fmap period_of), Hrows.
    apply year_months_length; unfold currentMonth; lia. }
  eexists _, _. split; [reflexivity|].
  cbn [Reconstructed.generated Reconstructed.invoices].
  split; [exact Hlen|]. split; [reflexivity|].
  rewrite Hrows. split; [exact Hnd|]. split; [|reflexivity].
  apply year_months_in_range; unfold currentMonth; lia.
Qed.

Lemma reconstructHistory_every_month_witness :
  exists b st',
    reconstructHistory Sample.june_3rd_noon 10 1 (JNumber 45000) (JNumber 10)
      (Some 2023) (Some 11) (storage.set_rentInvoices [] 1 Sample.store)
    = (Json 201 b, st')
    /\ Reconstructed.generated b = 20%nat
    /\ NoDup (period_of <$> Reconstructed.invoices b).
Proof.
  destruct (reconstructHistory_every_month Sample.june_3rd_noon 10 1
              (JNumber 45000) (JNumber 10) (Some 2023) (Some 11)
              (storage.set_rentInvoices [] 1 Sample.store) Sample.tenant)
    as (b & st' & Hrun & Hgen & _ & Hnd & _).
  - reflexivity.
  - reflexivity.
  - eexists. reflexivity.
  - reflexivity.
  - by_evaluation.
  - vm_compute. discriminate.
  - vm_compute. split; discriminate.
  - vm_compute. discriminate.
  - exists b, st'. split; [exact Hrun|]. split; [exact Hgen | exact Hnd].
Defined.

(** ** Changing the rent of a unit *)

Lemma updateUnit_rent_run id rent db u :
  units_constrained db ->
  unit_by_id (ledger db) id = Some u ->
  DatabaseStorage.updateUnit id (UnitData.rent_only rent) db
  = (Ok (Some (UnitData.set (UnitData.rent_only rent) u)),
     DatabaseStorage.set_units
       (storage.update_where (fun r => Unit.id r =? id)
          (UnitData.set (UnitData.rent_only rent)) (units (ledger db)))
       (nextUnitId db) db).
Proof.
  intros Hfk Hu. unfold DatabaseStorage.updateUnit.
  cbn [UnitData.sets_nothing UnitData.rent_only].
  fold (UnitData.rent_only rent). unfold storage.update_where.
  assert (Hkeep : forall x : Unit.t,
            Unit.id (if Unit.id x =? id
                     then UnitData.set (UnitData.rent_only rent) x else x) = id
            <-> Unit.id x = id).
  { intros x. destruct (Unit.id x =? id); reflexivity. }
  rewrite decide_True.
  - rewrite (head_filter_map (fun r => Unit.id r = id) _ _ Hkeep).
    unfold unit_by_id, find_unit in Hu. rewrite Hu.
    cbn [fmap option_fmap option_map].
    apply head_Some_elem_of, list_elem_of_filter in Hu as [Hid _].
    apply Z.eqb_eq in Hid. rewrite Hid. reflexivity.
  - rewrite (filter_map_comm (fun r => Unit.id r = id) _ _ Hkeep).
    apply Forall_forall. intros r' Hr'.
    change (map ?g ?l) with (g <$> l) in Hr'.
    apply list_elem_of_fmap in Hr' as (r & -> & Hr).
    apply list_elem_of_filter in Hr as [_ Hr].
    unfold units_constrained in Hfk. rewrite Forall_forall in Hfk.
    specialize (Hfk r Hr). destruct (Unit.id r =? id); exact Hfk.
Qed.

Lemma find_unit_updated id rent (us : list Unit.t) u :
  find_unit us id = Some u ->
  find_unit
    (storage.update_where (fun r => Unit.id r =? id)
       (UnitData.set (UnitData.rent_only rent)) us) id
  = Some (UnitData.set (UnitData.rent_only rent) u).
Proof.
  intros Hu. unfold find_unit, storage.update_where.
  rewrite head_filter_map.
  - unfold find_unit in Hu. rewrite Hu. cbn [fmap option_fmap option_map].
    apply head_Some_elem_of, list_elem_of_filter in Hu as [Hid _].
    apply Z.eqb_eq in Hid. rewrite Hid. reflexivity.
  - intros x. destruct (Unit.id x =? id); reflexivity.
Qed.

(** X20.  The rent of a unit is changed by whoever is signed in: the
    route asks for no right over the unit's property.  Patching the
    monthly rent of an existing unit answers 200 with the unit at its new
    rent, which is what the unit's page shows from then on, and writes an
    "update_unit" audit row with the unit before and after.  Invoices
    already written keep their amounts; every invoice the generator
    writes afterwards for that unit is at the new rent. *)
Theorem patchUnit_rent_applies_from_now_on user id rent db u month year :
  DatabaseStorage.user_exists db (User.id user) ->
  units_constrained db ->
  unit_by_id (ledger db) id = Some u ->
  month <> 0 -> year <> 0 ->
  exists u' db',
    patchUnit user id (Success (UnitData.rent_only rent)) db
    = (Ok (Json 200 u'), db')
    /\ u' = Unit.mk id (Unit.propertyId u) (Unit.unitName u) rent
    /\ showUnit id db' = (Ok (Json 200 u'), db')
    /\ rentInvoices (ledger db') = rentInvoices (ledger db)
    /\ tenants (ledger db') = tenants (ledger db)
    /\ (exists log,
          adminLogs db' = adminLogs db ++ [log]
          /\ AdminLog.action log = "update_unit"%string
          /\ AdminLog.userId log = Some (User.id user)
          /\ AdminLog.oldValue log = Some (OfUnit u)
          /\ AdminLog.newValue log = Some (OfUnit u'))
    /\ exists b st',
         generateInvoices month year (ledger db') = (Json 201 b, st')
         /\ Forall (fun inv =>
                      RentInvoice.unitId inv = id -> RentInvoice.amount inv = rent)
              (Generated.invoices b)
         /\ rentInvoices st' = rentInvoices (ledger db) ++ Generated.invoices b.
Proof.
  intros Huser Hfk Hu Hm Hy.
  assert (Hid : Unit.id u = id).
  { unfold unit_by_id, find_unit in Hu.
    apply head_Some_elem_of, list_elem_of_filter in Hu as [Hid _]. exact Hid. }
  assert (Hrun : patchUnit user id (Success (UnitData.rent_only rent)) db
                 = (Ok (Json 200 (UnitData.set (UnitData.rent_only rent) u)),
                    DatabaseStorage.set_adminLogs
                      (adminLogs db
                       ++ [AdminLog.mk (nextAuditLogId (ledger db))
                             (Some (User.id user)) "update_unit"
                             (Some "units"%string) (Some id) (Some (OfUnit u))
                             (Some (OfUnit
                                      (UnitData.set (UnitData.rent_only rent) u)))])
                      (nextAuditLogId (ledger db) + 1)
                      (DatabaseStorage.set_units
                         (storage.update_where (fun r => Unit.id r =? id)
                            (UnitData.set (UnitData.rent_only rent))
                            (units (ledger db)))
                         (nextUnitId db) db))).
  { unfold patchUnit, and_then at 1, DatabaseStorage.getUnit, reads,
      storage.getUnit, gets. cbn [fst].
    fold (find_unit (units (ledger db)) id). fold (unit_by_id (ledger db) id).
    rewrite Hu. unfold and_then at 1.
    rewrite (updateUnit_rent_run id rent db u Hfk Hu).
    unfold and_then, DatabaseStorage.createAuditLog, ok.
    rewrite decide_True by exact Huser.
    cbn [UnitData.set Unit.id fmap option_fmap option_map]. rewrite Hid.
    reflexivity. }
  rewrite Hrun.
  set (u' := UnitData.set (UnitData.rent_only rent) u).
  set (db' := DatabaseStorage.set_adminLogs _ _ _).
  assert (Hu' : find_unit (units (ledger db')) id = Some u')
    by (apply (find_unit_updated id rent (units (ledger db)) u); exact Hu).
  exists u', db'. split; [reflexivity|].
  split; [unfold u', UnitData.set; cbn; rewrite Hid; reflexivity|].
  split.
  { unfold showUnit, and_then, DatabaseStorage.getUnit, reads, storage.getUnit,
      gets. cbn [fst]. fold (find_unit (units (ledger db')) id).
    rewrite Hu'. reflexivity. }
  split; [reflexivity|]. split; [reflexivity|]. split.
  { eexists. split; [reflexivity|]. repeat split. }
  rewrite (generateInvoices_run month year (ledger db') Hm Hy).
  eexists _, _. split; [reflexivity|]. cbn [Generated.invoices].
  split; [|reflexivity].
  pose proof (generated_rows_each month year
                (invoiced_tenants (ledger db') month year)
                (units (ledger db')) (nextRentInvoiceId (ledger db'))
                (filter (fun t => Tenant.isActive t = 1) (tenants (ledger db'))))
    as Heach.
  apply Forall_forall. intros inv Hinv Hunit.
  apply list_elem_of_lookup in Hinv as [i Hi].
  destruct (Forall2_lookup_r _ _ _ _ _ Heach Hi)
    as (t & _ & _ & Htu & _ & _ & u0 & Hu0 & Hamount & _).
  rewrite <- Htu, Hunit, Hu' in Hu0. injection Hu0 as <-.
  rewrite Hamount. reflexivity.
Qed.

Lemma patchUnit_rent_applies_from_now_on_witness :
  exists u' db' b st',
    patchUnit Accounts.newcomer 1 (Success (UnitData.rent_only (Fin 1200)))
      Accounts.database = (Ok (Json 200 u'), db')
    /\ Unit.monthlyRent u' = Fin 1200
    /\ rentInvoices (ledger db') = [Sample.invoice]
    /\ generateInvoices 7 2025 (ledger db') = (Json 201 b, st')
    /\ RentInvoice.amount <$> Generated.invoices b = [Fin 1200].
Proof.
  destruct (patchUnit_rent_applies_from_now_on Accounts.newcomer 1 (Fin 1200)
              Accounts.database (Unit.mk 1 1 "A-1" (Fin 1000)) 7 2025)
    as (u' & db' & Hrun & Hu' & _ & Hinv & _ & _ & b & st' & Hgen & _).
  - by_evaluation.
  - unfold units_constrained. by_evaluation.
  - reflexivity.
  - discriminate.
  - discriminate.
  - exists u', db', b, st'. split; [exact Hrun|].
    split; [rewrite Hu'; reflexivity|]. split; [exact Hinv|].
    split; [exact Hgen|].
    vm_compute in Hrun. injection Hrun as _ <-.
    vm_compute in Hgen. injection Hgen as <- _. reflexivity.
Defined.

(** ** Adding a unit *)

(** X21.  Adding a unit to an existing property answers 201 with the
    unit under the next id, at rent 0 when the body names none; the unit
    is appended to the table, its page shows it at once, the pages of the
    other units answer as before, and one "create_unit" audit row is
    written.  For a property that does not exist the insert is refused by
    the foreign key: the handler throws without an answer, and neither a
    unit nor an audit row is stored. *)
Theorem addUnit_then_showUnit user data db :
  DatabaseStorage.user_exists db (User.id user) ->
  Forall (fun u => Unit.id u < nextUnitId db) (units (ledger db)) ->
  (DatabaseStorage.property_exists db (UnitData.i_propertyId data) ->
   exists unit db',
     addUnit user (Success data) db = (Ok (Json 201 unit), db')
     /\ unit = Unit.mk (nextUnitId db) (UnitData.i_propertyId data)
                 (UnitData.i_unitName data)
                 (default Num.zero (UnitData.i_monthlyRent data))
     /\ units (ledger db') = units (ledger db) ++ [unit]
     /\ showUnit (Unit.id unit) db' = (Ok (Json 200 unit), db')
     /\ (forall id,
           id <> Unit.id unit ->
           fst (showUnit id db') = fst (showUnit id db))
     /\ exists log,
          adminLogs db' = adminLogs db ++ [log]
          /\ AdminLog.action log = "create_unit"%string
          /\ AdminLog.newValue log = Some (OfUnit unit))
  /\ (~ DatabaseStorage.property_exists db (UnitData.i_propertyId data) ->
      exists message db',
        addUnit user (Success data) db = (Throw message, db')
        /\ units (ledger db') = units (ledger db)
        /\ adminLogs db' = adminLogs db).
Proof.
  intros Huser Hids. split.
  - intros Hp. unfold addUnit, and_then at 1, DatabaseStorage.createUnit.
    rewrite decide_True by exact Hp.
    unfold and_then, DatabaseStorage.createAuditLog, ok.
    rewrite decide_True by exact Huser.
    set (unit := UnitData.row (nextUnitId db) data).
    eexists unit, _. split; [reflexivity|]. split; [reflexivity|].
    split; [reflexivity|].
    assert (Hfresh : head (filter (fun u => Unit.id u = nextUnitId db)
                             (units (ledger db))) = None).
    { apply head_filter_None. intros x Hx E.
      rewrite Forall_forall in Hids. specialize (Hids x Hx). lia. }
    split.
    { unfold showUnit, and_then, DatabaseStorage.getUnit, reads,
        storage.getUnit, gets.
      cbn [fst DatabaseStorage.set_adminLogs DatabaseStorage.set_units ledger
           storage.set_auditLogs units Unit.id unit UnitData.row].
      rewrite (head_filter_app_new _ _ unit Hfresh eq_refl). reflexivity. }
    split.
    { intros id Hne. unfold showUnit, and_then, DatabaseStorage.getUnit, reads,
        storage.getUnit, gets.
      cbn [fst DatabaseStorage.set_adminLogs DatabaseStorage.set_units ledger
           storage.set_auditLogs units].
      rewrite filter_app, filter_cons, decide_False, filter_nil, app_nil_r
        by (intros E; apply Hne; symmetry; exact E).
      destruct (head (filter (fun u => Unit.id u = id) (units (ledger db))));
        reflexivity. }
    eexists. split; [reflexivity|]. split; reflexivity.
  - intros Hp. unfold addUnit, and_then, DatabaseStorage.createUnit.
    rewrite decide_False by exact Hp.
    eexists _, _. split; [reflexivity|]. split; reflexivity.
Qed.

Lemma addUnit_then_showUnit_witness :
  (exists unit db',
     addUnit Accounts.accountant (Success shop) Accounts.database
     = (Ok (Json 201 unit), db')
     /\ unit = Unit.mk 3 1 "Shop 3" (Fin 0)
     /\ showUnit 3 db' = (Ok (Json 200 unit), db'))
  /\ exists message db',
       addUnit Accounts.accountant (Success stray_shop) Accounts.database
       = (Throw message, db')
       /\ units (ledger db') = units (ledger Accounts.database).
Proof.
  destruct (addUnit_then_showUnit Accounts.accountant shop Accounts.database)
    as [Hadd _]; [by_evaluation | by_evaluation |].
  destruct (addUnit_then_showUnit Accounts.accountant stray_shop
              Accounts.database)
    as [_ Hstray]; [by_evaluation | by_evaluation |].
  split.
  - destruct Hadd as (unit & db' & Hrun & Hunit & _ & Hshow & _);
      [by_evaluation|].
    exists unit, db'. split; [exact Hrun|]. split; [exact Hunit|].
    rewrite Hunit in Hshow at 1. exact Hshow.
  - destruct Hstray as (message & db' & Hrun & Hunits & _); [by_evaluation|].
    exists message, db'. auto.
Defined.

(** ** Deleting units and tenants *)

Lemma deleteUnit_refused id db inv :
  inv ∈ rentInvoices (ledger db) ->
  DatabaseStorage.goes_with_unit (ledger db) id inv ->
  DatabaseStorage.matched_by_payment (ledger db) inv ->
  removeUnit id db = (Throw "violates foreign key constraint", db).
Proof.
  intros Hin Hgo Hm. unfold removeUnit, and_then, DatabaseStorage.deleteUnit.
  rewrite decide_True; [reflexivity|].
  apply Exists_exists. exists inv. auto.
Qed.

Lemma deleteTenant_refused id db inv :
  inv ∈ rentInvoices (ledger db) ->
  RentInvoice.tenantId inv = id ->
  DatabaseStorage.matched_by_payment (ledger db) inv ->
  removeTenant id db = (Throw "violates foreign key constraint", db).
Proof.
  intros Hin Hgo Hm. unfold removeTenant, and_then, DatabaseStorage.deleteTenant.
  rewrite decide_True; [reflexivity|].
  apply Exists_exists. exists inv. auto.
Qed.

(** X22.  Deleting a unit asks for no right over it and writes no audit
    row.  When no payment is matched to an invoice of the unit or of one
    of its tenants, the answer is 204 and the unit is gone together with
    its tenants and with every invoice of the unit or of those tenants;
    all other units, tenants and invoices, and all payments, property
    users and settlements stay as they were, and the unit's page answers
    404. *)
Theorem removeUnit_cascades id db :
  Forall (fun inv =>
            DatabaseStorage.goes_with_unit (ledger db) id inv ->
            ~ DatabaseStorage.matched_by_payment (ledger db) inv)
         (rentInvoices (ledger db)) ->
  exists db',
    removeUnit id db = (Ok (Json 204 tt), db')
    /\ showUnit id db' = (Ok (Fail 404 "Not found"), db')
    /\ units (ledger db') = filter (fun u => Unit.id u <> id) (units (ledger db))
    /\ tenants (ledger db')
       = filter (fun t => Tenant.unitId t <> id) (tenants (ledger db))
    /\ (forall inv,
          inv ∈ rentInvoices (ledger db')
          <-> inv ∈ rentInvoices (ledger db)
              /\ RentInvoice.unitId inv <> id
              /\ forall t,
                   t ∈ tenants (ledger db) -> Tenant.unitId t = id ->
                   RentInvoice.tenantId inv <> Tenant.id t)
    /\ rentInvoices (ledger db') `sublist_of` rentInvoices (ledger db)
    /\ payments (ledger db') = payments (ledger db)
    /\ propertyUsers (ledger db') = propertyUsers (ledger db)
    /\ ownerSettlements (ledger db') = ownerSettlements (ledger db)
    /\ auditLogs (ledger db') = auditLogs (ledger db)
    /\ adminLogs db' = adminLogs db.
Proof.
  intros Hfree. unfold removeUnit, and_then, DatabaseStorage.deleteUnit.
  rewrite decide_False.
  2:{ intros Hex. apply Exists_exists in Hex as (inv & Hin & Hgo & Hm).
      rewrite Forall_forall in Hfree. exact (Hfree inv Hin Hgo Hm). }
  eexists. split; [reflexivity|]. split.
  { unfold showUnit, and_then, DatabaseStorage.getUnit, reads, storage.getUnit,
      gets.
    cbn [fst DatabaseStorage.set_tables DatabaseStorage.set_ledger ledger units].
    rewrite list_filter_filter.
    assert (Hnone : head (filter (fun u => Unit.id u = id /\ Unit.id u <> id)
                            (units (ledger db))) = None).
    { apply head_filter_None. intros u _ [E Hne]. contradiction. }
    rewrite Hnone. reflexivity. }
  split; [reflexivity|]. split; [reflexivity|]. split.
  { intros inv.
    cbn [DatabaseStorage.set_tables DatabaseStorage.set_ledger ledger rentInvoices].
    rewrite list_elem_of_filter. unfold DatabaseStorage.goes_with_unit. split.
    - intros [Hno Hin]. split; [exact Hin|]. split.
      + intros E. apply Hno. left. exact E.
      + intros t Ht Hu E. apply Hno. right. rewrite E.
        apply list_elem_of_fmap. exists t. split; [reflexivity|].
        apply list_elem_of_filter. auto.
    - intros (Hin & Hu & Ht). split; [|exact Hin].
      intros [E|E]; [contradiction|].
      apply list_elem_of_fmap in E as (t & E & Hin').
      apply list_elem_of_filter in Hin' as [Htu Hin'].
      exact (Ht t Hin' Htu E). }
  split; [apply sublist_filter|].
  repeat split.
Qed.

Lemma removeUnit_cascades_witness :
  exists db',
    removeUnit 3 matching_database = (Ok (Json 204 tt), db')
    /\ showUnit 3 db' = (Ok (Fail 404 "Not found"), db')
    /\ units (ledger db') = []
    /\ tenants (ledger db') = []
    /\ rentInvoices (ledger db') = [].
Proof.
  destruct (removeUnit_cascades 3 matching_database)
    as (db' & Hrun & Hshow & Hunits & Htenants & _ & _); [by_evaluation|].
  exists db'. split; [exact Hrun|]. split; [exact Hshow|].
  split; [rewrite Hunits; reflexivity|].
  split; [rewrite Htenants; reflexivity|].
  vm_compute in Hrun. injection Hrun as <-. reflexivity.
Defined.

(** X23.  An invoice that a payment was matched to pins its unit and its
    tenant.  After a payment was recorded with a tenant name and
    auto-matched to an invoice, deleting that invoice's unit and deleting
    its tenant are both refused by the foreign key of the payment: the
    handlers throw without an answer and nothing is deleted. *)
Theorem matched_invoice_blocks_deletion userId data db m :
  text_truthy (Payment.i_tenantName data) = true ->
  List.find (matches (Payment.row (nextPaymentId (ledger db)) data))
    (merge_sort storage.newer_first (rentInvoices (ledger db)))
  = Some m ->
  exists payment st',
    recordPayment userId data (ledger db) = (Json 201 payment, st')
    /\ Payment.matchedInvoiceId payment = Some (RentInvoice.id m)
    /\ payment ∈ payments st'
    /\ removeUnit (RentInvoice.unitId m) (DatabaseStorage.set_ledger st' db)
       = (Throw "violates foreign key constraint",
          DatabaseStorage.set_ledger st' db)
    /\ removeTenant (RentInvoice.tenantId m) (DatabaseStorage.set_ledger st' db)
       = (Throw "violates foreign key constraint",
          DatabaseStorage.set_ledger st' db).
Proof.
  intros Hname Hfind.
  destruct (recordPayment_matched userId data (ledger db) m Hname Hfind)
    as (st' & Hrun & Hinv & Hpay).
  set (payment := Payment.row (nextPaymentId (ledger db)) data) in *.
  set (matched := Payment.set_match (RentInvoice.id m) Matched payment) in *.
  assert (Hin : m ∈ rentInvoices (ledger db)).
  { apply find_first in Hfind as (before & after & Hall & _).
    rewrite <- (merge_sort_Permutation storage.newer_first
                  (rentInvoices (ledger db))).
    rewrite Hall. apply elem_of_app. right. apply list_elem_of_here. }
  assert (Hp : matched ∈ payments st').
  { rewrite Hpay. unfold storage.update_where. rewrite map_app.
    apply elem_of_app. right. cbn [map Payment.row Payment.id payment].
    rewrite Z.eqb_refl. apply list_elem_of_here. }
  set (m' := RentInvoice.set (match_patch payment) m).
  assert (Hm' : m' ∈ rentInvoices st').
  { rewrite Hinv. unfold storage.update_where.
    change (map ?g ?l) with (g <$> l).
    apply list_elem_of_fmap. exists m. split; [|exact Hin].
    rewrite Z.eqb_refl. reflexivity. }
  assert (Hmatched : DatabaseStorage.matched_by_payment st' m').
  { unfold DatabaseStorage.matched_by_payment.
    apply list_elem_of_fmap. exists matched. split; [reflexivity | exact Hp]. }
  exists matched, st'. split; [exact Hrun|]. split; [reflexivity|].
  split; [exact Hp|]. split.
  - apply (deleteUnit_refused _ _ m'); [exact Hm' | left; reflexivity
                                       | exact Hmatched].
  - apply (deleteTenant_refused _ _ m'); [exact Hm' | reflexivity
                                         | exact Hmatched].
Qed.

Lemma matched_invoice_blocks_deletion_witness :
  removeUnit 3 matched_database
  = (Throw "violates foreign key constraint", matched_database)
  /\ removeTenant 3 matched_database
     = (Throw "violates foreign key constraint", matched_database).
Proof.
  destruct (matched_invoice_blocks_deletion 10 Sample.payment_79999_50
              matching_database
              (RentInvoice.mk 3 3 3 6 2025 (Fin 80000) Unpaid (Some (Fin 0))
                 None None (Some "INV-202506-3"%string) 0 0 None))
    as (payment & st' & Hrun & _ & _ & Hunit & Htenant).
  - reflexivity.
  - reflexivity.
  - assert (E : DatabaseStorage.set_ledger st' matching_database
                = matched_database).
    { unfold matching_database in Hrun.
      cbn [ledger DatabaseStorage.set_ledger] in Hrun.
      unfold matched_database, matching_database. rewrite Hrun.
      reflexivity. }
    rewrite E in Hunit, Htenant. split; assumption.
Defined.

(** ** Deleting a property *)

Lemma removeProperty_run user propertyId db :
  DatabaseStorage.user_exists db (User.id user) ->
  is_owner db user propertyId ->
  removeProperty user propertyId db
  = (let (r, db') :=
       DatabaseStorage.deleteProperty propertyId
         (DatabaseStorage.set_adminLogs
            (adminLogs db
             ++ [AdminLog.mk (nextAuditLogId (ledger db)) (Some (User.id user))
                   "delete_property" (Some "properties"%string)
                   (Some propertyId) None None])
            (nextAuditLogId (ledger db) + 1) db) in
     match r with
     | Ok _ => (Ok (Json 204 tt), db')
     | Throw message => (Throw message, db')
     end).
Proof.
  intros Hu Ho. unfold removeProperty, and_then at 1. rewrite Ho. cbn [negb].
  unfold and_then at 1, DatabaseStorage.createAuditLog.
  rewrite decide_True by exact Hu. unfold and_then.
  destruct (DatabaseStorage.deleteProperty _ _) as [[[]|message] db'];
    reflexivity.
Qed.

(** X24.  Deleting a property is reserved to its owner or a super
    admin: anyone else gets 403 and nothing changes.  For the owner, a
    "delete_property" audit row is written first.  If a payment is
    matched to an invoice of one of the property's units or of their
    tenants, the delete is then refused: the handler throws, the audit
    row stays and nothing is deleted.  Otherwise the answer is 204 and the
    property is gone with its property users and units; payments are
    kept, and the former owner, unless a super admin, is refused the
    property's page from then on. *)
Theorem removeProperty_outcomes user propertyId db :
  DatabaseStorage.user_exists db (User.id user) ->
  (~ is_owner db user propertyId ->
   removeProperty user propertyId db
   = (Ok (Fail 403 "Only property owner can delete"), db))
  /\ (is_owner db user propertyId ->
      exists r db' log,
        removeProperty user propertyId db = (r, db')
        /\ adminLogs db' = adminLogs db ++ [log]
        /\ AdminLog.action log = "delete_property"%string
        /\ AdminLog.userId log = Some (User.id user)
        /\ AdminLog.recordId log = Some propertyId
        /\ payments (ledger db') = payments (ledger db)
        /\ (Exists (fun inv =>
                      DatabaseStorage.goes_with_property (ledger db)
                        propertyId inv
                      /\ DatabaseStorage.matched_by_payment (ledger db) inv)
                   (rentInvoices (ledger db)) ->
            r = Throw "violates foreign key constraint"
            /\ properties db' = properties db
            /\ memberships db' = memberships db
            /\ units (ledger db') = units (ledger db)
            /\ tenants (ledger db') = tenants (ledger db)
            /\ rentInvoices (ledger db') = rentInvoices (ledger db))
        /\ (~ Exists (fun inv =>
                        DatabaseStorage.goes_with_property (ledger db)
                          propertyId inv
                        /\ DatabaseStorage.matched_by_payment (ledger db) inv)
                     (rentInvoices (ledger db)) ->
            r = Ok (Json 204 tt)
            /\ properties db'
               = filter (fun p => Property.id p <> propertyId) (properties db)
            /\ memberships db'
               = filter (fun pu => PropertyUser.propertyId pu <> propertyId)
                   (memberships db)
            /\ units (ledger db')
               = filter (fun u => Unit.propertyId u <> propertyId)
                   (units (ledger db))
            /\ ~ DatabaseStorage.property_exists db' propertyId
            /\ (User.role user <> SuperAdmin ->
                showProperty user propertyId db'
                = (Ok (Fail 403 "Access denied"), db')))).
Proof.
  intros Hu. split.
  - intros Hno. unfold removeProperty, and_then.
    destruct (is_owner_dec db user propertyId) as [Ho|Ho]; [contradiction|].
    rewrite Ho. reflexivity.
  - intros Ho. rewrite (removeProperty_run user propertyId db Hu Ho).
    unfold DatabaseStorage.deleteProperty.
    change (ledger (DatabaseStorage.set_adminLogs ?l ?n db))
      with (storage.set_auditLogs (auditLogs (ledger db)) n (ledger db)).
    cbn [storage.set_auditLogs rentInvoices units tenants payments
         propertyUsers ownerSettlements].
    change (DatabaseStorage.goes_with_property
              {| propertyUsers := propertyUsers (ledger db);
                 units := units (ledger db);
                 tenants := tenants (ledger db);
                 rentInvoices := rentInvoices (ledger db);
                 ownerSettlements := ownerSettlements (ledger db);
                 payments := payments (ledger db);
                 auditLogs := auditLogs (ledger db);
                 nextRentInvoiceId := nextRentInvoiceId (ledger db);
                 nextOwnerSettlementId := nextOwnerSettlementId (ledger db);
                 nextPaymentId := nextPaymentId (ledger db);
                 nextAuditLogId := nextAuditLogId (ledger db) + 1 |})
      with (DatabaseStorage.goes_with_property (ledger db)).
    change (DatabaseStorage.matched_by_payment
              {| propertyUsers := propertyUsers (ledger db);
                 units := units (ledger db);
                 tenants := tenants (ledger db);
                 rentInvoices := rentInvoices (ledger db);
                 ownerSettlements := ownerSettlements (ledger db);
                 payments := payments (ledger db);
                 auditLogs := auditLogs (ledger db);
                 nextRentInvoiceId := nextRentInvoiceId (ledger db);
                 nextOwnerSettlementId := nextOwnerSettlementId (ledger db);
                 nextPaymentId := nextPaymentId (ledger db);
                 nextAuditLogId := nextAuditLogId (ledger db) + 1 |})
      with (DatabaseStorage.matched_by_payment (ledger db)).
    destruct (decide (Exists _ (rentInvoices (ledger db)))) as [Hb|Hb].
    + eexists _, _, _. split; [reflexivity|]. split; [reflexivity|].
      do 4 (split; [reflexivity|]). split.
      * intros _. repeat split.
      * intros Hnb. contradiction.
    + eexists _, _, _. split; [reflexivity|]. split; [reflexivity|].
      do 4 (split; [reflexivity|]). split; [intros Hb'; contradiction|].
      intros _. do 4 (split; [reflexivity|]). split.
      * unfold DatabaseStorage.property_exists. cbn [properties].
        intros Hin. apply list_elem_of_fmap in Hin as (p & Hp & Hin).
        apply list_elem_of_filter in Hin as [Hne _]. congruence.
      * intros Hrole. rewrite showProperty_run, UserRole_eqb_neq by exact Hrole.
        cbn [orb]. unfold membership, memberships. cbn [ledger propertyUsers].
        rewrite list_filter_filter.
        assert (Hnone : head (filter
                   (fun pu => (PropertyUser.userId pu = User.id user
                               /\ PropertyUser.propertyId pu = propertyId)
                              /\ PropertyUser.propertyId pu <> propertyId)
                   (propertyUsers (ledger db))) = None).
        { apply head_filter_None. intros pu _ [[_ E] Hne]. contradiction. }
        rewrite Hnone. reflexivity.
Qed.

Lemma removeProperty_outcomes_witness :
  removeProperty Accounts.partner 1 Accounts.database
  = (Ok (Fail 403 "Only property owner can delete"), Accounts.database)
  /\ (exists db',
        removeProperty Accounts.owner 1 Accounts.database
        = (Ok (Json 204 tt), db')
        /\ properties db' = []
        /\ showProperty Accounts.owner 1 db'
           = (Ok (Fail 403 "Access denied"), db'))
  /\ exists db',
       removeProperty Accounts.owner 1 matched_database
       = (Throw "violates foreign key constraint", db')
       /\ properties db' = properties matched_database
       /\ length (adminLogs db') = 1%nat.
Proof.
  destruct (removeProperty_outcomes Accounts.partner 1 Accounts.database)
    as [Hno _]; [by_evaluation|].
  destruct (removeProperty_outcomes Accounts.owner 1 Accounts.database)
    as [_ Hyes]; [by_evaluation|].
  destruct (removeProperty_outcomes Accounts.owner 1 matched_database)
    as [_ Hblocked]; [by_evaluation|].
  split; [apply Hno; discriminate|]. split.
  - destruct (Hyes eq_refl) as (r & db' & log & Hrun & _ & _ & _ & _ & _ & _ & Hok).
    destruct Hok as (-> & Hprops & _ & _ & _ & Hshow); [by_evaluation|].
    exists db'. split; [exact Hrun|]. split; [rewrite Hprops; reflexivity|].
    apply Hshow. discriminate.
  - destruct (Hblocked eq_refl)
      as (r & db' & log & Hrun & Hlog & _ & _ & _ & _ & Hthrow & _).
    destruct Hthrow as (-> & Hprops & _); [by_evaluation|].
    exists db'. split; [exact Hrun|]. split; [exact Hprops|].
    rewrite Hlog. reflexivity.
Defined.
